(** * TexFlow data service: order state derivation and tabular round trip

    A shallow embedding of [src/services/dataService.ts].

    Conventions of the embedding.
    - A JavaScript [number] is an IEEE-754 binary64 value: Rocq's primitive
      [float], with the primitive comparisons and arithmetic.
    - A JavaScript [Date] is its time value, a [number] of milliseconds since
      the epoch ([NaN] for an invalid date), as in ECMAScript.
    - A JavaScript string is a [string]: a sequence of 8-bit code units.
    - [null] in a field typed [T | null] is [None].
    - A plain JavaScript object is an association list in enumeration order
      without repeated keys. *)

From Stdlib Require Import ZArith List Bool String Ascii Lia.
From Stdlib Require Import Floats DecimalString.

#[global] Set Warnings "-register-all,-inexact-float".
Import ListNotations.
Open Scope string_scope.

(** ** Numbers *)

Definition number := float.

(** [!n] is true exactly for [0], [-0] and [NaN]. *)
Definition number_truthy (n : number) : bool := (n <? 0)%float || (0 <? n)%float.

(** ** Dates *)

Record Date : Set := mkDate { getTime : number }.

(** [a < b] on two dates compares their time values. *)
Definition date_lt (a b : Date) : bool := (getTime a <? getTime b)%float.
Definition date_le (a b : Date) : bool := (getTime a <=? getTime b)%float.


(** ** JavaScript values

    What a spreadsheet cell, a database column or a parsed JSON text can
    hold. *)

Inductive JsVal : Set :=
| VUndef
| VNull
| VBool (b : bool)
| VNum (n : number)
| VStr (s : string)
| VDate (d : Date)
| VObj (fields : list (string * JsVal))
| VArr (items : list JsVal).

Definition JsObj : Set := list (string * JsVal).

(** ToBoolean. *)
Definition truthy (v : JsVal) : bool :=
  match v with
  | VUndef | VNull => false
  | VBool b => b
  | VNum n => number_truthy n
  | VStr s => negb (s =? "")
  | VDate _ | VObj _ | VArr _ => true
  end.

(** [a || b]. *)
Definition js_or (a b : JsVal) : JsVal := if truthy a then a else b.

(** [o[k]]: the value of an own property, [undefined] when there is none. *)
Fixpoint obj_get (o : JsObj) (k : string) : JsVal :=
  match o with
  | [] => VUndef
  | (k', v) :: rest => if k' =? k then v else obj_get rest k
  end.

(** [o[k] = v]: an existing key keeps its place, a new one goes last. This is
    the property order of JavaScript for keys that are not array indices,
    as the field names, column letters and sector ids of this module are. *)
Fixpoint obj_set (o : JsObj) (k : string) (v : JsVal) : JsObj :=
  match o with
  | [] => [(k, v)]
  | (k', v') :: rest =>
      if k' =? k then (k', v) :: rest else (k', v') :: obj_set rest k v
  end.

Definition obj_keys (o : JsObj) : list string := map fst o.

Definition obj_has (o : JsObj) (k : string) : bool :=
  existsb (String.eqb k) (obj_keys o).

(** Outcome of code that can throw. *)
Inductive result (A : Type) : Type :=
| Ok (a : A)
| Err (msg : string).
Arguments Ok {A} a.
Arguments Err {A} msg.

Definition bind {A B : Type} (r : result A) (f : A -> result B) : result B :=
  match r with
  | Ok a => f a
  | Err m => Err m
  end.

Notation "x <- r ;; k" := (bind r (fun x => k))
  (at level 61, r at next level, right associativity).

(** [try { r } catch { d }]. *)
Definition try_catch {A : Type} (r : result A) (d : A) : A :=
  match r with
  | Ok a => a
  | Err _ => d
  end.

(** ** Strings *)

Definition code (c : ascii) : N := N_of_ascii c.

(** A string is the sequence of the bytes of its UTF-8 encoding; a
    character of JavaScript (a UTF-16 code unit) is one to three bytes, and
    a pair of surrogates is four. *)

(** White space of one byte: TAB, LF, VT, FF, CR and the space. *)
Definition is_ws (c : ascii) : bool :=
  let n := code c in
  ((9 <=? n) && (n <=? 13) || (n =? 32))%N.

(** White space of two bytes: the no-break space U+00A0. *)
Definition is_ws2 (a b : ascii) : bool :=
  ((code a =? 194) && (code b =? 160))%N.

(** White space of three bytes: U+1680, U+2000 to U+200A, the line and
    paragraph separators U+2028 and U+2029, U+202F, U+205F, U+3000 and the
    byte order mark U+FEFF. *)
Definition is_ws3 (a b c : ascii) : bool :=
  let x := code a in
  let y := code b in
  let z := code c in
  ((x =? 225) && (y =? 154) && (z =? 128)
   || (x =? 226) && (y =? 128)
      && ((128 <=? z) && (z <=? 138) || (z =? 168) || (z =? 169) || (z =? 175))
   || (x =? 226) && (y =? 129) && (z =? 159)
   || (x =? 227) && (y =? 128) && (z =? 128)
   || (x =? 239) && (y =? 187) && (z =? 191))%N.

(** [s.trimStart()]: the white space and the line terminators of
    ECMAScript are removed, whatever their length in bytes. *)
Fixpoint trimStart (s : string) : string :=
  match s with
  | String a r1 =>
      if is_ws a then trimStart r1 else
      match r1 with
      | String b r2 =>
          if is_ws2 a b then trimStart r2 else
          match r2 with
          | String c r3 => if is_ws3 a b c then trimStart r3 else s
          | EmptyString => s
          end
      | EmptyString => s
      end
  | EmptyString => EmptyString
  end.

(** A text of white space only. *)
Definition blank (s : string) : bool := trimStart s =? "".

(** [s.trimEnd()]: what is left of the text from the point where only
    white space follows is removed. *)
Fixpoint trimEnd (s : string) : string :=
  match s with
  | String c r => if blank s then "" else String c (trimEnd r)
  | EmptyString => EmptyString
  end.

Definition trim (s : string) : string := trimEnd (trimStart s).

(** [s.length]: the number of UTF-16 code units. A byte that continues a
    character counts for nothing; the first byte of a character of four
    bytes counts for the two surrogates. *)
Fixpoint js_length (s : string) : nat :=
  match s with
  | String c r =>
      let n := code c in
      let units :=
        if ((n <? 128) || (192 <=? n) && (n <? 240))%N then 1%nat
        else if (240 <=? n)%N then 2%nat else 0%nat in
      (units + js_length r)%nat
  | EmptyString => 0%nat
  end.

(** Lower case of the letters A to Z. The letters outside ASCII are left as
    they are: the module only searches the result for [doc], and no other
    character has d, o or c as its lower case. *)
Definition lower_char (c : ascii) : ascii :=
  let n := code c in
  if ((65 <=? n) && (n <=? 90))%N then ascii_of_N (n + 32) else c.

Fixpoint toLowerCase (s : string) : string :=
  match s with
  | String c r => String (lower_char c) (toLowerCase r)
  | EmptyString => EmptyString
  end.

(** [s.includes(sub)]. *)
Fixpoint includes (s sub : string) : bool :=
  prefix sub s
  || match s with
     | String _ r => includes r sub
     | EmptyString => false
     end.

(** [s.includes(c)] for a pattern of one character. *)
Fixpoint has_char (s : string) (c : ascii) : bool :=
  match s with
  | String a r => Ascii.eqb a c || has_char r c
  | EmptyString => false
  end.

(** [s.replace(/c/g, '')]. *)
Fixpoint remove_all (c : ascii) (s : string) : string :=
  match s with
  | String a r => if Ascii.eqb a c then remove_all c r else String a (remove_all c r)
  | EmptyString => EmptyString
  end.

(** [s.replace(c, d)]: the first occurrence only. *)
Fixpoint replace_first (c d : ascii) (s : string) : string :=
  match s with
  | String a r => if Ascii.eqb a c then String d r else String a (replace_first c d r)
  | EmptyString => EmptyString
  end.

(** [s.split(c)]: never empty. *)
Fixpoint split (c : ascii) (s : string) : list string :=
  match s with
  | EmptyString => [""]
  | String a r =>
      if Ascii.eqb a c then "" :: split c r
      else match split c r with
           | p :: ps => String a p :: ps
           | [] => [String a ""]
           end
  end.

(** [s.startsWith(p)] and [s.replace(p, '')] for a string pattern. *)
Definition startsWith (s p : string) : bool := prefix p s.

Fixpoint drop (n : nat) (s : string) : string :=
  match n, s with
  | S n', String _ r => drop n' r
  | _, _ => s
  end.

Fixpoint replace_str (p : string) (s : string) : string :=
  if prefix p s then drop (length p) s
  else match s with
       | String a r => String a (replace_str p r)
       | EmptyString => EmptyString
       end.

Fixpoint join (sep : string) (l : list string) : string :=
  match l with
  | [] => ""
  | [x] => x
  | x :: rest => x ++ sep ++ join sep rest
  end.

(** ** Decimal text and binary64 *)

Definition is_nan (n : number) : bool := negb (n =? n)%float.

Definition digit_of (c : ascii) : option Z :=
  let n := code c in
  if ((48 <=? n) && (n <=? 57))%N then Some (Z.of_N n - 48)%Z else None.

(** The longest run of decimal digits at the head of [s]: its value, its
    length, and what follows. *)
Fixpoint span_digits (s : string) (acc : Z) (len : Z) : Z * Z * string :=
  match s with
  | String c r =>
      match digit_of c with
      | Some d => span_digits r (acc * 10 + d)%Z (len + 1)%Z
      | None => (acc, len, s)
      end
  | EmptyString => (acc, len, s)
  end.

(** The binary64 value nearest to the positive rational [n / d], ties to
    even; overflow gives [infinity]. *)
Definition float_of_ratio (n d : Z) : float :=
  let e0 := (Z.log2 n - Z.log2 d - 53)%Z in
  let scaled (e : Z) : Z * Z :=
    if (e <? 0)%Z then (n * 2 ^ (- e), d)%Z else (n, d * 2 ^ e)%Z in
  let q0 := (let (a, b) := scaled e0 in a / b)%Z in
  let e1 := if (q0 <? 2 ^ 53)%Z then e0 else (e0 + 1)%Z in
  let e := Z.max e1 (-1074) in
  let (a, b) := scaled e in
  let q := (a / b)%Z in
  let r := (a mod b)%Z in
  let q' :=
    match (2 * r ?= b)%Z with
    | Gt => (q + 1)%Z
    | Eq => if Z.even q then q else (q + 1)%Z
    | Lt => q
    end in
  FloatOps.Z.ldexp (PrimFloat.of_uint63 (Uint63.of_Z q')) e.

(** The number denoted by the decimal numeral [m * 10 ^ e10], [m >= 0]. *)
Definition float_of_decimal (neg : bool) (m e10 : Z) : float :=
  let digits := (Z.log2 m * 30103 / 100000 + 1)%Z in
  let mag :=
    if (m =? 0)%Z then 0%float
    else if (400 <? e10 + digits)%Z then infinity
    else if (e10 + digits <? -400)%Z then 0%float
    else if (0 <=? e10)%Z then float_of_ratio (m * 10 ^ e10) 1
    else float_of_ratio m (10 ^ (- e10)) in
  if neg then (- mag)%float else mag.

Definition float_of_Z (z : Z) : float :=
  float_of_decimal (z <? 0)%Z (Z.abs z) 0.

(** The integer part of a finite number (toward zero); [None] for [NaN] and
    the infinities. *)
Definition Z_of_float (f : float) : option Z :=
  match Prim2SF f with
  | S754_zero _ => Some 0%Z
  | S754_finite s m e =>
      let a := if (0 <=? e)%Z then (Z.pos m * 2 ^ e)%Z else (Z.pos m / 2 ^ (- e))%Z in
      Some (if s then (- a)%Z else a)
  | S754_infinity _ | S754_nan => None
  end.

(** The exact value of a finite non-zero number as a fraction. *)
Definition ratio_of_float (f : float) : Z * Z :=
  match Prim2SF f with
  | S754_finite _ m e =>
      if (0 <=? e)%Z then (Z.pos m * 2 ^ e, 1)%Z else (Z.pos m, 2 ^ (- e))%Z
  | _ => (0, 1)%Z
  end.

(** [parseFloat]: leading white space, then the longest prefix that is a
    decimal literal; [NaN] when there is none. *)
Definition parseFloat (s : string) : number :=
  let s := trimStart s in
  let '(neg, s) :=
    match s with
    | String "-" r => (true, r)
    | String "+" r => (false, r)
    | _ => (false, s)
    end in
  if prefix "Infinity" s then (if neg then neg_infinity else infinity) else
  let '(ip, ilen, r1) := span_digits s 0 0 in
  let '(m, flen, r2) :=
    match r1 with
    | String "." r =>
        let '(m, tlen, r2) := span_digits r ip ilen in (m, (tlen - ilen)%Z, r2)
    | _ => (ip, 0%Z, r1)
    end in
  if (ilen + flen =? 0)%Z then nan else
  let exponent :=
    match r2 with
    | String c r =>
        if (Ascii.eqb c "e" || Ascii.eqb c "E")%bool then
          let '(eneg, r) :=
            match r with
            | String "-" r' => (true, r')
            | String "+" r' => (false, r')
            | _ => (false, r)
            end in
          let '(ev, elen, _) := span_digits r 0 0 in
          if (elen =? 0)%Z then 0%Z else if eneg then (- ev)%Z else ev
        else 0%Z
    | EmptyString => 0%Z
    end in
  float_of_decimal neg m (exponent - flen).

(** ** Number to text: [Number::toString] *)

Definition digits_of_Z (z : Z) : string :=
  NilZero.string_of_uint (N.to_uint (Z.to_N z)).

Fixpoint zeros (n : nat) : string :=
  match n with
  | O => ""
  | S n' => String "0" (zeros n')
  end.

(** [v >= 10 ^ j] for the positive fraction [v = num / den]. *)
Definition ratio_ge_pow10 (num den j : Z) : bool :=
  if (0 <=? j)%Z then (den * 10 ^ j <=? num)%Z else (den <=? num * 10 ^ (- j))%Z.

(** The [n] with [10 ^ (n - 1) <= v < 10 ^ n], searched around the estimate
    [n0]. *)
Fixpoint decimal_exponent (fuel : nat) (num den n0 : Z) : Z :=
  match fuel with
  | O => n0
  | S fuel' =>
      if ratio_ge_pow10 num den n0 then decimal_exponent fuel' num den (n0 + 1)%Z
      else if ratio_ge_pow10 num den (n0 - 1)%Z then n0
      else decimal_exponent fuel' num den (n0 - 1)%Z
  end.

(** The shortest digit string [s] (with [k] digits, [k0 <= k <= k0 + fuel])
    and exponent [n] such that [s * 10 ^ (n - k)] reads back as [x]. *)
Fixpoint shortest_digits (fuel : nat) (x : float) (num den n k : Z) : Z * Z * Z :=
  let '(a, b) :=
    if (0 <=? n - k)%Z then (num, den * 10 ^ (n - k))%Z
    else (num * 10 ^ (k - n), den)%Z in
  let lo := (a / b)%Z in
  let r := (a mod b)%Z in
  let '(hi, nhi) :=
    if (lo + 1 <? 10 ^ k)%Z then (lo + 1, n)%Z else (10 ^ (k - 1), n + 1)%Z in
  let ok_lo := Leibniz.eqb (float_of_decimal false lo (n - k)) x in
  let ok_hi := Leibniz.eqb (float_of_decimal false hi (nhi - k)) x in
  let prefer_hi :=
    match (2 * r ?= b)%Z with
    | Gt => true
    | Eq => Z.odd lo
    | Lt => false
    end in
  if ok_lo && (negb ok_hi || negb prefer_hi) then (lo, k, n)
  else if ok_hi then (hi, k, nhi)
  else match fuel with
       | O => (lo, k, n)
       | S fuel' => shortest_digits fuel' x num den n (k + 1)%Z
       end.

Definition Number_toString_pos (x : float) : string :=
  let '(num, den) := ratio_of_float x in
  let n0 := ((Z.log2 num - Z.log2 den) * 30103 / 100000)%Z in
  let n := decimal_exponent 4 num den n0 in
  let '(s, k, n) := shortest_digits 17 x num den n 1 in
  let ds := digits_of_Z s in
  let exponent_part :=
    (String "e" (if (0 <=? n - 1)%Z then "+" else "-")) ++ digits_of_Z (Z.abs (n - 1)) in
  if ((k <=? n) && (n <=? 21))%Z then ds ++ zeros (Z.to_nat (n - k))
  else if ((0 <? n) && (n <=? 21))%Z then
    substring 0 (Z.to_nat n) ds ++ "." ++ drop (Z.to_nat n) ds
  else if ((-6 <? n) && (n <=? 0))%Z then "0." ++ zeros (Z.to_nat (- n)) ++ ds
  else if (k =? 1)%Z then ds ++ exponent_part
  else substring 0 1 ds ++ "." ++ drop 1 ds ++ exponent_part.

Definition Number_toString (x : number) : string :=
  if is_nan x then "NaN"
  else if (x =? 0)%float then "0"
  else if (x =? infinity)%float then "Infinity"
  else if (x =? neg_infinity)%float then "-Infinity"
  else if (x <? 0)%float then "-" ++ Number_toString_pos (- x)%float
  else Number_toString_pos x.

(** [parseInt(s)] with no radix: white space, a sign, then decimal digits, or
    hexadecimal digits after [0x]; [NaN] when no digit is found. *)
Definition hex_digit_of (c : ascii) : option Z :=
  let n := code c in
  if ((48 <=? n) && (n <=? 57))%N then Some (Z.of_N n - 48)%Z
  else if ((97 <=? n) && (n <=? 102))%N then Some (Z.of_N n - 87)%Z
  else if ((65 <=? n) && (n <=? 70))%N then Some (Z.of_N n - 55)%Z
  else None.

Fixpoint span_hex (s : string) (acc : Z) (len : Z) : Z * Z :=
  match s with
  | String c r =>
      match hex_digit_of c with
      | Some d => span_hex r (acc * 16 + d)%Z (len + 1)%Z
      | None => (acc, len)
      end
  | EmptyString => (acc, len)
  end.

Definition parseInt_string (s : string) : number :=
  let s := trimStart s in
  let '(neg, s) :=
    match s with
    | String "-" r => (true, r)
    | String "+" r => (false, r)
    | _ => (false, s)
    end in
  let '(v, len) :=
    if (prefix "0x" s || prefix "0X" s)%bool then span_hex (drop 2 s) 0 0
    else let '(v, len, _) := span_digits s 0 0 in (v, len) in
  if (len =? 0)%Z then nan else float_of_decimal neg v 0.

(** ** The environment of the module

    What the module reads from its host and from the files it imports that
    are not under [src/]: the clock and the [Date] methods (which depend on
    the host's time zone), the date helpers of [utils/formatters], and the
    values of the enumerations of [types]. *)

Inductive OrderState : Set := OPEN | IN_PRODUCTION | LATE | COMPLETED.
Inductive SectorState : Set := NOT_STARTED | IN_PROGRESS | SECTOR_COMPLETED.

Record Env : Type := mkEnv {
  (** [new Date()] *)
  currentDate : Date;
  (** [d.setHours(h, m, s, ms)], in local time *)
  setHours : Date -> Z -> Z -> Z -> Z -> Date;
  (** [d.getDay()]: 0 is Sunday *)
  getDay : Date -> Z;
  (** [d.getDate()]: the day of the month *)
  getDate : Date -> Z;
  (** [d.setDate(n)] *)
  setDate : Date -> Z -> Date;
  (** [String(d)] *)
  Date_toString : Date -> string;
  (** [d.toISOString()] *)
  Date_toISOString : Date -> string;
  (** [new Date(s)] for a string *)
  Date_parse : string -> Date;
  (** [formatDate] of [utils/formatters]; [None] is [null] or [undefined] *)
  formatDate : option Date -> string;
  (** [parseExcelDate] of [utils/formatters] *)
  parseExcelDate : JsVal -> option Date;
  (** the value of a member of the enumeration [OrderState] *)
  OrderState_value : OrderState -> JsVal
}.

(** ** Conversions of values *)

(** ToString. *)
Fixpoint js_String (env : Env) (v : JsVal) : string :=
  match v with
  | VUndef => "undefined"
  | VNull => "null"
  | VBool true => "true"
  | VBool false => "false"
  | VNum n => Number_toString n
  | VStr s => s
  | VDate d => Date_toString env d
  | VObj _ => "[object Object]"
  | VArr items =>
      join ","
        (map (fun x => match x with
                       | VUndef | VNull => ""
                       | _ => js_String env x
                       end) items)
  end.

(** TimeClip. *)
Definition timeClip (t : number) : number :=
  match Z_of_float t with
  | Some z => if (Z.abs z <=? 8640000000000000)%Z then float_of_Z z else nan
  | None => nan
  end.

(** [new Date(v)]. *)
Definition newDate (env : Env) (v : JsVal) : Date :=
  match v with
  | VStr s => Date_parse env s
  | VDate d => d
  | VNum n => mkDate (timeClip n)
  | VBool b => mkDate (if b then 1 else 0)%float
  | VNull => mkDate 0%float
  | VUndef => mkDate nan
  | VObj _ | VArr _ => Date_parse env (js_String env v)
  end.

(** [d.toJSON()]: [null] for an invalid date. *)
Definition Date_toJSON (env : Env) (d : Date) : JsVal :=
  if is_nan (getTime d) then VNull else VStr (Date_toISOString env d).

(** [parseInt(v)]. *)
Definition parseInt (env : Env) (v : JsVal) : number :=
  parseInt_string (js_String env v).

(** ** [parseNumber] *)

Definition parseNumber (env : Env) (val : JsVal) : number :=
  match val with
  | VNum n => n
  | _ =>
      if negb (truthy val) then 0%float else
      let str := trim (js_String env val) in
      if str =? "" then 0%float else
      if has_char str "," && has_char str "." then
        let normalized := replace_first "," "." (remove_all "." str) in
        let num := parseFloat normalized in
        if is_nan num then 0%float else num
      else if has_char str "," then
        let normalized := replace_first "," "." str in
        let num := parseFloat normalized in
        if is_nan num then 0%float else num
      else
        let thousands :=
          if has_char str "." then
            let parts := split "." str in
            (1 <? List.length parts)%nat
            && (js_length (last parts "") =? 3)%nat
          else false in
        if thousands then
          let normalized := remove_all "." str in
          let num := parseFloat normalized in
          if is_nan num then 0%float else num
        else
          let num := parseFloat str in
          if is_nan num then 0%float else num
  end.
(** ** Orders (the fields of [Order] read by this module)

    A date that is [null] is [None]. The optional properties are taken at
    the value the exports write for a missing one: a sector mapping that is
    missing is the empty mapping, a flag that is missing is [false], and
    [archivedAt] or [archivedBy] that is missing is [None]. A mapping keeps
    its entries in insertion order, as [Object.entries] lists them. *)

Record Order : Set := mkOrder {
  id : string;
  docNr : string;
  clientCode : string;
  clientName : string;
  comercial : string;
  issueDate : option Date;
  requestedDate : option Date;
  itemNr : number;
  po : string;
  articleCode : string;
  reference : string;
  colorCode : string;
  colorDesc : string;
  size : string;
  family : string;
  sizeDesc : string;
  ean : string;
  qtyRequested : number;
  dataTec : option Date;
  felpoCruQty : number;
  felpoCruDate : option Date;
  tinturariaQty : number;
  tinturariaDate : option Date;
  confRoupoesQty : number;
  confFelposQty : number;
  confDate : option Date;
  embAcabQty : number;
  armExpDate : option Date;
  stockCxQty : number;
  dataEnt : option Date;
  qtyBilled : number;
  qtyOpen : number;
  sectorObservations : list (string * string);
  sectorPredictedDates : list (string * option Date);
  priority : number;
  isManual : bool;
  sectorStopReasons : list (string * string);
  dataEspecial : option Date;
  dataPrinter : option Date;
  dataDebuxo : option Date;
  dataAmostras : option Date;
  dataBordados : option Date;
  isArchived : bool;
  archivedAt : option Date;
  archivedBy : option string
}.

(** [now] of [getOrderState]: [new Date()] after [setHours(0, 0, 0, 0)]. *)
Definition today (env : Env) : Date := setHours env (currentDate env) 0 0 0 0.

(** [d && d < now]: a date object is always truthy, [null] is not. *)
Definition is_past (now : Date) (d : option Date) : bool :=
  match d with
  | Some d => date_lt d now
  | None => false
  end.

Definition getOrderState (env : Env) (order : Order) : OrderState :=
  let now := today env in
  let isCompleted :=
    (qtyOpen order =? 0)%float
    || ((qtyRequested order <=? stockCxQty order)%float && (0 <? qtyRequested order)%float) in
  if isCompleted then COMPLETED else
  if is_past now (dataTec order) && (felpoCruQty order <? qtyRequested order)%float then LATE else
  if is_past now (felpoCruDate order) && (felpoCruQty order <? qtyRequested order)%float then LATE else
  let confTotal := (confRoupoesQty order + confFelposQty order)%float in
  if is_past now (tinturariaDate order) && (confTotal <? qtyRequested order)%float then LATE else
  if is_past now (confDate order) && (embAcabQty order <? qtyRequested order)%float then LATE else
  if is_past now (requestedDate order) && (0 <? qtyOpen order)%float then LATE else
  let hasStarted :=
    (0 <? felpoCruQty order)%float || (0 <? tinturariaQty order)%float
    || (0 <? confTotal)%float || (0 <? embAcabQty order)%float in
  if hasStarted then IN_PRODUCTION else OPEN.

(** The closed set of sector identifiers ([SECTORS] of the constants module;
    the six ids are the [case] labels of [getSectorState]). *)
Inductive SectorId : Set :=
  tecelagem | felpo_cru | tinturaria | confeccao | embalagem | expedicao.

Definition sectorKey (s : SectorId) : string :=
  match s with
  | tecelagem => "tecelagem"
  | felpo_cru => "felpo_cru"
  | tinturaria => "tinturaria"
  | confeccao => "confeccao"
  | embalagem => "embalagem"
  | expedicao => "expedicao"
  end.

Definition SECTORS : list SectorId :=
  [tecelagem; felpo_cru; tinturaria; confeccao; embalagem; expedicao].

(** The [switch] of [getSectorState]: an id outside the six leaves [qty = 0]. *)
Definition sectorSwitch (order : Order) (sectorId : string) : number :=
  if sectorId =? "tecelagem" then felpoCruQty order else
  if sectorId =? "felpo_cru" then felpoCruQty order else
  if sectorId =? "tinturaria" then tinturariaQty order else
  if sectorId =? "confeccao" then (confRoupoesQty order + confFelposQty order)%float else
  if sectorId =? "embalagem" then embAcabQty order else
  if sectorId =? "expedicao" then stockCxQty order else
  0%float.

Definition getSectorState (order : Order) (sectorId : string) : SectorState :=
  let qty := sectorSwitch order sectorId in
  if (0 <? qtyRequested order)%float && (qtyRequested order <=? qty)%float
  then SECTOR_COMPLETED
  else if (0 <? qty)%float then IN_PROGRESS
  else NOT_STARTED.

(** The quantity the specification associates with each sector. *)
Definition sectorQuantity (s : SectorId) (o : Order) : number :=
  match s with
  | tecelagem | felpo_cru => felpoCruQty o
  | tinturaria => tinturariaQty o
  | confeccao => (confRoupoesQty o + confFelposQty o)%float
  | embalagem => embAcabQty o
  | expedicao => stockCxQty o
  end.

(** The five "due date passed without sufficient output" conditions. *)
Section LateConditions.
Variable now : Date.
Definition late_dataTec (o : Order) : bool :=
  is_past now (dataTec o) && (felpoCruQty o <? qtyRequested o)%float.
Definition late_felpoCru (o : Order) : bool :=
  is_past now (felpoCruDate o) && (felpoCruQty o <? qtyRequested o)%float.
Definition late_tinturaria (o : Order) : bool :=
  is_past now (tinturariaDate o)
  && (confRoupoesQty o + confFelposQty o <? qtyRequested o)%float.
Definition late_conf (o : Order) : bool :=
  is_past now (confDate o) && (embAcabQty o <? qtyRequested o)%float.
Definition late_requested (o : Order) : bool :=
  is_past now (requestedDate o) && (0 <? qtyOpen o)%float.
Definition late_any (o : Order) : bool :=
  late_dataTec o || late_felpoCru o || late_tinturaria o || late_conf o
  || late_requested o.
End LateConditions.

(** A blank order: every text empty, every date [null], every quantity 0. *)
Definition blankOrder : Order :=
  {| id := ""; docNr := ""; clientCode := ""; clientName := ""; comercial := "";
     issueDate := None; requestedDate := None; itemNr := 0%float; po := "";
     articleCode := ""; reference := ""; colorCode := ""; colorDesc := "";
     size := ""; family := ""; sizeDesc := ""; ean := "";
     qtyRequested := 0%float; dataTec := None; felpoCruQty := 0%float;
     felpoCruDate := None; tinturariaQty := 0%float; tinturariaDate := None;
     confRoupoesQty := 0%float; confFelposQty := 0%float; confDate := None;
     embAcabQty := 0%float; armExpDate := None; stockCxQty := 0%float;
     dataEnt := None; qtyBilled := 0%float; qtyOpen := 0%float;
     sectorObservations := []; sectorPredictedDates := []; priority := 0%float;
     isManual := false; sectorStopReasons := []; dataEspecial := None;
     dataPrinter := None; dataDebuxo := None; dataAmostras := None;
     dataBordados := None; isArchived := false; archivedAt := None;
     archivedBy := None |}.

(** ** Weekly KPIs *)

Definition getWeekRange (env : Env) (date : Date) : Date * Date :=
  let current := setHours env date 0 0 0 0 in
  let day := getDay env current in
  let diff := (getDate env current - day + (if day =? 0 then -6 else 1))%Z in
  let startOfWeek := setDate env current diff in
  let endOfWeek :=
    setHours env (setDate env startOfWeek (getDate env startOfWeek + 6)%Z)
      23 59 59 999 in
  (startOfWeek, endOfWeek).

Record BilledVsOpen : Set := mkBilledVsOpen { billed : number; open : number }.

Record DashboardKPIs : Set := mkKPIs {
  totalActiveDocs : nat;
  totalLate : nat;
  deliveriesThisWeek : nat;
  fulfillmentRateWeek : number;
  totalInProduction : nat;
  billedVsOpen : BilledVsOpen
}.

Definition OrderState_eqb (a b : OrderState) : bool :=
  match a, b with
  | OPEN, OPEN | IN_PRODUCTION, IN_PRODUCTION | LATE, LATE
  | COMPLETED, COMPLETED => true
  | _, _ => false
  end.

Definition SectorState_eqb (a b : SectorState) : bool :=
  match a, b with
  | NOT_STARTED, NOT_STARTED | IN_PROGRESS, IN_PROGRESS
  | SECTOR_COMPLETED, SECTOR_COMPLETED => true
  | _, _ => false
  end.

(** [a || b] on two nullable dates. *)
Definition date_or (a b : option Date) : option Date :=
  match a with
  | Some _ => a
  | None => b
  end.

Definition float_of_nat (n : nat) : number := float_of_Z (Z.of_nat n).

Definition calculateKPIs (env : Env) (orders : list Order) : DashboardKPIs :=
  let now := currentDate env in
  let '(weekStart, weekEnd) := getWeekRange env now in
  let activeOrders := filter (fun o => (0 <? qtyOpen o)%float) orders in
  let uniqueActiveDocs := nodup string_dec (map docNr activeOrders) in
  let late := filter (fun o => OrderState_eqb (getOrderState env o) LATE) orders in
  let ordersThisWeek :=
    filter (fun o =>
              match date_or (requestedDate o) (armExpDate o) with
              | Some dateToCheck =>
                  date_le weekStart dateToCheck && date_le dateToCheck weekEnd
              | None => false
              end) orders in
  let deliveriesThisWeek := List.length ordersThisWeek in
  let completedThisWeek :=
    List.length
      (filter (fun o =>
                 let state := getOrderState env o in
                 OrderState_eqb state COMPLETED
                 || SectorState_eqb (getSectorState o "expedicao") SECTOR_COMPLETED
                 || SectorState_eqb (getSectorState o "expedicao") IN_PROGRESS)
         ordersThisWeek) in
  let fulfillmentRateWeek :=
    if (0 <? deliveriesThisWeek)%nat
    then (float_of_nat completedThisWeek / float_of_nat deliveriesThisWeek * 100)%float
    else 0%float in
  {| totalActiveDocs := List.length uniqueActiveDocs;
     totalLate := List.length late;
     deliveriesThisWeek := deliveriesThisWeek;
     fulfillmentRateWeek := fulfillmentRateWeek;
     totalInProduction := List.length activeOrders;
     billedVsOpen :=
       {| billed := fold_left (fun acc o => (acc + qtyBilled o)%float) orders 0%float;
          open := fold_left (fun acc o => (acc + qtyOpen o)%float) orders 0%float |} |}.

(** ** Orders as objects *)

Definition date_val (d : option Date) : JsVal :=
  match d with
  | Some d => VDate d
  | None => VNull
  end.

Definition text_map_val (m : list (string * string)) : JsVal :=
  VObj (map (fun kv => (fst kv, VStr (snd kv))) m).

Definition date_map_val (m : list (string * option Date)) : JsVal :=
  VObj (map (fun kv => (fst kv, date_val (snd kv))) m).

Definition opt_text_val (s : option string) : JsVal :=
  match s with
  | Some s => VStr s
  | None => VNull
  end.

(** The order as a JavaScript object: its 45 properties. *)
Definition order_to_obj (o : Order) : JsObj :=
  [ ("id", VStr (id o)); ("docNr", VStr (docNr o));
    ("clientCode", VStr (clientCode o)); ("clientName", VStr (clientName o));
    ("comercial", VStr (comercial o));
    ("issueDate", date_val (issueDate o));
    ("requestedDate", date_val (requestedDate o));
    ("itemNr", VNum (itemNr o)); ("po", VStr (po o));
    ("articleCode", VStr (articleCode o)); ("reference", VStr (reference o));
    ("colorCode", VStr (colorCode o)); ("colorDesc", VStr (colorDesc o));
    ("size", VStr (size o)); ("family", VStr (family o));
    ("sizeDesc", VStr (sizeDesc o)); ("ean", VStr (ean o));
    ("qtyRequested", VNum (qtyRequested o));
    ("dataTec", date_val (dataTec o));
    ("felpoCruQty", VNum (felpoCruQty o));
    ("felpoCruDate", date_val (felpoCruDate o));
    ("tinturariaQty", VNum (tinturariaQty o));
    ("tinturariaDate", date_val (tinturariaDate o));
    ("confRoupoesQty", VNum (confRoupoesQty o));
    ("confFelposQty", VNum (confFelposQty o));
    ("confDate", date_val (confDate o));
    ("embAcabQty", VNum (embAcabQty o));
    ("armExpDate", date_val (armExpDate o));
    ("stockCxQty", VNum (stockCxQty o));
    ("dataEnt", date_val (dataEnt o));
    ("qtyBilled", VNum (qtyBilled o)); ("qtyOpen", VNum (qtyOpen o));
    ("sectorObservations", text_map_val (sectorObservations o));
    ("sectorPredictedDates", date_map_val (sectorPredictedDates o));
    ("priority", VNum (priority o)); ("isManual", VBool (isManual o));
    ("sectorStopReasons", text_map_val (sectorStopReasons o));
    ("dataEspecial", date_val (dataEspecial o));
    ("dataPrinter", date_val (dataPrinter o));
    ("dataDebuxo", date_val (dataDebuxo o));
    ("dataAmostras", date_val (dataAmostras o));
    ("dataBordados", date_val (dataBordados o));
    ("isArchived", VBool (isArchived o));
    ("archivedAt", date_val (archivedAt o));
    ("archivedBy", opt_text_val (archivedBy o)) ].

(** The names of the 45 columns, in the order of the [orders] table. *)
Definition ORDER_FIELDS : list string :=
  Eval cbv in obj_keys (order_to_obj blankOrder).

(** [(order as any)[key]]. *)
Definition order_field (o : Order) (key : string) : JsVal :=
  obj_get (order_to_obj o) key.

(** ** Sheets and workbooks (the SheetJS library)

    A sheet is a grid of cells: rows, each a list of cells by column index,
    where [VUndef] stands for a position without a cell. *)

Definition SheetRow : Set := list JsVal.
Definition Sheet : Set := list SheetRow.
Definition Workbook : Set := list (string * Sheet).

(** [if (hdr.indexOf(k) == -1) hdr.push(k)]. *)
Definition add_key (hdr : list string) (k : string) : list string :=
  if existsb (String.eqb k) hdr then hdr else (hdr ++ [k])%list.

(** The keys of a list in the order in which they are first met. *)
Definition distinct_keys (l : list string) : list string :=
  fold_left add_key l [].

(** [null] and [undefined] leave the position without a value. *)
Definition cell_of (v : JsVal) : JsVal :=
  match v with
  | VNull | VUndef => VUndef
  | _ => v
  end.

(** [XLSX.utils.json_to_sheet(rows, { skipHeader })]: one column per key, in
    the order in which the keys are first met; one row of keys first unless
    [skipHeader]; then one row per object. *)
Definition json_to_sheet (skipHeader : bool) (rows : list JsObj) : Sheet :=
  let hdr := distinct_keys (flat_map obj_keys rows) in
  let body := map (fun row => map (fun k => cell_of (obj_get row k)) hdr) rows in
  if skipHeader then body else map VStr hdr :: body.

(** ** The column registry *)

Record ExportColumnDef : Set := mkCol { key : string; label : string; group : string }.

Definition ALL_EXPORT_COLUMNS : list ExportColumnDef :=
  [ mkCol "docNr" "Nr. Documento" "Identificação";
    mkCol "itemNr" "Item" "Identificação";
    mkCol "id" "ID Interno" "Identificação";
    mkCol "clientName" "Cliente" "Cliente";
    mkCol "clientCode" "Cód. Cliente" "Cliente";
    mkCol "comercial" "Comercial" "Cliente";
    mkCol "po" "PO" "Cliente";
    mkCol "articleCode" "Artigo" "Artigo";
    mkCol "reference" "Referência" "Artigo";
    mkCol "colorCode" "Cód. Cor" "Artigo";
    mkCol "colorDesc" "Cor" "Artigo";
    mkCol "size" "Tamanho" "Artigo";
    mkCol "sizeDesc" "Desc. Tamanho" "Artigo";
    mkCol "family" "Família" "Artigo";
    mkCol "ean" "EAN" "Artigo";
    mkCol "qtyRequested" "Qtd. Pedida" "Quantidades";
    mkCol "qtyBilled" "Qtd. Faturada" "Quantidades";
    mkCol "qtyOpen" "Qtd. Em Aberto" "Quantidades";
    mkCol "felpoCruQty" "Qtd. Felpo Cru" "Quantidades";
    mkCol "tinturariaQty" "Qtd. Tinturaria" "Quantidades";
    mkCol "confRoupoesQty" "Qtd. Conf. Roupões" "Quantidades";
    mkCol "confFelposQty" "Qtd. Conf. Felpos" "Quantidades";
    mkCol "embAcabQty" "Qtd. Embalagem" "Quantidades";
    mkCol "stockCxQty" "Qtd. Stock Caixa" "Quantidades";
    mkCol "issueDate" "Data Emissão" "Datas";
    mkCol "requestedDate" "Data Entrega Pedida" "Datas";
    mkCol "dataEnt" "Data Entrada" "Datas";
    mkCol "dataTec" "Data Tecelagem" "Datas";
    mkCol "felpoCruDate" "Data Felpo Cru" "Datas";
    mkCol "tinturariaDate" "Data Tinturaria" "Datas";
    mkCol "confDate" "Data Confecção" "Datas";
    mkCol "armExpDate" "Data Prev. Armazém" "Datas";
    mkCol "dataEspecial" "Data Especial" "Datas Especiais";
    mkCol "dataPrinter" "Data Printer" "Datas Especiais";
    mkCol "dataDebuxo" "Data Debuxo" "Datas Especiais";
    mkCol "dataAmostras" "Data Amostras" "Datas Especiais";
    mkCol "dataBordados" "Data Bordados" "Datas Especiais";
    mkCol "estado" "Estado" "Estado / App";
    mkCol "priority" "Prioridade" "Estado / App";
    mkCol "isManual" "Conf. Manual" "Estado / App";
    mkCol "isArchived" "Arquivado" "Estado / App";
    mkCol "archivedAt" "Arquivado Em" "Estado / App";
    mkCol "archivedBy" "Arquivado Por" "Estado / App";
    mkCol "obs_tecelagem" "Obs. Tecelagem" "Observações";
    mkCol "obs_felpo_cru" "Obs. Felpo Cru" "Observações";
    mkCol "obs_tinturaria" "Obs. Tinturaria" "Observações";
    mkCol "obs_confeccao" "Obs. Confecção" "Observações";
    mkCol "obs_embalagem" "Obs. Embalagem" "Observações";
    mkCol "obs_expedicao" "Obs. Expedição" "Observações";
    mkCol "prev_tecelagem" "Prev. Tecelagem" "Datas Previstas";
    mkCol "prev_felpo_cru" "Prev. Felpo Cru" "Datas Previstas";
    mkCol "prev_tinturaria" "Prev. Tinturaria" "Datas Previstas";
    mkCol "prev_confeccao" "Prev. Confecção" "Datas Previstas";
    mkCol "prev_embalagem" "Prev. Embalagem" "Datas Previstas";
    mkCol "prev_expedicao" "Prev. Expedição" "Datas Previstas";
    mkCol "stop_tecelagem" "Motivo Tecelagem" "Motivos de Paragem";
    mkCol "stop_felpo_cru" "Motivo Felpo Cru" "Motivos de Paragem";
    mkCol "stop_tinturaria" "Motivo Tinturaria" "Motivos de Paragem";
    mkCol "stop_confeccao" "Motivo Confecção" "Motivos de Paragem";
    mkCol "stop_embalagem" "Motivo Embalagem" "Motivos de Paragem";
    mkCol "stop_expedicao" "Motivo Expedição" "Motivos de Paragem" ].

Definition DEFAULT_SELECTED_COLUMNS : list string :=
  [ "docNr"; "itemNr"; "clientName"; "comercial"; "po";
    "reference"; "colorDesc"; "sizeDesc"; "family";
    "qtyRequested"; "qtyOpen"; "requestedDate"; "estado"; "priority" ].

(** ** The column-value resolver *)

Fixpoint assoc_get {A : Type} (m : list (string * A)) (k : string) : option A :=
  match m with
  | [] => None
  | (k', v) :: rest => if k' =? k then Some v else assoc_get rest k
  end.

Definition dateFields : list string :=
  [ "issueDate"; "requestedDate"; "dataEnt"; "dataTec"; "felpoCruDate";
    "tinturariaDate"; "confDate"; "armExpDate"; "dataEspecial"; "dataPrinter";
    "dataDebuxo"; "dataAmostras"; "dataBordados"; "archivedAt" ].

(** The argument of [formatDate]: a date, or [null] / [undefined]. *)
Definition as_date (v : JsVal) : option Date :=
  match v with
  | VDate d => Some d
  | _ => None
  end.

(** [m?.[sectorId] || ''] on a mapping of texts. *)
Definition text_or_empty (m : list (string * string)) (sectorId : string) : JsVal :=
  match assoc_get m sectorId with
  | Some s => VStr s
  | None => VStr ""
  end.

Definition getColumnValue (env : Env) (order : Order) (key : string) : JsVal :=
  if key =? "estado" then OrderState_value env (getOrderState env order) else
  if key =? "priority" then
    VStr (if (priority order =? 1)%float then "Alta"
          else if (priority order =? 2)%float then "Média"
          else if (priority order =? 3)%float then "Baixa"
          else "") else
  if key =? "isManual" then VStr (if isManual order then "Sim" else "Não") else
  if key =? "isArchived" then VStr (if isArchived order then "Sim" else "Não") else
  if startsWith key "obs_" then
    let sectorId := replace_str "obs_" key in
    text_or_empty (sectorObservations order) sectorId
  else if startsWith key "prev_" then
    let sectorId := replace_str "prev_" key in
    VStr (formatDate env
            match assoc_get (sectorPredictedDates order) sectorId with
            | Some d => d
            | None => None
            end)
  else if startsWith key "stop_" then
    let sectorId := replace_str "stop_" key in
    text_or_empty (sectorStopReasons order) sectorId
  else
    let val := order_field order key in
    if existsb (String.eqb key) dateFields && truthy val
    then VStr (formatDate env (as_date val))
    else match val with
         | VNull | VUndef => VStr ""
         | _ => val
         end.

(** ** Custom column export

    [None]: the function returned without writing; [Some wb]: the workbook
    handed to [XLSX.writeFile] (the file name is not modelled). *)

Definition find_column (k : string) : option ExportColumnDef :=
  find (fun c => key c =? k) ALL_EXPORT_COLUMNS.

Definition exportCustomColumns (env : Env) (orders : list Order)
    (selectedColumnKeys : list string) : option Workbook :=
  match orders, selectedColumnKeys with
  | [], _ | _, [] => None
  | _, _ =>
      let colDefs :=
        flat_map (fun k => match find_column k with
                           | Some c => [c]
                           | None => []
                           end) selectedColumnKeys in
      let sheetData :=
        map (fun order =>
               fold_left (fun row col =>
                            obj_set row (label col) (getColumnValue env order (key col)))
                 colDefs [])
          orders in
      let ws := json_to_sheet false sheetData in
      Some [("Exportação", ws)]
  end.

(** ** JSON (the host's [JSON.stringify] and [JSON.parse]) *)

Definition DQUOTE : ascii := "034".
Definition BACKSLASH : ascii := "092".

Definition hex_char (n : N) : ascii :=
  if (n <? 10)%N then ascii_of_N (48 + n) else ascii_of_N (87 + n).

(** One character inside a JSON string. *)
Definition escape_char (c : ascii) : string :=
  let n := code c in
  if (n =? 34)%N then String BACKSLASH (String DQUOTE "")
  else if (n =? 92)%N then String BACKSLASH (String BACKSLASH "")
  else if (n =? 8)%N then String BACKSLASH "b"
  else if (n =? 9)%N then String BACKSLASH "t"
  else if (n =? 10)%N then String BACKSLASH "n"
  else if (n =? 12)%N then String BACKSLASH "f"
  else if (n =? 13)%N then String BACKSLASH "r"
  else if (n <? 32)%N then
    String BACKSLASH
      (String "u" (String "0" (String "0"
         (String (hex_char (n / 16)) (String (hex_char (n mod 16)) "")))))
  else String c "".

Fixpoint escape (s : string) : string :=
  match s with
  | String c r => escape_char c ++ escape r
  | EmptyString => EmptyString
  end.

Definition quote (s : string) : string :=
  String DQUOTE (escape s ++ String DQUOTE "").

Definition is_finite (n : number) : bool :=
  negb (is_nan n) && negb (abs n =? infinity)%float.

(** [JSON.stringify(v)]; [None] is [undefined] (a member with such a value
    is left out of its object). *)
Fixpoint stringify (env : Env) (v : JsVal) : option string :=
  match v with
  | VUndef => None
  | VNull => Some "null"
  | VBool true => Some "true"
  | VBool false => Some "false"
  | VNum n => Some (if is_finite n then Number_toString n else "null")
  | VStr s => Some (quote s)
  | VDate d =>
      Some match Date_toJSON env d with
           | VStr s => quote s
           | _ => "null"
           end
  | VObj fields =>
      Some ("{" ++
            join ","
              (flat_map (fun kv : string * JsVal =>
                           let (k, x) := kv in
                           match stringify env x with
                           | Some t => [quote k ++ ":" ++ t]
                           | None => []
                           end) fields)
            ++ "}")
  | VArr items =>
      Some ("[" ++
            join ","
              (map (fun x => match stringify env x with
                             | Some t => t
                             | None => "null"
                             end) items)
            ++ "]")
  end.

Definition JSON_stringify (env : Env) (v : JsVal) : string :=
  match stringify env v with
  | Some t => t
  | None => "undefined"
  end.

(** *** Reading JSON *)

Definition is_json_ws (c : ascii) : bool :=
  let n := code c in
  ((n =? 32) || (n =? 9) || (n =? 10) || (n =? 13))%N.

Fixpoint skip_ws (s : string) : string :=
  match s with
  | String c r => if is_json_ws c then skip_ws r else s
  | EmptyString => EmptyString
  end.

(** The UTF-8 bytes of a code point of the basic plane. *)
Definition utf8 (cp : N) : string :=
  if (cp <? 128)%N then String (ascii_of_N cp) ""
  else if (cp <? 2048)%N then
    String (ascii_of_N (192 + cp / 64)) (String (ascii_of_N (128 + cp mod 64)) "")
  else
    String (ascii_of_N (224 + cp / 4096))
      (String (ascii_of_N (128 + (cp / 64) mod 64))
         (String (ascii_of_N (128 + cp mod 64)) "")).

Definition hex4 (a b c d : ascii) : option N :=
  match hex_digit_of a, hex_digit_of b, hex_digit_of c, hex_digit_of d with
  | Some x, Some y, Some z, Some w => Some (Z.to_N (((x * 16 + y) * 16 + z) * 16 + w))
  | _, _, _, _ => None
  end.

(** The characters of a string up to its closing quote, and what follows
    the quote. *)
Fixpoint parse_string_body (s : string) : option (string * string) :=
  match s with
  | EmptyString => None
  | String c r =>
      if (code c =? 34)%N then Some ("", r)
      else if (code c =? 92)%N then
        match r with
        | String e r' =>
            let simple (x : ascii) :=
              match parse_string_body r' with
              | Some (t, rest) => Some (String x t, rest)
              | None => None
              end in
            if (code e =? 34)%N then simple DQUOTE
            else if (code e =? 92)%N then simple BACKSLASH
            else if (code e =? 47)%N then simple "/"%char
            else if (code e =? 98)%N then simple "008"%char
            else if (code e =? 102)%N then simple "012"%char
            else if (code e =? 110)%N then simple "010"%char
            else if (code e =? 114)%N then simple "013"%char
            else if (code e =? 116)%N then simple "009"%char
            else if (code e =? 117)%N then
              match r' with
              | String h1 (String h2 (String h3 (String h4 r''))) =>
                  match hex4 h1 h2 h3 h4, parse_string_body r'' with
                  | Some cp, Some (t, rest) => Some (utf8 cp ++ t, rest)
                  | _, _ => None
                  end
              | _ => None
              end
            else None
        | EmptyString => None
        end
      else if (code c <? 32)%N then None
      else
        match parse_string_body r with
        | Some (t, rest) => Some (String c t, rest)
        | None => None
        end
  end.

(** A JSON number: an optional minus sign, an integer part without a
    leading zero (unless it is the single digit 0), an optional fraction of
    at least one digit, an optional exponent of at least one digit. *)
Definition parse_number (s : string) : option (number * string) :=
  let '(neg, s1) :=
    match s with
    | String "-" r => (true, r)
    | _ => (false, s)
    end in
  let '(ip, ilen, r1) := span_digits s1 0 0 in
  if (ilen =? 0)%Z then None
  else if prefix "0" s1 && (1 <? ilen)%Z then None
  else
    let frac :=
      match r1 with
      | String "." r =>
          let '(m, tlen, r2) := span_digits r ip ilen in
          if (tlen =? ilen)%Z then None else Some (m, (tlen - ilen)%Z, r2)
      | _ => Some (ip, 0%Z, r1)
      end in
    match frac with
    | None => None
    | Some (m, flen, r2) =>
        let with_exp (r : string) :=
          let '(eneg, r) :=
            match r with
            | String "-" r' => (true, r')
            | String "+" r' => (false, r')
            | _ => (false, r)
            end in
          let '(ev, elen, r3) := span_digits r 0 0 in
          if (elen =? 0)%Z then None
          else Some (float_of_decimal neg m ((if eneg then - ev else ev) - flen), r3) in
        match r2 with
        | String "e" r => with_exp r
        | String "E" r => with_exp r
        | _ => Some (float_of_decimal neg m (- flen), r2)
        end
    end.

(** A value, and what follows it. [fuel] bounds the number of values and
    members read. *)
Fixpoint parse_value (fuel : nat) (s : string) : option (JsVal * string) :=
  match fuel with
  | O => None
  | S fuel' =>
      let s := skip_ws s in
      match s with
      | String "{" r =>
          match skip_ws r with
          | String "}" r' => Some (VObj [], r')
          | _ => parse_members fuel' [] r
          end
      | String "[" r =>
          match skip_ws r with
          | String "]" r' => Some (VArr [], r')
          | _ => parse_elements fuel' [] r
          end
      | String c r =>
          if (code c =? 34)%N then
            match parse_string_body r with
            | Some (t, rest) => Some (VStr t, rest)
            | None => None
            end
          else if prefix "true" s then Some (VBool true, drop 4 s)
          else if prefix "false" s then Some (VBool false, drop 5 s)
          else if prefix "null" s then Some (VNull, drop 4 s)
          else
            match parse_number s with
            | Some (n, rest) => Some (VNum n, rest)
            | None => None
            end
      | EmptyString => None
      end
  end
with parse_members (fuel : nat) (acc : JsObj) (s : string) : option (JsVal * string) :=
  match fuel with
  | O => None
  | S fuel' =>
      match skip_ws s with
      | String c r =>
          if (code c =? 34)%N then
            match parse_string_body r with
            | Some (k, r1) =>
                match skip_ws r1 with
                | String ":" r2 =>
                    match parse_value fuel' r2 with
                    | Some (v, r3) =>
                        let acc' := obj_set acc k v in
                        match skip_ws r3 with
                        | String "," r4 => parse_members fuel' acc' r4
                        | String "}" r4 => Some (VObj acc', r4)
                        | _ => None
                        end
                    | None => None
                    end
                | _ => None
                end
            | None => None
            end
          else None
      | EmptyString => None
      end
  end
with parse_elements (fuel : nat) (acc : list JsVal) (s : string) : option (JsVal * string) :=
  match fuel with
  | O => None
  | S fuel' =>
      match parse_value fuel' s with
      | Some (v, r1) =>
          match skip_ws r1 with
          | String "," r2 => parse_elements fuel' (acc ++ [v]) r2
          | String "]" r2 => Some (VArr (acc ++ [v]), r2)
          | _ => None
          end
      | None => None
      end
  end.

(** [JSON.parse(text)]: the whole text must be one value; anything else is
    a [SyntaxError]. *)
Definition JSON_parse_text (text : string) : result JsVal :=
  match parse_value (S (length text)) text with
  | Some (v, rest) =>
      match skip_ws rest with
      | EmptyString => Ok v
      | _ => Err "SyntaxError"
      end
  | None => Err "SyntaxError"
  end.

(** [JSON.parse(v)]: the argument is first converted to a string. *)
Definition JSON_parse (env : Env) (v : JsVal) : result JsVal :=
  JSON_parse_text (js_String env v).

(** ** Reading a sheet as rows keyed by column letter

    [XLSX.utils.sheet_to_json(ws, { header: 'A' })]: every row of the sheet,
    the first one included, becomes an object whose keys are the letters of
    the columns that hold a value; a row without any value is left out. *)

Fixpoint encode_col_from (fuel col : nat) (acc : string) : string :=
  match fuel with
  | O => acc
  | S fuel' =>
      if (col =? 0)%nat then acc
      else encode_col_from fuel' ((col - 1) / 26)%nat
             (String (ascii_of_nat ((col - 1) mod 26 + 65)) acc)
  end.

(** The letters of the column at a zero-based index: A, ..., Z, AA, ... *)
Definition encode_col (c : nat) : string := encode_col_from (S c) (S c) "".

Fixpoint row_cells (c : nat) (cells : SheetRow) : JsObj :=
  match cells with
  | [] => []
  | v :: rest =>
      match v with
      | VUndef | VNull => row_cells (S c) rest
      | _ => (encode_col c, v) :: row_cells (S c) rest
      end
  end.

Definition sheet_to_json_A (ws : Sheet) : list JsObj :=
  flat_map (fun cells => match row_cells 0 cells with
                         | [] => []
                         | row => [row]
                         end) ws.

(** ** Spreadsheet import *)

(** [String(a || b || '').trim()] and the like. *)
Definition text_of (env : Env) (v : JsVal) : string := trim (js_String env v).

(** [v === 1 || v === '1' || v === true]. *)
Definition is_flag (v : JsVal) : bool :=
  match v with
  | VNum n => (n =? 1)%float
  | VStr s => s =? "1"
  | VBool b => b
  | _ => false
  end.

(** [cell ? JSON.parse(cell) : {}]. *)
Definition json_cell (env : Env) (v : JsVal) : result JsVal :=
  if truthy v then JSON_parse env v else Ok (VObj []).

(** [if (x) x = new Date(x)] on one value of a mapping. *)
Definition hydrate_value (env : Env) (v : JsVal) : JsVal :=
  if truthy v then VDate (newDate env v) else v.

(** [Object.keys(m).forEach(k => { if (m[k]) m[k] = new Date(m[k]) })].
    [Object.keys] throws on [null] and [undefined]; assigning to an index of
    a string throws in a module (strict mode); a number or a boolean has no
    keys. *)
Definition hydrate_keys (env : Env) (m : JsVal) : result JsVal :=
  match m with
  | VObj fields => Ok (VObj (map (fun kv => (fst kv, hydrate_value env (snd kv))) fields))
  | VArr items => Ok (VArr (map (hydrate_value env) items))
  | VStr s => if s =? "" then Ok m else Err "TypeError"
  | VNull | VUndef => Err "TypeError"
  | VBool _ | VNum _ | VDate _ => Ok m
  end.

(** The guard of the loop of [parseExcelFile]: the row is skipped. *)
Definition skipped_row (env : Env) (row : JsObj) : bool :=
  negb (truthy (obj_get row "B"))
  || includes (toLowerCase (js_String env (obj_get row "B"))) "doc".

(** The order built from the cells of a row: [cell c] is [row[c]] and [raw]
    is the row itself. *)
Definition excelOrderFrom (env : Env) (cell : string -> JsVal) (raw : JsVal)
  : result JsObj :=
  let text a := VStr (text_of env a) in
  let date c := date_val (parseExcelDate env (cell c)) in
  let num c := VNum (parseNumber env (cell c)) in
  let docNr := text_of env (cell "B") in
  let itemNr := parseNumber env (cell "F") in
  sectorObservations <- json_cell env (cell "AH") ;;
  sectorPredictedDates <- json_cell env (cell "AI") ;;
  sectorStopReasons <- json_cell env (cell "AJ") ;;
  sectorPredictedDates <-
    (if truthy sectorPredictedDates then hydrate_keys env sectorPredictedDates
     else Ok sectorPredictedDates) ;;
  Ok [ ("_raw", raw);
       ("id", js_or (cell "A") (VStr (docNr ++ "-" ++ Number_toString itemNr)));
       ("docNr", VStr docNr);
       ("clientCode", text (js_or (js_or (cell "AE") (cell "C")) (VStr "")));
       ("clientName", text (js_or (cell "C") (VStr "")));
       ("comercial", text (js_or (js_or (cell "AD") (cell "L")) (VStr "")));
       ("issueDate", date "D");
       ("requestedDate", date "E");
       ("itemNr", VNum itemNr);
       ("po", text (js_or (cell "G") (VStr "")));
       ("articleCode", text (js_or (cell "H") (VStr "")));
       ("reference", text (js_or (cell "I") (VStr "")));
       ("colorCode", text (js_or (cell "J") (VStr "")));
       ("colorDesc", text (js_or (cell "K") (VStr "")));
       ("size", text (js_or (cell "L") (VStr "")));
       ("family", text (js_or (cell "M") (VStr "")));
       ("sizeDesc", text (js_or (cell "N") (VStr "")));
       ("ean", text (js_or (cell "O") (VStr "")));
       ("qtyRequested", num "P");
       ("dataTec", date "Q");
       ("felpoCruQty", num "R");
       ("felpoCruDate", date "S");
       ("tinturariaQty", num "T");
       ("tinturariaDate", date "U");
       ("confRoupoesQty", num "V");
       ("confFelposQty", num "W");
       ("confDate", date "X");
       ("embAcabQty", num "Y");
       ("armExpDate", date "Z");
       ("stockCxQty", num "AA");
       ("qtyBilled", num "AB");
       ("qtyOpen", num "AC");
       ("dataEnt", date "E");
       ("priority",
        VNum (if truthy (cell "AF") then parseInt env (cell "AF") else 0%float));
       ("isManual", VBool (is_flag (cell "AG")));
       ("sectorObservations", sectorObservations);
       ("sectorPredictedDates", sectorPredictedDates);
       ("sectorStopReasons", sectorStopReasons);
       ("dataEspecial", date "AK");
       ("dataPrinter", date "AL");
       ("dataDebuxo", date "AM");
       ("dataAmostras", date "AN");
       ("dataBordados", date "AO");
       ("isArchived", VBool (is_flag (cell "AP")));
       ("archivedAt", date "AQ");
       ("archivedBy", js_or (cell "AR") VNull) ].

(** The order built from one row that is not skipped. *)
Definition excelOrder (env : Env) (row : JsObj) : result JsObj :=
  excelOrderFrom env (obj_get row) (VObj row).

(** The loop over the data rows: [mappedOrders] after the last row, or the
    exception that left the loop. *)
Fixpoint excelRows (env : Env) (jsonData : list JsObj) : result (list JsObj) :=
  match jsonData with
  | [] => Ok []
  | row :: rest =>
      if skipped_row env row then excelRows env rest
      else
        order <- excelOrder env row ;;
        orders <- excelRows env rest ;;
        Ok (order :: orders)
  end.

Record Imported : Set := mkImported { orders : list JsObj; headers : JsObj }.

(** The sheet named [Dados_BD] when there is one, else the first sheet. *)
Definition select_sheet (workbook : Workbook) : option Sheet :=
  if existsb (String.eqb "Dados_BD") (map fst workbook)
  then assoc_get workbook "Dados_BD"
  else match workbook with
       | (_, ws) :: _ => Some ws
       | [] => None
       end.

(** [parseExcelFile]. The argument is what [XLSX.read] makes of the file: a
    workbook, or an exception. The promise resolves ([Ok]) or is rejected
    with the one message of the [catch] ([Err]). *)
Definition parseExcelFile (env : Env) (file : result Workbook) : result Imported :=
  let attempt :=
    workbook <- file ;;
    let worksheet := select_sheet workbook in
    let jsonData :=
      match worksheet with
      | Some ws => sheet_to_json_A ws
      | None => []
      end in
    match jsonData with
    | [] => Ok (mkImported [] [])
    | extractedHeaders :: rows =>
        mappedOrders <- excelRows env rows ;;
        Ok (mkImported mappedOrders extractedHeaders)
    end in
  match attempt with
  | Ok r => Ok r
  | Err _ => Err "Erro ao processar ficheiro Excel."
  end.

(** ** Spreadsheet export *)

Definition formatted (env : Env) (d : option Date) : JsVal :=
  match d with
  | Some d => VStr (formatDate env (Some d))
  | None => VNull
  end.

Definition flag (b : bool) : JsVal := VNum (if b then 1 else 0)%float.

Definition excelRow (env : Env) (o : Order) : JsObj :=
  [ ("A", VStr (id o)); ("B", VStr (docNr o)); ("C", VStr (clientName o));
    ("D", formatted env (issueDate o));
    ("E", formatted env (requestedDate o));
    ("F", VNum (itemNr o)); ("G", VStr (po o)); ("H", VStr (articleCode o));
    ("I", VStr (reference o)); ("J", VStr (colorCode o));
    ("K", VStr (colorDesc o)); ("L", VStr (size o)); ("M", VStr (family o));
    ("N", VStr (sizeDesc o)); ("O", VStr (ean o));
    ("P", VNum (qtyRequested o));
    ("Q", formatted env (dataTec o));
    ("R", VNum (felpoCruQty o));
    ("S", formatted env (felpoCruDate o));
    ("T", VNum (tinturariaQty o));
    ("U", formatted env (tinturariaDate o));
    ("V", VNum (confRoupoesQty o)); ("W", VNum (confFelposQty o));
    ("X", formatted env (confDate o));
    ("Y", VNum (embAcabQty o));
    ("Z", formatted env (armExpDate o));
    ("AA", VNum (stockCxQty o)); ("AB", VNum (qtyBilled o));
    ("AC", VNum (qtyOpen o));
    ("AD", VStr (comercial o)); ("AE", VStr (clientCode o));
    ("AF", VNum (priority o)); ("AG", flag (isManual o));
    ("AH", VStr (JSON_stringify env (text_map_val (sectorObservations o))));
    ("AI", VStr (JSON_stringify env (date_map_val (sectorPredictedDates o))));
    ("AJ", VStr (JSON_stringify env (text_map_val (sectorStopReasons o))));
    ("AK", formatted env (dataEspecial o));
    ("AL", formatted env (dataPrinter o));
    ("AM", formatted env (dataDebuxo o));
    ("AN", formatted env (dataAmostras o));
    ("AO", formatted env (dataBordados o));
    ("AP", flag (isArchived o));
    ("AQ", formatted env (archivedAt o));
    ("AR", opt_text_val (archivedBy o)) ].

Definition headerRow : JsObj :=
  map (fun kv => (fst kv, VStr (snd kv)))
  [ ("A", "ID Interno"); ("B", "Nr. Documento"); ("C", "Cliente");
    ("D", "Data Emissão"); ("E", "Data Entrega"); ("F", "Item"); ("G", "PO");
    ("H", "Artigo"); ("I", "Referência"); ("J", "Cód. Cor"); ("K", "Cor");
    ("L", "Tamanho"); ("M", "Família"); ("N", "Desc. Tamanho"); ("O", "EAN");
    ("P", "Qtd. Pedida"); ("Q", "Data Tecelagem"); ("R", "Qtd. Felpo Cru");
    ("S", "Data Felpo Cru"); ("T", "Qtd. Tinturaria");
    ("U", "Data Tinturaria"); ("V", "Qtd. Conf. Roupões");
    ("W", "Qtd. Conf. Felpos"); ("X", "Data Confecção");
    ("Y", "Qtd. Embalagem"); ("Z", "Data Prev. Armazém");
    ("AA", "Qtd. Stock Caixa"); ("AB", "Qtd. Faturada");
    ("AC", "Qtd. Em Aberto"); ("AD", "Comercial"); ("AE", "Cód. Cliente");
    ("AF", "Prioridade"); ("AG", "Conf. Manual"); ("AH", "Obs Setores");
    ("AI", "Datas Previstas"); ("AJ", "Motivos Paragem");
    ("AK", "Data Especial"); ("AL", "Data Printer"); ("AM", "Data Debuxo");
    ("AN", "Data Amostras"); ("AO", "Data Bordados"); ("AP", "Arquivado");
    ("AQ", "Data Arquivado"); ("AR", "Arquivado Por") ].

(** [exportOrdersToExcel]: the workbook handed to [XLSX.writeFile] (the
    file name is not modelled; the [headers] argument is not used). *)
Definition exportOrdersToExcel (env : Env) (orders : list Order) : Workbook :=
  let excelRows := map (excelRow env) orders in
  let ws := json_to_sheet true (headerRow :: excelRows) in
  [("Dados_BD", ws)].

(** ** The workbook file

    What [XLSX.writeFile] stores for a workbook and what [XLSX.read] makes of
    the file. A number is written in decimal and read again, which turns
    [-0] into [0]. A text is written with its control characters U+0000 to
    U+0008 and U+000B to U+001F as [_xHHHH_], the four hexadecimal digits of
    the character, and every [_xHHHH_] of the stored text is read as the
    character of that number (a surrogate as the three bytes of its
    number); the XML entities written for the characters [&], [<], [>] and
    the two quotes are read back as these characters and are left out here.
    A text of more than 32767 characters is refused by the writer. *)
Definition file_number (n : number) : number :=
  if (n =? 0)%float then 0%float else n.

Definition TEXT_LIMIT : N := 32767.

Definition is_control (c : ascii) : bool :=
  let n := code c in
  ((n <=? 8) || (11 <=? n) && (n <=? 31))%N.

(** [escapexml], on the control characters. *)
Fixpoint escapexml (s : string) : string :=
  match s with
  | String c r =>
      if is_control c
      then String "_" (String "x" (String "0" (String "0"
             (String (hex_char (code c / 16)) (String (hex_char (code c mod 16))
                (String "_" (escapexml r)))))))
      else String c (escapexml r)
  | EmptyString => EmptyString
  end.

(** The number of the [_xHHHH_] at the head of a text, in either case of
    the letters. *)
Definition escape_code (s : string) : option N :=
  match s with
  | String u (String x (String h1 (String h2 (String h3 (String h4 (String v _)))))) =>
      if Ascii.eqb u "_" && (Ascii.eqb x "x" || Ascii.eqb x "X") && Ascii.eqb v "_"
      then hex4 h1 h2 h3 h4 else None
  | _ => None
  end.

(** [unescapexml], on the [_xHHHH_] sequences, from left to right; [skip]
    counts the characters of a sequence that are still to pass. *)
Fixpoint unescape_from (skip : nat) (s : string) : string :=
  match s with
  | String c r =>
      match skip with
      | S k => unescape_from k r
      | O =>
          match escape_code s with
          | Some cp => utf8 cp ++ unescape_from 6 r
          | None => String c (unescape_from 0 r)
          end
      end
  | EmptyString => EmptyString
  end.

Definition unescapexml (s : string) : string := unescape_from 0 s.

(** A text after a trip through the file. *)
Definition file_text (s : string) : string := unescapexml (escapexml s).

Definition file_cell (v : JsVal) : JsVal :=
  match v with
  | VNum n => VNum (file_number n)
  | VStr s => VStr (file_text s)
  | _ => v
  end.

Definition cell_fits (v : JsVal) : bool :=
  match v with
  | VStr s => (N.of_nat (js_length s) <=? TEXT_LIMIT)%N
  | _ => true
  end.

Definition sheet_fits (ws : Sheet) : bool := forallb (forallb cell_fits) ws.

(** The file written for a workbook, as it is read: the exception of the
    writer when a text is too long. *)
Definition xlsx_file (wb : Workbook) : result Workbook :=
  if forallb (fun s => sheet_fits (snd s)) wb
  then Ok (map (fun s => (fst s, map (map file_cell) (snd s))) wb)
  else Err "Text length must not exceed 32767 characters".

(** ** The embedded database (the sql.js library)

    A database file holds tables. Only the two tables of this module are
    modelled: [headers], rows of a key and a value, and [orders], its column
    names and its rows; either may be missing from a file. A stored value
    is read back as [null], a number or a text. *)

Record Table : Set := mkTable { columns : list string; values : list (list JsVal) }.

Record Database : Set := mkDatabase {
  headers_table : option (list (JsVal * JsVal));
  orders_table : option Table
}.

(** Binding a parameter of a prepared statement: a boolean is bound as 0 or
    1, [NaN] is stored as [NULL], the two zeros as the integer 0;
    [undefined] and objects are refused. *)
Definition sql_bind (v : JsVal) : result JsVal :=
  match v with
  | VNull => Ok VNull
  | VStr s => Ok (VStr s)
  | VNum n => Ok (if is_nan n then VNull else VNum (file_number n))
  | VBool b => Ok (flag b)
  | VUndef | VDate _ | VObj _ | VArr _ =>
      Err "Wrong API use : tried to bind a value of an unknown type"
  end.

Fixpoint sql_bind_all (vs : list JsVal) : result (list JsVal) :=
  match vs with
  | [] => Ok []
  | v :: rest =>
      x <- sql_bind v ;;
      xs <- sql_bind_all rest ;;
      Ok (x :: xs)
  end.

(** [INSERT INTO orders]: the first column is the primary key, so a row
    whose key is already in the table is refused. *)
Definition sql_key_eqb (a b : JsVal) : bool :=
  match a, b with
  | VStr x, VStr y => x =? y
  | VNum x, VNum y => (x =? y)%float
  | _, _ => false
  end.

Definition insert_order (rows : list (list JsVal)) (row : list JsVal)
  : result (list (list JsVal)) :=
  bound <- sql_bind_all row ;;
  if existsb (fun r => sql_key_eqb (hd VNull r) (hd VNull bound)) rows
  then Err "UNIQUE constraint failed: orders.id"
  else Ok (rows ++ [bound])%list.

(** ** Embedded-database import *)

(** The date columns converted by the import, in its order. *)
Definition sqliteDateFields : list string :=
  [ "issueDate"; "requestedDate"; "dataTec"; "felpoCruDate"; "tinturariaDate";
    "confDate"; "armExpDate"; "dataEnt"; "dataEspecial"; "dataPrinter";
    "dataDebuxo"; "dataAmostras"; "dataBordados" ].

(** [if (obj[field]) obj[field] = new Date(obj[field])]. *)
Definition hydrate_field (env : Env) (obj : JsObj) (field : string) : JsObj :=
  if truthy (obj_get obj field)
  then obj_set obj field (VDate (newDate env (obj_get obj field)))
  else obj.

(** [if (obj[f]) { try { obj[f] = JSON.parse(obj[f]) } catch { obj[f] = {} } }]. *)
Definition parse_text_map (env : Env) (obj : JsObj) (field : string) : JsObj :=
  if truthy (obj_get obj field)
  then obj_set obj field (try_catch (JSON_parse env (obj_get obj field)) (VObj []))
  else obj.

(** The same with the dates of the mapping converted inside the [try]. *)
Definition parse_date_map (env : Env) (obj : JsObj) (field : string) : JsObj :=
  if truthy (obj_get obj field)
  then obj_set obj field
         (try_catch (parsed <- JSON_parse env (obj_get obj field) ;;
                     hydrate_keys env parsed)
            (VObj []))
  else obj.

Fixpoint zip_columns (cols : list string) (row : list JsVal) (obj : JsObj) : JsObj :=
  match cols with
  | [] => obj
  | col :: cols' =>
      zip_columns cols' (tl row) (obj_set obj col (hd VUndef row))
  end.

(** The order built from one row of the [orders] table. *)
Definition sqliteOrder (env : Env) (columns : list string) (row : list JsVal) : JsObj :=
  let obj := zip_columns columns row [] in
  let obj := fold_left (hydrate_field env) sqliteDateFields obj in
  let obj := parse_text_map env obj "sectorObservations" in
  let obj := parse_date_map env obj "sectorPredictedDates" in
  let obj := parse_text_map env obj "sectorStopReasons" in
  let obj := if truthy (obj_get obj "priority") then obj
             else obj_set obj "priority" (VNum 0%float) in
  let obj := if truthy (obj_get obj "comercial") then obj
             else obj_set obj "comercial" (VStr "") in
  let obj := obj_set obj "isManual" (VBool (is_flag (obj_get obj "isManual"))) in
  let obj := obj_set obj "isArchived" (VBool (is_flag (obj_get obj "isArchived"))) in
  hydrate_field env obj "archivedAt".

(** [parseSQLiteFile]. The argument is the database the engine opens from
    the file, or the exception it throws. *)
Definition parseSQLiteFile (env : Env) (file : result Database) : result Imported :=
  db <- file ;;
  let headers :=
    match headers_table db with
    | Some rows =>
        fold_left (fun h kv => obj_set h (js_String env (fst kv)) (snd kv)) rows []
    | None => []
    end in
  match orders_table db with
  | None => Err "no such table: orders"
  | Some t =>
      match values t with
      | [] => Ok (mkImported [] headers)
      | rows => Ok (mkImported (map (sqliteOrder env (columns t)) rows) headers)
      end
  end.

(** ** Embedded-database export *)

Definition ORDERS_COLUMNS : list string :=
  [ "id"; "docNr"; "clientCode"; "clientName"; "comercial";
    "issueDate"; "requestedDate"; "itemNr"; "po";
    "articleCode"; "reference"; "colorCode"; "colorDesc";
    "size"; "family"; "sizeDesc"; "ean"; "qtyRequested";
    "dataTec"; "felpoCruQty"; "felpoCruDate";
    "tinturariaQty"; "tinturariaDate";
    "confRoupoesQty"; "confFelposQty"; "confDate";
    "embAcabQty"; "armExpDate"; "stockCxQty";
    "dataEnt"; "qtyBilled"; "qtyOpen";
    "sectorObservations"; "sectorPredictedDates"; "priority"; "isManual";
    "sectorStopReasons";
    "dataEspecial"; "dataPrinter"; "dataDebuxo"; "dataAmostras"; "dataBordados";
    "isArchived"; "archivedAt"; "archivedBy" ].

(** [d ? d.getTime() : null]. *)
Definition time_or_null (d : option Date) : JsVal :=
  match d with
  | Some d => VNum (getTime d)
  | None => VNull
  end.

(** The 45 values bound for one order. *)
Definition sqliteRow (env : Env) (o : Order) : list JsVal :=
  [ VStr (id o); VStr (docNr o); VStr (clientCode o); VStr (clientName o);
    VStr (comercial o);
    time_or_null (issueDate o);
    time_or_null (requestedDate o);
    VNum (itemNr o); VStr (po o); VStr (articleCode o); VStr (reference o);
    VStr (colorCode o); VStr (colorDesc o);
    VStr (size o); VStr (family o); VStr (sizeDesc o); VStr (ean o);
    VNum (qtyRequested o);
    time_or_null (dataTec o);
    VNum (felpoCruQty o); time_or_null (felpoCruDate o);
    VNum (tinturariaQty o); time_or_null (tinturariaDate o);
    VNum (confRoupoesQty o); VNum (confFelposQty o); time_or_null (confDate o);
    VNum (embAcabQty o); time_or_null (armExpDate o);
    VNum (stockCxQty o); time_or_null (dataEnt o);
    VNum (qtyBilled o); VNum (qtyOpen o);
    VStr (JSON_stringify env (text_map_val (sectorObservations o)));
    VStr (JSON_stringify env (date_map_val (sectorPredictedDates o)));
    js_or (VNum (priority o)) (VNum 0%float);
    flag (isManual o);
    VStr (JSON_stringify env (text_map_val (sectorStopReasons o)));
    time_or_null (dataEspecial o);
    time_or_null (dataPrinter o);
    time_or_null (dataDebuxo o);
    time_or_null (dataAmostras o);
    time_or_null (dataBordados o);
    flag (isArchived o);
    time_or_null (archivedAt o);
    js_or (opt_text_val (archivedBy o)) VNull ].

Fixpoint insert_orders (env : Env) (rows : list (list JsVal)) (orders : list Order)
  : result (list (list JsVal)) :=
  match orders with
  | [] => Ok rows
  | o :: rest =>
      rows' <- insert_order rows (sqliteRow env o) ;;
      insert_orders env rows' rest
  end.

Fixpoint insert_headers (entries : list (string * string))
  : result (list (JsVal * JsVal)) :=
  match entries with
  | [] => Ok []
  | (k, v) :: rest =>
      k' <- sql_bind (VStr k) ;;
      v' <- sql_bind (VStr v) ;;
      rows <- insert_headers rest ;;
      Ok ((k', v') :: rows)
  end.

(** [exportOrdersToSQLite]: the database whose bytes are written to the
    chosen directory or offered as a download ([Ok]), or the exception that
    ends the call before anything is written ([Err]). The file name and the
    choice between directory and download are not modelled. *)
Definition exportOrdersToSQLite (env : Env) (orders : list Order)
    (headers : list (string * string)) : result Database :=
  hs <- insert_headers headers ;;
  rows <- insert_orders env [] orders ;;
  Ok (mkDatabase (Some hs) (Some (mkTable ORDERS_COLUMNS rows))).

(** ** A concrete environment

    A host in the UTC time zone, used to run the definitions on concrete
    inputs. *)

Module Utc.

Definition msPerDay : Z := 86400000.

(** Days since the epoch to year, month, day of the proleptic Gregorian
    calendar, and back. *)
Definition civil_from_days (z : Z) : Z * Z * Z :=
  let z := (z + 719468)%Z in
  let era := (z / 146097)%Z in
  let doe := (z - era * 146097)%Z in
  let yoe := ((doe - doe / 1460 + doe / 36524 - doe / 146096) / 365)%Z in
  let doy := (doe - (365 * yoe + yoe / 4 - yoe / 100))%Z in
  let mp := ((5 * doy + 2) / 153)%Z in
  let d := (doy - (153 * mp + 2) / 5 + 1)%Z in
  let m := if (mp <? 10)%Z then (mp + 3)%Z else (mp - 9)%Z in
  let y := (yoe + era * 400 + (if (m <=? 2)%Z then 1 else 0))%Z in
  (y, m, d).

Definition days_from_civil (y m d : Z) : Z :=
  let y := if (m <=? 2)%Z then (y - 1)%Z else y in
  let era := (y / 400)%Z in
  let yoe := (y - era * 400)%Z in
  let doy := ((153 * (if (2 <? m)%Z then m - 3 else m + 9) + 2) / 5 + d - 1)%Z in
  let doe := (yoe * 365 + yoe / 4 - yoe / 100 + doy)%Z in
  (era * 146097 + doe - 719468)%Z.

(** The time value as an integer; [None] for an invalid date. *)
Definition ms (d : Date) : option Z := Z_of_float (getTime d).

Definition ofMs (t : Z) : Date := mkDate (timeClip (float_of_Z t)).

Definition invalid : Date := mkDate nan.

Definition setHours (d : Date) (h m s x : Z) : Date :=
  match ms d with
  | Some t => ofMs (t / msPerDay * msPerDay + ((h * 60 + m) * 60 + s) * 1000 + x)
  | None => invalid
  end.

Definition getDay (d : Date) : Z :=
  match ms d with
  | Some t => ((t / msPerDay + 4) mod 7)%Z
  | None => 0%Z
  end.

Definition getDate (d : Date) : Z :=
  match ms d with
  | Some t => snd (civil_from_days (t / msPerDay))
  | None => 0%Z
  end.

Definition setDate (d : Date) (n : Z) : Date :=
  match ms d with
  | Some t =>
      let '(y, m, _) := civil_from_days (t / msPerDay) in
      ofMs ((days_from_civil y m 1 + n - 1) * msPerDay + t mod msPerDay)
  | None => invalid
  end.

(** Decimal digits padded with zeros on the left. *)
Definition pad (width : nat) (z : Z) : string :=
  let ds := digits_of_Z z in
  zeros (width - length ds) ++ ds.

Definition toISOString (d : Date) : string :=
  match ms d with
  | Some t =>
      let '(y, m, day) := civil_from_days (t / msPerDay) in
      let r := (t mod msPerDay)%Z in
      let year :=
        if ((0 <=? y) && (y <=? 9999))%Z then pad 4 y
        else (if (y <? 0)%Z then "-" else "+") ++ pad 6 (Z.abs y) in
      year ++ "-" ++ pad 2 m ++ "-" ++ pad 2 day ++ "T"
      ++ pad 2 (r / 3600000) ++ ":" ++ pad 2 (r / 60000 mod 60) ++ ":"
      ++ pad 2 (r / 1000 mod 60) ++ "." ++ pad 3 (r mod 1000) ++ "Z"
  | None => ""
  end.

Definition dayNames : list string :=
  ["Sun"; "Mon"; "Tue"; "Wed"; "Thu"; "Fri"; "Sat"].
Definition monthNames : list string :=
  ["Jan"; "Feb"; "Mar"; "Apr"; "May"; "Jun"; "Jul"; "Aug"; "Sep"; "Oct"; "Nov"; "Dec"].

Definition toString (d : Date) : string :=
  match ms d with
  | Some t =>
      let '(y, m, day) := civil_from_days (t / msPerDay) in
      let r := (t mod msPerDay)%Z in
      nth (Z.to_nat (getDay d)) dayNames "" ++ " "
      ++ nth (Z.to_nat (m - 1)) monthNames "" ++ " " ++ pad 2 day ++ " "
      ++ pad 4 y ++ " " ++ pad 2 (r / 3600000) ++ ":" ++ pad 2 (r / 60000 mod 60)
      ++ ":" ++ pad 2 (r / 1000 mod 60) ++ " GMT+0000 (Coordinated Universal Time)"
  | None => "Invalid Date"
  end.

(** Exactly [n] decimal digits at the head of [s]. *)
Fixpoint fixed_digits (n : nat) (s : string) (acc : Z) : option (Z * string) :=
  match n with
  | O => Some (acc, s)
  | S n' =>
      match s with
      | String c r =>
          match digit_of c with
          | Some d => fixed_digits n' r (acc * 10 + d)%Z
          | None => None
          end
      | EmptyString => None
      end
  end.

Definition expect (c : ascii) (s : string) : option string :=
  match s with
  | String a r => if Ascii.eqb a c then Some r else None
  | EmptyString => None
  end.

Definition opt_bind {A B : Type} (o : option A) (f : A -> option B) : option B :=
  match o with
  | Some a => f a
  | None => None
  end.

Definition valid_civil (y m d : Z) : bool :=
  let '(y', m', d') := civil_from_days (days_from_civil y m d) in
  ((y =? y') && (m =? m') && (d =? d'))%Z.

(** [new Date(s)] for the date-time format of [toISOString] with a
    four-digit year, and for its date-only form; any other text gives an
    invalid date. *)
Definition parse (s : string) : Date :=
  let date_part :=
    opt_bind (fixed_digits 4 s 0) (fun '(y, s) =>
    opt_bind (expect "-" s) (fun s =>
    opt_bind (fixed_digits 2 s 0) (fun '(m, s) =>
    opt_bind (expect "-" s) (fun s =>
    opt_bind (fixed_digits 2 s 0) (fun '(d, s) =>
    if valid_civil y m d then Some (days_from_civil y m d, s) else None))))) in
  match date_part with
  | Some (days, EmptyString) => ofMs (days * msPerDay)
  | Some (days, rest) =>
      let time_part :=
        opt_bind (expect "T" rest) (fun s =>
        opt_bind (fixed_digits 2 s 0) (fun '(h, s) =>
        opt_bind (expect ":" s) (fun s =>
        opt_bind (fixed_digits 2 s 0) (fun '(mi, s) =>
        opt_bind (expect ":" s) (fun s =>
        opt_bind (fixed_digits 2 s 0) (fun '(se, s) =>
        opt_bind (expect "." s) (fun s =>
        opt_bind (fixed_digits 3 s 0) (fun '(x, s) =>
        if (s =? "Z") && (h <? 24)%Z && (mi <? 60)%Z && (se <? 60)%Z
        then Some (((h * 60 + mi) * 60 + se) * 1000 + x)%Z else None)))))))) in
      match time_part with
      | Some t => ofMs (days * msPerDay + t)
      | None => invalid
      end
  | None => invalid
  end.

(** Modelled from the spec: [formatDate] of [utils/formatters], which is not
    under [src/]. The spec only says that dates are "formatted as display
    strings"; here the display string is day/month/year, and the empty
    string for no date or an invalid one. *)
Definition formatDate (d : option Date) : string :=
  match d with
  | Some d =>
      match ms d with
      | Some t =>
          let '(y, m, day) := civil_from_days (t / msPerDay) in
          pad 2 day ++ "/" ++ pad 2 m ++ "/" ++ pad 4 y
      | None => ""
      end
  | None => ""
  end.

(** Modelled from the spec: [parseExcelDate] of [utils/formatters], which is
    not under [src/]: "accepts already-typed date values (pass through),
    spreadsheet-serial numeric dates (convert using the standard 1900 epoch
    date system with the historical leap-year-bug offset), and string dates;
    unparsable -> null". The string dates read here are the display strings
    of [formatDate]. *)
Definition parseExcelDate (v : JsVal) : option Date :=
  match v with
  | VDate d => Some d
  | VNum n =>
      match Z_of_float ((n - 25569) * 86400000)%float with
      | Some t => Some (ofMs t)
      | None => None
      end
  | VStr s =>
      opt_bind (fixed_digits 2 (trim s) 0) (fun '(d, s) =>
      opt_bind (expect "/" s) (fun s =>
      opt_bind (fixed_digits 2 s 0) (fun '(m, s) =>
      opt_bind (expect "/" s) (fun s =>
      opt_bind (fixed_digits 4 s 0) (fun '(y, s) =>
      if (s =? "") && valid_civil y m d
      then Some (ofMs (days_from_civil y m d * msPerDay)) else None)))))
  | _ => None
  end.

(** The enumeration members under their own names. *)
Definition OrderState_value (s : OrderState) : JsVal :=
  VStr match s with
       | OPEN => "OPEN"
       | IN_PRODUCTION => "IN_PRODUCTION"
       | LATE => "LATE"
       | COMPLETED => "COMPLETED"
       end.

(** The environment of a call made at the instant [clock]. *)
Definition env (clock : Date) : Env :=
  mkEnv clock setHours getDay getDate setDate toString toISOString parse
    formatDate parseExcelDate OrderState_value.

End Utc.
(** ** The browser database (IndexedDB)

    The database of the module has one version number and a set of object
    stores. An object store holds records by key, in the order of the keys;
    every key of this module is a text. What is stored is a structured
    clone of the value: the same value, dates included. Failures of the
    storage itself (quota, a blocked upgrade) are not modelled. *)

Definition ObjectStore : Set := list (string * JsVal).

Record IDBDatabase : Set := mkIDB {
  version : Z;
  objectStores : list (string * ObjectStore)
}.

(** No database yet. *)
Definition noDatabase : IDBDatabase := mkIDB 0 [].

Definition DB_VERSION : Z := 5.
Definition STORE_HANDLES : string := "handles".
Definition STORE_ORDERS : string := "orders".
Definition STORE_HEADERS : string := "headers".
Definition STORE_STOP_REASONS : string := "stop_reasons".
Definition STORE_USERS : string := "users".
Definition STORE_EXPORT_COLUMNS : string := "export_columns".

Definition has_store (stores : list (string * ObjectStore)) (name : string) : bool :=
  existsb (String.eqb name) (map fst stores).

(** [if (!db.objectStoreNames.contains(name)) db.createObjectStore(name)]. *)
Definition createObjectStore (stores : list (string * ObjectStore)) (name : string)
  : list (string * ObjectStore) :=
  if has_store stores name then stores else (stores ++ [(name, [])])%list.

Definition onupgradeneeded (stores : list (string * ObjectStore))
  : list (string * ObjectStore) :=
  fold_left createObjectStore
    [ STORE_HANDLES; STORE_ORDERS; STORE_HEADERS; STORE_STOP_REASONS;
      STORE_USERS; STORE_EXPORT_COLUMNS ]
    stores.

(** [initDB]: [indexedDB.open(DB_NAME, DB_VERSION)]. A database of a lower
    version (or none) is upgraded; one of a higher version is refused. *)
Definition initDB (db : IDBDatabase) : result IDBDatabase :=
  if (DB_VERSION <? version db)%Z then Err "VersionError"
  else if (version db <? DB_VERSION)%Z
  then Ok (mkIDB DB_VERSION (onupgradeneeded (objectStores db)))
  else Ok db.

(** *** Records *)

(** [store.delete(key)]. *)
Definition store_delete (k : string) (rs : ObjectStore) : ObjectStore :=
  filter (fun kv => negb (fst kv =? k)) rs.

(** The place of a new key in the order of the keys. *)
Fixpoint store_insert (k : string) (v : JsVal) (rs : ObjectStore) : ObjectStore :=
  match rs with
  | [] => [(k, v)]
  | (k', v') :: rest =>
      if String.ltb k k' then (k, v) :: rs else (k', v') :: store_insert k v rest
  end.

(** [store.put(value, key)]: the record takes the place of the one of the
    same key, if any, at the place of the key in the order of the keys. *)
Definition store_put (k : string) (v : JsVal) (rs : ObjectStore) : ObjectStore :=
  store_insert k v (store_delete k rs).

(** [store.get(key)]: [undefined] when there is no record. *)
Definition store_get (k : string) (rs : ObjectStore) : JsVal := obj_get rs k.

(** [store.getAll()]: the values in the order of the keys. *)
Definition store_getAll (rs : ObjectStore) : list JsVal := map snd rs.

Definition objectStore (db : IDBDatabase) (name : string) : ObjectStore :=
  match assoc_get (objectStores db) name with
  | Some rs => rs
  | None => []
  end.

Fixpoint update_stores (name : string) (f : ObjectStore -> ObjectStore)
    (stores : list (string * ObjectStore)) : list (string * ObjectStore) :=
  match stores with
  | [] => []
  | (n, rs) :: rest =>
      if n =? name then (n, f rs) :: rest else (n, rs) :: update_stores name f rest
  end.

Definition update_store (name : string) (f : ObjectStore -> ObjectStore)
    (db : IDBDatabase) : IDBDatabase :=
  mkIDB (version db) (update_stores name f (objectStores db)).

(** *** Promises *)

(** How a promise ends: fulfilled, rejected, or never settled (an exception
    inside an event handler leaves the promise pending). *)
Inductive promise (A : Type) : Type :=
| Fulfilled (a : A)
| Rejected (msg : string)
| Pending.
Arguments Fulfilled {A} a.
Arguments Rejected {A} msg.
Arguments Pending {A}.

(** An asynchronous function on the database: how its promise ends, and the
    database it leaves. *)
Definition Async (A : Type) : Type := IDBDatabase -> promise A * IDBDatabase.

Definition then_ {A B : Type} (p : Async A) (k : A -> Async B) : Async B :=
  fun db =>
    match p db with
    | (Fulfilled a, db') => k a db'
    | (Rejected m, db') => (Rejected m, db')
    | (Pending, db') => (Pending, db')
    end.

(** [const db = await initDB(); return new Promise(...)] where the promise
    opens a transaction on [names]: [db.transaction] throws when one of the
    stores does not exist, which rejects the promise. *)
Definition in_transaction {A : Type} (names : list string)
    (body : IDBDatabase -> promise A * IDBDatabase) : Async A :=
  fun db =>
    match initDB db with
    | Err m => (Rejected m, db)
    | Ok db' =>
        if forallb (has_store (objectStores db')) names then body db'
        else (Rejected "NotFoundError", db')
    end.

(** ** Users *)

Module User.
Record t : Set := mk {
  id : string;
  username : string;
  name : string;
  passwordHash : string;
  role : string;
  permissions : JsObj
}.
End User.

Definition user_to_obj (u : User.t) : JsVal :=
  VObj [ ("id", VStr (User.id u)); ("username", VStr (User.username u));
         ("name", VStr (User.name u));
         ("passwordHash", VStr (User.passwordHash u));
         ("role", VStr (User.role u));
         ("permissions", VObj (User.permissions u)) ].

(** The store of users has in-line keys: the key of a record is its [id]. *)
Definition saveUserToDB (user : User.t) : Async unit :=
  in_transaction [STORE_USERS] (fun db =>
    (Fulfilled tt,
     update_store STORE_USERS (store_put (User.id user) (user_to_obj user)) db)).

Definition deleteUserFromDB (userId : string) : Async unit :=
  in_transaction [STORE_USERS] (fun db =>
    (Fulfilled tt, update_store STORE_USERS (store_delete userId) db)).

Definition loadUsersFromDB : Async (list JsVal) :=
  in_transaction [STORE_USERS] (fun db =>
    (Fulfilled (store_getAll (objectStore db STORE_USERS)), db)).

(** *** Password hashes *)

(** [window.crypto.subtle]: [None] outside a secure context, else its
    SHA-256 digest as a function from bytes to bytes. *)
Record Crypto : Type := mkCrypto {
  subtle : option (list Byte.byte -> list Byte.byte)
}.

(** [n.toString(16)]. *)
Fixpoint hex_digits (fuel : nat) (n : N) (acc : string) : string :=
  match fuel with
  | O => acc
  | S fuel' =>
      let acc' := String (hex_char (n mod 16)) acc in
      if (n <? 16)%N then acc' else hex_digits fuel' (n / 16)%N acc'
  end.

Definition toString16 (n : N) : string := hex_digits (S (N.to_nat (N.log2 n))) n "".

(** [s.padStart(2, '0')]. *)
Definition padStart2 (s : string) : string :=
  match s with
  | String c EmptyString => String "0" s
  | EmptyString => "00"
  | _ => s
  end.

(** [Array.from(text).map(char => char.charCodeAt(0))]: for each character
    of the text (a code point, read from its UTF-8 bytes), its first UTF-16
    code unit. *)
Fixpoint char_codes (s : string) : list N :=
  match s with
  | EmptyString => []
  | String c r =>
      let b := code c in
      if (b <? 192)%N then b :: char_codes r
      else
        match r with
        | EmptyString => [b]
        | String c2 r2 =>
            let b2 := (code c2 mod 64)%N in
            if (b <? 224)%N then ((b - 192) * 64 + b2)%N :: char_codes r2
            else
              match r2 with
              | EmptyString => [b]
              | String c3 r3 =>
                  let b3 := (code c3 mod 64)%N in
                  if (b <? 240)%N
                  then (((b - 224) * 64 + b2) * 64 + b3)%N :: char_codes r3
                  else
                    match r3 with
                    | EmptyString => [b]
                    | String c4 r4 =>
                        let cp := ((((b - 240) * 64 + b2) * 64 + b3) * 64
                                   + code c4 mod 64)%N in
                        (55296 + (cp - 65536) / 1024)%N :: char_codes r4
                    end
              end
        end
  end.

Definition hashPassword (crypto : Crypto) (password : string) : string :=
  match subtle crypto with
  | None => concat "" (map toString16 (char_codes password))
  | Some digest =>
      let msgUint8 := list_byte_of_string password in
      let hashArray := digest msgUint8 in
      concat "" (map (fun b => padStart2 (toString16 (Byte.to_N b))) hashArray)
  end.

(** *** The two users of a new installation *)

(** [SECTORS.forEach(s => perms.sectors[s.id] = level)]. The list [SECTORS]
    is that of the constants module, which is not under [src/]: here the
    six ids of [getSectorState]. *)
Definition sector_permissions (level : string) : JsVal :=
  VObj (fold_left (fun sectors s => obj_set sectors (sectorKey s) (VStr level))
          SECTORS []).

Definition adminPerms : JsObj :=
  [ ("dashboard", VStr "write"); ("orders", VStr "write");
    ("timeline", VStr "write"); ("config", VStr "write");
    ("stopReasons", VStr "write"); ("sectors", sector_permissions "write") ].

Definition viewerPerms : JsObj :=
  [ ("dashboard", VStr "none"); ("orders", VStr "read");
    ("timeline", VStr "read"); ("config", VStr "none");
    ("stopReasons", VStr "none"); ("sectors", sector_permissions "read") ].

Definition planUser (crypto : Crypto) : User.t :=
  User.mk "1" "Plan" "Planeamento" (hashPassword crypto "Lasa") "admin" adminPerms.

Definition lasaUser (crypto : Crypto) : User.t :=
  User.mk "2" "Lasa" "Utilizador Lasa" (hashPassword crypto "") "viewer" viewerPerms.

Definition initializeDefaultUsers (crypto : Crypto) : Async (list JsVal) :=
  then_ loadUsersFromDB (fun users =>
    match users with
    | [] =>
        then_ (saveUserToDB (planUser crypto)) (fun _ =>
        then_ (saveUserToDB (lasaUser crypto)) (fun _ =>
        fun db => (Fulfilled [user_to_obj (planUser crypto);
                              user_to_obj (lasaUser crypto)], db)))
    | _ => fun db => (Fulfilled users, db)
    end).

(** ** Stop reasons, export columns and directory handles *)

Definition saveStopReasonsToDB (hierarchy : list JsVal) : Async unit :=
  in_transaction [STORE_STOP_REASONS] (fun db =>
    (Fulfilled tt,
     update_store STORE_STOP_REASONS (store_put "main_hierarchy" (VArr hierarchy)) db)).

(** [resolve(req.result || null)]. *)
Definition loadStopReasonsFromDB : Async JsVal :=
  in_transaction [STORE_STOP_REASONS] (fun db =>
    (Fulfilled (js_or (store_get "main_hierarchy" (objectStore db STORE_STOP_REASONS))
                  VNull), db)).

Definition saveExportColumnsConfig (selectedKeys : list string) : Async unit :=
  in_transaction [STORE_EXPORT_COLUMNS] (fun db =>
    (Fulfilled tt,
     update_store STORE_EXPORT_COLUMNS
       (store_put "config" (VArr (map VStr selectedKeys))) db)).

Definition loadExportColumnsConfig : Async JsVal :=
  in_transaction [STORE_EXPORT_COLUMNS] (fun db =>
    (Fulfilled (js_or (store_get "config" (objectStore db STORE_EXPORT_COLUMNS))
                  VNull), db)).

(** The two directories that are remembered. *)
Inductive DirectoryKey : Set := import_dir | export_dir.

Definition directoryKey (k : DirectoryKey) : string :=
  match k with
  | import_dir => "import"
  | export_dir => "export"
  end.

Definition saveDirectoryHandle (k : DirectoryKey) (handle : JsVal) : Async bool :=
  in_transaction [STORE_HANDLES] (fun db =>
    (Fulfilled true,
     update_store STORE_HANDLES (store_put (directoryKey k) handle) db)).

Definition getDirectoryHandle (k : DirectoryKey) : Async JsVal :=
  in_transaction [STORE_HANDLES] (fun db =>
    (Fulfilled (store_get (directoryKey k) (objectStore db STORE_HANDLES)), db)).

(** ** The orders kept in the browser *)

Definition headers_to_obj (hs : list (string * string)) : JsVal :=
  VObj (map (fun kv => (fst kv, VStr (snd kv))) hs).

Definition saveOrdersToDB (orders : list Order) (headers : list (string * string))
  : Async unit :=
  in_transaction [STORE_ORDERS; STORE_HEADERS] (fun db =>
    let db := update_store STORE_ORDERS
                (store_put "main_list"
                   (VArr (map (fun o => VObj (order_to_obj o)) orders))) db in
    let db := update_store STORE_HEADERS
                (store_put "main_headers" (headers_to_obj headers)) db in
    (Fulfilled tt, db)).

(** The own properties copied by [{...o}]. *)
Fixpoint indexed {A : Type} (i : nat) (l : list A) : list (nat * A) :=
  match l with
  | [] => []
  | x :: rest => (i, x) :: indexed (S i) rest
  end.

Definition index_key (i : nat) : string := Number_toString (float_of_nat i).

Fixpoint chars (s : string) : list JsVal :=
  match s with
  | String c r => VStr (String c "") :: chars r
  | EmptyString => []
  end.

Definition spread (o : JsVal) : JsObj :=
  match o with
  | VObj fields => fields
  | VArr items => map (fun iv => (index_key (fst iv), snd iv)) (indexed 0 items)
  | VStr s => map (fun iv => (index_key (fst iv), snd iv)) (indexed 0 (chars s))
  | _ => []
  end.

(** [o.field] for one of the date fields; reading a property of [null] or
    [undefined] throws. *)
Definition property (o : JsVal) (field : string) : option JsVal :=
  match o with
  | VObj fields => Some (obj_get fields field)
  | VNull | VUndef => None
  | _ => Some VUndef
  end.

(** The date fields converted by [loadOrdersFromDB], in its order. *)
Definition storedDateFields : list string :=
  [ "issueDate"; "requestedDate"; "dataTec"; "felpoCruDate"; "tinturariaDate";
    "confDate"; "armExpDate"; "dataEnt" ].

(** [{ ...o, issueDate: o.issueDate ? new Date(o.issueDate) : null, ... }];
    [None] when an exception is thrown. *)
Definition hydratedOrder (env : Env) (o : JsVal) : option JsObj :=
  match property o "issueDate" with
  | None => None
  | Some _ =>
      Some (fold_left
              (fun obj field =>
                 let v := match property o field with
                          | Some v => v
                          | None => VUndef
                          end in
                 obj_set obj field
                   (if truthy v then VDate (newDate env v) else VNull))
              storedDateFields (spread o))
  end.

Fixpoint hydratedOrders (env : Env) (items : list JsVal) : option (list JsObj) :=
  match items with
  | [] => Some []
  | o :: rest =>
      match hydratedOrder env o, hydratedOrders env rest with
      | Some obj, Some objs => Some (obj :: objs)
      | _, _ => None
      end
  end.

(** What [loadOrdersFromDB] resolves with when there is a list: the orders
    and the headers. *)
Record StoredData : Set := mkStoredData {
  storedOrders : list JsObj;
  storedHeaders : JsVal
}.

(** [loadOrdersFromDB]: [null] ([None]) when no list is stored. The list is
    converted inside the [oncomplete] handler: when the stored value is not
    an array, or holds [null], the handler throws and the promise stays
    pending. *)
Definition loadOrdersFromDB (env : Env) : Async (option StoredData) :=
  in_transaction [STORE_ORDERS; STORE_HEADERS] (fun db =>
    let reqOrders := store_get "main_list" (objectStore db STORE_ORDERS) in
    let reqHeaders := store_get "main_headers" (objectStore db STORE_HEADERS) in
    if truthy reqOrders then
      match reqOrders with
      | VArr items =>
          match hydratedOrders env items with
          | Some hydrated =>
              (Fulfilled (Some (mkStoredData hydrated (js_or reqHeaders (VObj [])))), db)
          | None => (Pending, db)
          end
      | _ => (Pending, db)
      end
    else (Fulfilled None, db)).

Definition clearOrdersFromDB : Async unit :=
  in_transaction [STORE_ORDERS; STORE_HEADERS] (fun db =>
    let db := update_store STORE_ORDERS (fun _ => []) db in
    let db := update_store STORE_HEADERS (fun _ => []) db in
    (Fulfilled tt, db)).
(** ** Files: names, permissions and the choice of the parser *)

(** The [Date] methods read for a file name, which depend on the host's
    time zone. *)
Record Calendar : Type := mkCalendar {
  (** [d.getMonth()]: 0 is January *)
  getMonth : Date -> Z;
  (** [d.getFullYear()] *)
  getFullYear : Date -> Z;
  (** [d.toTimeString()] *)
  toTimeString : Date -> string
}.

(** [String(n)] for an integer. *)
Definition text_of_Z (z : Z) : string := Number_toString (float_of_Z z).

(** [DD-MM-YYYY] of the current date. *)
Definition dateStr (env : Env) (cal : Calendar) : string :=
  let now := currentDate env in
  let day := padStart2 (text_of_Z (getDate env now)) in
  let month := padStart2 (text_of_Z (getMonth cal now + 1)) in
  let year := text_of_Z (getFullYear cal now) in
  day ++ "-" ++ month ++ "-" ++ year.

(** [s.replace(/:/g, '-')]. *)
Fixpoint colons_to_hyphens (s : string) : string :=
  match s with
  | String c r => String (if Ascii.eqb c ":" then "-"%char else c) (colons_to_hyphens r)
  | EmptyString => EmptyString
  end.

Definition timeStr (env : Env) (cal : Calendar) : string :=
  colons_to_hyphens (hd "" (split " " (toTimeString cal (currentDate env)))).

(** [customFileName || fallback]: an empty name counts as none. *)
Definition name_or (customFileName : option string) (fallback : string) : string :=
  match customFileName with
  | Some n => if n =? "" then fallback else n
  | None => fallback
  end.

(** The file names of the three exports. *)
Definition sqliteFileName (env : Env) (cal : Calendar)
    (customFileName : option string) : string :=
  name_or customFileName ("TexFlow_DB_" ++ dateStr env cal ++ ".sqlite").

Definition excelFileName (env : Env) (cal : Calendar)
    (customFileName : option string) : string :=
  name_or customFileName ("TexFlow_Export_Full_" ++ dateStr env cal ++ ".xlsx").

Definition customColumnsFileName (env : Env) (cal : Calendar)
    (customFileName : option string) : string :=
  name_or customFileName
    ("TexFlow_Personalizado_" ++ dateStr env cal ++ "_" ++ timeStr env cal ++ ".xlsx").

(** [s.endsWith(suffix)]: the suffix is what is left of [s] from some
    position on. *)
Fixpoint endsWith (s suffix : string) : bool :=
  (s =? suffix)
  || match s with
     | String _ r => endsWith r suffix
     | EmptyString => false
     end.

(** A file chosen by the user: its name, and what each library makes of its
    bytes. *)
Record DataFile : Type := mkDataFile {
  fileName : string;
  asDatabase : result Database;
  asWorkbook : result Workbook
}.

Definition parseDataFile (env : Env) (file : DataFile) : result Imported :=
  if endsWith (fileName file) ".sqlite" || endsWith (fileName file) ".db"
  then parseSQLiteFile env (asDatabase file)
  else parseExcelFile env (asWorkbook file).

(** *** Permissions on a directory *)

Inductive PermissionState : Set := granted | denied | prompt.

(** A directory handle: what its two permission methods answer for a mode
    ([true] is [readwrite]), or the exception they throw, and the outcome of
    writing a file of a given name into the directory. *)
Record DirectoryHandle : Type := mkDirectoryHandle {
  queryPermission : bool -> result PermissionState;
  requestPermission : bool -> result PermissionState;
  writeFile : string -> result unit
}.

Inductive PermissionCall : Set := Queried | Requested.

Definition is_granted (s : PermissionState) : bool :=
  match s with
  | granted => true
  | _ => false
  end.

(** [verifyPermission]: its answer and the methods it called, in order. *)
Definition verifyPermission (handle : option DirectoryHandle) (readWrite : bool)
  : bool * list PermissionCall :=
  match handle with
  | None => (false, [])
  | Some h =>
      match queryPermission h readWrite with
      | Err _ => (false, [Queried])
      | Ok s =>
          if is_granted s then (true, [Queried])
          else match requestPermission h readWrite with
               | Err _ => (false, [Queried; Requested])
               | Ok s' => (is_granted s', [Queried; Requested])
               end
      end
  end.

(** Where the bytes of an export end up. *)
Inductive Delivery : Set :=
| InDirectory (name : string)
| Downloaded (name : string).

(** The end of [exportOrdersToSQLite]: the file is written into the
    directory when there is a handle, the permission is verified and the
    writing does not throw; in every other case it is offered as a
    download. *)
Definition deliver (directoryHandle : option DirectoryHandle) (name : string)
  : Delivery :=
  match directoryHandle with
  | Some h =>
      if fst (verifyPermission (Some h) true) then
        match writeFile h name with
        | Ok _ => InDirectory name
        | Err _ => Downloaded name
        end
      else Downloaded name
  | None => Downloaded name
  end.

(** ** Example data *)

Definition text_of_nat (n : nat) : string := Number_toString (float_of_nat n).

(** The element of index [i] of [generateMockOrders]. The properties that
    the source leaves out are at their defaults. *)
Definition mockOrder (env : Env) (i : nat) : Order :=
  let now := currentDate env in
  let inTenDays := mkDate (timeClip (getTime now + 86400000 * 10)%float) in
  {| id := "order-" ++ text_of_nat i;
     docNr := "ENC-2024-" ++ text_of_nat (1000 + i);
     clientCode := "C" ++ text_of_nat (100 + i);
     clientName := "CLIENTE EXEMPLO " ++ text_of_nat i;
     comercial := "COMERCIAL " ++ text_of_nat (i mod 3 + 1);
     issueDate := Some now;
     requestedDate := Some inTenDays;
     itemNr := 1%float;
     po := "PO-" ++ text_of_nat (5000 + i);
     articleCode := "ART-" ++ text_of_nat (200 + i);
     reference := "REF-" ++ text_of_nat (300 + i);
     colorCode := "COR-01"; colorDesc := "AZUL"; size := "L"; family := "BANHO";
     sizeDesc := "100x150"; ean := "5601234567890";
     qtyRequested := 100%float;
     dataTec := Some now;
     felpoCruQty := 0%float; felpoCruDate := None;
     tinturariaQty := 0%float; tinturariaDate := None;
     confRoupoesQty := 0%float; confFelposQty := 0%float; confDate := None;
     embAcabQty := 0%float; armExpDate := None;
     stockCxQty := 0%float;
     dataEnt := Some inTenDays;
     dataEspecial := None; dataPrinter := None; dataDebuxo := None;
     dataAmostras := None; dataBordados := None;
     qtyBilled := 0%float; qtyOpen := 100%float;
     sectorObservations := [];
     priority := 0%float;
     isManual := false;
     sectorPredictedDates := []; sectorStopReasons := [];
     isArchived := false; archivedAt := None; archivedBy := None |}.

(** [generateMockOrders(count)], for a count that is a natural number. *)
Definition generateMockOrders (env : Env) (count : nat) : list Order :=
  map (mockOrder env) (seq 0 count).

(** * Properties *)


(** ** Integers as numbers *)

Lemma digits2_pos_size (p : positive) : digits2_pos p = Pos.size p.
Proof. induction p as [p IH|p IH|]; cbn; now rewrite ?IH. Qed.

Lemma digits2_53 (p : positive) :
  (2 ^ 52 <= Z.pos p < 2 ^ 53)%Z -> Z.pos (digits2_pos p) = 53%Z.
Proof.
  intros [Hlo Hhi]. rewrite digits2_pos_size.
  assert (H1 := Pos.size_gt p). assert (H2 := Pos.size_le p).
  apply Pos2Z.pos_lt_pos in H1. apply Pos2Z.pos_le_pos in H2.
  rewrite Pos2Z.inj_pow in H1, H2.
  change (Z.pos p~0) with (2 * Z.pos p)%Z in H2.
  set (s := Z.pos (Pos.size p)) in *.
  assert (Hs : (0 < s)%Z) by (unfold s; lia).
  destruct (Z.lt_trichotomy s 53) as [Hlt | [-> | Hgt]]; [|reflexivity|].
  - assert ((2 ^ s <= 2 ^ 52)%Z) by (apply Z.pow_le_mono_r; lia). lia.
  - assert ((2 ^ 54 <= 2 ^ s)%Z) by (apply Z.pow_le_mono_r; lia).
    assert ((2 ^ 54 = 2 * 2 ^ 53)%Z) by reflexivity. lia.
Qed.

Lemma binary_round_exact (s : bool) (m : positive) (e : Z) :
  Z.pos (digits2_pos m) = 53%Z -> (-1074 <= e <= 971)%Z ->
  binary_round prec emax s m e = S754_finite s m e.
Proof.
  intros Hd He. unfold binary_round. rewrite Hd.
  assert (Hf : fexp prec emax (53 + e) = e).
  { unfold fexp, SpecFloat.emin, prec, emax. lia. }
  rewrite Hf. unfold shl_align. rewrite Z.sub_diag.
  unfold binary_round_aux, shr_fexp. cbn [Zdigits2 shr_record_of_loc].
  rewrite Hd, Hf, Z.sub_diag. cbn [shr shr_m loc_of_shr_record round_nearest_even].
  cbn [Zdigits2 shr_record_of_loc]. rewrite Hd, Hf, Z.sub_diag. cbn [shr shr_m].
  assert (Hle : (e <=? emax - prec)%Z = true).
  { apply Z.leb_le. unfold emax, prec. lia. }
  now rewrite Hle.
Qed.

(** The number made from a positive integer below [2 ^ 53]. *)
Lemma float_of_ratio_integer (n : Z) :
  (0 < n < 2 ^ 53)%Z ->
  float_of_ratio n 1
  = FloatOps.Z.ldexp
      (PrimFloat.of_uint63 (Uint63.of_Z (n * 2 ^ (52 - Z.log2 n)))) (Z.log2 n - 52).
Proof.
  intros [Hpos Hlt].
  assert (HL : (0 <= Z.log2 n < 53)%Z).
  { split; [apply Z.log2_nonneg|]. apply Z.log2_lt_pow2; lia. }
  destruct (Z.log2_spec n Hpos) as [Hlo Hhi].
  unfold float_of_ratio. change (Z.log2 1) with 0%Z. cbv zeta.
  set (L := Z.log2 n) in *.
  assert (E0 : (L - 0 - 53 <? 0)%Z = true) by (apply Z.ltb_lt; lia).
  rewrite E0.
  assert (Hq0 : (n * 2 ^ (- (L - 0 - 53)) / 1 <? 2 ^ 53)%Z = false).
  { apply Z.ltb_ge. rewrite Z.div_1_r.
    replace (- (L - 0 - 53))%Z with (53 - L)%Z by lia.
    replace (2 ^ 53)%Z with (2 ^ L * 2 ^ (53 - L))%Z
      by (rewrite <- Z.pow_add_r by lia; f_equal; lia).
    apply Z.mul_le_mono_nonneg_r; [apply Z.pow_nonneg; lia | exact Hlo]. }
  rewrite Hq0.
  replace (Z.max (L - 0 - 53 + 1) (-1074)) with (L - 52)%Z by lia.
  destruct (L - 52 <? 0)%Z eqn:E.
  - replace (- (L - 52))%Z with (52 - L)%Z by lia.
    rewrite Z.div_1_r, Z.mod_1_r. cbn [Z.mul Z.compare]. reflexivity.
  - apply Z.ltb_ge in E. assert (L = 52%Z) by lia. subst L.
    replace (Z.log2 n) with 52%Z by lia.
    change (1 * 2 ^ (52 - 52))%Z with 1%Z. change (2 ^ (52 - 52))%Z with 1%Z.
    rewrite Z.div_1_r, Z.mod_1_r, Z.mul_1_r. cbn [Z.mul Z.compare]. reflexivity.
Qed.

Lemma Prim2SF_integer (n : Z) :
  (0 < n < 2 ^ 53)%Z ->
  exists p : positive,
    Z.pos p = (n * 2 ^ (52 - Z.log2 n))%Z
    /\ Prim2SF (float_of_ratio n 1) = S754_finite false p (Z.log2 n - 52).
Proof.
  intros Hn. rewrite (float_of_ratio_integer n Hn). destruct Hn as [Hpos Hlt].
  assert (HL : (0 <= Z.log2 n < 53)%Z).
  { split; [apply Z.log2_nonneg|]. apply Z.log2_lt_pow2; lia. }
  destruct (Z.log2_spec n Hpos) as [Hlo Hhi].
  set (L := Z.log2 n) in *.
  set (q := (n * 2 ^ (52 - L))%Z).
  assert (Hq : (2 ^ 52 <= q < 2 ^ 53)%Z).
  { unfold q. split.
    - replace (2 ^ 52)%Z with (2 ^ L * 2 ^ (52 - L))%Z
        by (rewrite <- Z.pow_add_r by lia; f_equal; lia).
      apply Z.mul_le_mono_nonneg_r; [apply Z.pow_nonneg; lia | exact Hlo].
    - replace (2 ^ 53)%Z with (2 ^ Z.succ L * 2 ^ (52 - L))%Z
        by (rewrite <- Z.pow_add_r by lia; f_equal; lia).
      apply Z.mul_lt_mono_pos_r; [apply Z.pow_pos_nonneg; lia | exact Hhi]. }
  destruct q as [|p|p] eqn:Eq; try (exfalso; lia).
  exists p. split; [reflexivity|].
  rewrite FloatLemmas.Z_ldexp_spec, of_uint63_spec, Uint63.of_Z_spec.
  rewrite Z.mod_small by (change Uint63Axioms.wB with (2 ^ 63)%Z; lia).
  cbn [binary_normalize].
  rewrite binary_round_exact by (try apply digits2_53; lia).
  cbn [SFldexp]. rewrite Z.add_0_l.
  apply binary_round_exact; [apply digits2_53; lia | lia].
Qed.

(** An integer that a number holds exactly is read back from the number. *)
Lemma Z_of_float_of_Z (z : Z) :
  (Z.abs z < 2 ^ 53)%Z -> Z_of_float (float_of_Z z) = Some z.
Proof.
  intros Hz. unfold float_of_Z, float_of_decimal.
  destruct (Z.abs z =? 0)%Z eqn:E0.
  - apply Z.eqb_eq in E0. assert (z = 0%Z) by lia. subst z. reflexivity.
  - apply Z.eqb_neq in E0.
    assert (Hn : (0 < Z.abs z < 2 ^ 53)%Z) by lia.
    assert (HL : (0 <= Z.log2 (Z.abs z) < 53)%Z).
    { split; [apply Z.log2_nonneg|]. apply Z.log2_lt_pow2; lia. }
    assert (Hd : (0 <= Z.log2 (Z.abs z) * 30103 / 100000 <= 53)%Z).
    { split; [apply Z.div_pos; lia|].
      apply Z.div_le_upper_bound; lia. }
    cbv zeta.
    assert (E1 : (400 <? 0 + (Z.log2 (Z.abs z) * 30103 / 100000 + 1))%Z = false)
      by (apply Z.ltb_ge; lia).
    assert (E2 : (0 + (Z.log2 (Z.abs z) * 30103 / 100000 + 1) <? -400)%Z = false)
      by (apply Z.ltb_ge; lia).
    rewrite E1, E2. cbn [Z.leb Z.compare].
    change (10 ^ 0)%Z with 1%Z. rewrite Z.mul_1_r.
    destruct (Prim2SF_integer (Z.abs z) Hn) as (p & Hp & Hsf).
    assert (Hval : (if (0 <=? Z.log2 (Z.abs z) - 52)%Z
                    then Z.pos p * 2 ^ (Z.log2 (Z.abs z) - 52)
                    else Z.pos p / 2 ^ (- (Z.log2 (Z.abs z) - 52)))%Z
                   = Z.abs z).
    { rewrite Hp. destruct (0 <=? Z.log2 (Z.abs z) - 52)%Z eqn:E.
      - apply Z.leb_le in E. replace (Z.log2 (Z.abs z)) with 52%Z by lia.
        cbn. lia.
      - replace (- (Z.log2 (Z.abs z) - 52))%Z with (52 - Z.log2 (Z.abs z))%Z by lia.
        apply Z.div_mul. apply Z.pow_nonzero; lia. }
    unfold Z_of_float. destruct (z <? 0)%Z eqn:Eneg.
    + rewrite opp_spec, Hsf. cbn [SFopp negb]. rewrite Hval.
      apply Z.ltb_lt in Eneg. f_equal. lia.
    + rewrite Hsf, Hval. apply Z.ltb_ge in Eneg. f_equal. lia.
Qed.

(** ** The calendar of a host in UTC *)

(** The largest time value of a date. *)
Definition maxTime : Z := 8640000000000000.

Lemma ms_ofMs (t : Z) :
  (Z.abs t <= maxTime)%Z -> Utc.ms (Utc.ofMs t) = Some t.
Proof.
  intros Ht. unfold Utc.ms, Utc.ofMs, timeClip. cbn [getTime].
  assert (H53 : (Z.abs t < 2 ^ 53)%Z).
  { unfold maxTime in Ht. change (2 ^ 53)%Z with 9007199254740992%Z. lia. }
  rewrite (Z_of_float_of_Z t H53).
  assert (E : (Z.abs t <=? 8640000000000000)%Z = true) by (apply Z.leb_le; exact Ht).
  rewrite E. apply Z_of_float_of_Z. exact H53.
Qed.

(** The day number of the date that [civil_from_days] gives for a day
    number is that day number. *)
Lemma days_from_civil_from_days (n : Z) :
  let '(y, m, d) := Utc.civil_from_days n in
  Utc.days_from_civil y m d = n /\ (1 <= d)%Z.
Proof.
  unfold Utc.civil_from_days. cbv zeta.
  set (z := (n + 719468)%Z).
  set (era := (z / 146097)%Z).
  set (doe := (z - era * 146097)%Z).
  assert (Hdoe : (0 <= doe < 146097)%Z).
  { unfold doe, era. Z.div_mod_to_equations. lia. }
  set (yoe := ((doe - doe / 1460 + doe / 36524 - doe / 146096) / 365)%Z).
  assert (Hyoe : (0 <= yoe < 400)%Z).
  { unfold yoe. Z.div_mod_to_equations. lia. }
  set (doy := (doe - (365 * yoe + yoe / 4 - yoe / 100))%Z).
  assert (Hdoy : (0 <= doy < 366)%Z).
  { unfold doy, yoe. Z.div_mod_to_equations. lia. }
  set (mp := ((5 * doy + 2) / 153)%Z).
  assert (Hmp : (0 <= mp < 12)%Z).
  { unfold mp. Z.div_mod_to_equations. lia. }
  set (d := (doy - (153 * mp + 2) / 5 + 1)%Z).
  assert (Hd : (1 <= d)%Z).
  { unfold d, mp. Z.div_mod_to_equations. lia. }
  split; [|exact Hd].
  unfold Utc.days_from_civil. cbv zeta.
  destruct (mp <? 10)%Z eqn:Emp.
  - apply Z.ltb_lt in Emp.
    assert (E1 : (mp + 3 <=? 2)%Z = false) by (apply Z.leb_gt; lia).
    assert (E2 : (2 <? mp + 3)%Z = true) by (apply Z.ltb_lt; lia).
    rewrite E1, E2.
    replace (yoe + era * 400 + 0)%Z with (yoe + era * 400)%Z by lia.
    rewrite Z.div_add by lia. rewrite (Z.div_small yoe 400) by lia.
    replace (mp + 3 - 3)%Z with mp by lia.
    replace (yoe + era * 400 - (0 + era) * 400)%Z with yoe by lia.
    unfold d, doy, doe, z. lia.
  - apply Z.ltb_ge in Emp.
    assert (E1 : (mp - 9 <=? 2)%Z = true) by (apply Z.leb_le; lia).
    assert (E2 : (2 <? mp - 9)%Z = false) by (apply Z.ltb_ge; lia).
    rewrite E1, E2.
    replace (yoe + era * 400 + 1 - 1)%Z with (yoe + era * 400)%Z by lia.
    rewrite Z.div_add by lia. rewrite (Z.div_small yoe 400) by lia.
    replace (mp - 9 + 9)%Z with mp by lia.
    replace (yoe + era * 400 - (0 + era) * 400)%Z with yoe by lia.
    unfold d, doy, doe, z. lia.
Qed.

Lemma days_from_civil_day (y m d d' : Z) :
  Utc.days_from_civil y m d' = (Utc.days_from_civil y m d + d' - d)%Z.
Proof. unfold Utc.days_from_civil. cbv zeta. lia. Qed.

Lemma setHours_ofMs (t h m s x : Z) :
  (Z.abs t <= maxTime)%Z ->
  Utc.setHours (Utc.ofMs t) h m s x
  = Utc.ofMs (t / Utc.msPerDay * Utc.msPerDay + ((h * 60 + m) * 60 + s) * 1000 + x).
Proof. intros Ht. unfold Utc.setHours. now rewrite (ms_ofMs t Ht). Qed.

Lemma getDay_ofMs (t : Z) :
  (Z.abs t <= maxTime)%Z ->
  Utc.getDay (Utc.ofMs t) = ((t / Utc.msPerDay + 4) mod 7)%Z.
Proof. intros Ht. unfold Utc.getDay. now rewrite (ms_ofMs t Ht). Qed.

(** [setDate] to the day of the month plus [k] moves the date by [k] days. *)
Lemma setDate_ofMs (t k : Z) :
  (Z.abs t <= maxTime)%Z ->
  Utc.setDate (Utc.ofMs t) (Utc.getDate (Utc.ofMs t) + k)
  = Utc.ofMs (t + k * Utc.msPerDay).
Proof.
  intros Ht. unfold Utc.setDate, Utc.getDate. rewrite (ms_ofMs t Ht).
  assert (H := days_from_civil_from_days (t / Utc.msPerDay)).
  destruct (Utc.civil_from_days (t / Utc.msPerDay)) as [[y m] d].
  destruct H as [H _]. cbn [snd]. f_equal.
  rewrite (days_from_civil_day y m d 1), H.
  assert (Hm := Z.div_mod t Utc.msPerDay ltac:(discriminate)).
  unfold Utc.msPerDay in *. lia.
Qed.

(** ** The order of integer time values *)

(** The number made from an integer that it holds exactly. *)
Lemma Prim2SF_float_of_Z (z : Z) :
  (Z.abs z < 2 ^ 53)%Z -> z <> 0%Z ->
  exists p : positive,
    Z.pos p = (Z.abs z * 2 ^ (52 - Z.log2 (Z.abs z)))%Z
    /\ Prim2SF (float_of_Z z)
       = S754_finite (z <? 0)%Z p (Z.log2 (Z.abs z) - 52).
Proof.
  intros Hz Hnz. unfold float_of_Z, float_of_decimal.
  assert (E0 : (Z.abs z =? 0)%Z = false) by (apply Z.eqb_neq; lia).
  rewrite E0.
  assert (Hn : (0 < Z.abs z < 2 ^ 53)%Z) by lia.
  assert (HL : (0 <= Z.log2 (Z.abs z) < 53)%Z).
  { split; [apply Z.log2_nonneg|]. apply Z.log2_lt_pow2; lia. }
  assert (Hd : (0 <= Z.log2 (Z.abs z) * 30103 / 100000 <= 53)%Z).
  { split; [apply Z.div_pos; lia|]. apply Z.div_le_upper_bound; lia. }
  cbv zeta.
  assert (E1 : (400 <? 0 + (Z.log2 (Z.abs z) * 30103 / 100000 + 1))%Z = false)
    by (apply Z.ltb_ge; lia).
  assert (E2 : (0 + (Z.log2 (Z.abs z) * 30103 / 100000 + 1) <? -400)%Z = false)
    by (apply Z.ltb_ge; lia).
  rewrite E1, E2. cbn [Z.leb Z.compare].
  change (10 ^ 0)%Z with 1%Z. rewrite Z.mul_1_r.
  destruct (Prim2SF_integer (Z.abs z) Hn) as (p & Hp & Hsf).
  exists p. split; [exact Hp|].
  destruct (z <? 0)%Z; [rewrite opp_spec, Hsf; reflexivity | exact Hsf].
Qed.

(** Two positive integers compare as their exponents and, for equal
    exponents, their mantissas do. *)
Lemma compare_normalized (n1 n2 : Z) (p1 p2 : positive) :
  (0 < n1)%Z -> (0 < n2)%Z ->
  Z.pos p1 = (n1 * 2 ^ (52 - Z.log2 n1))%Z ->
  Z.pos p2 = (n2 * 2 ^ (52 - Z.log2 n2))%Z ->
  (Z.log2 n1 < 53)%Z -> (Z.log2 n2 < 53)%Z ->
  match (Z.log2 n1 - 52 ?= Z.log2 n2 - 52)%Z with
  | Lt => Lt
  | Gt => Gt
  | Eq => (p1 ?= p2)%positive
  end = (n1 ?= n2)%Z.
Proof.
  intros H1 H2 Hp1 Hp2 HL1 HL2.
  destruct (Z.log2_spec n1 H1) as [Hlo1 Hhi1].
  destruct (Z.log2_spec n2 H2) as [Hlo2 Hhi2].
  destruct (Z.compare_spec (Z.log2 n1 - 52) (Z.log2 n2 - 52)) as [E | E | E].
  - assert (EL : Z.log2 n1 = Z.log2 n2) by lia.
    change (p1 ?= p2)%positive with (Z.pos p1 ?= Z.pos p2)%Z.
    rewrite Hp1, Hp2, EL.
    assert (Hk : (0 < 2 ^ (52 - Z.log2 n2))%Z) by (apply Z.pow_pos_nonneg; lia).
    destruct (Z.compare_spec n1 n2) as [C | C | C].
    + subst n1. apply Z.compare_refl.
    + apply Z.compare_lt_iff. now apply Z.mul_lt_mono_pos_r.
    + apply Z.compare_gt_iff. now apply Z.mul_lt_mono_pos_r.
  - symmetry. apply Z.compare_lt_iff.
    assert (2 ^ Z.succ (Z.log2 n1) <= 2 ^ Z.log2 n2)%Z
      by (apply Z.pow_le_mono_r; lia).
    lia.
  - symmetry. apply Z.compare_gt_iff.
    assert (2 ^ Z.succ (Z.log2 n2) <= 2 ^ Z.log2 n1)%Z
      by (apply Z.pow_le_mono_r; lia).
    lia.
Qed.

Lemma float_of_Z_ltb (a b : Z) :
  (Z.abs a < 2 ^ 53)%Z -> (Z.abs b < 2 ^ 53)%Z ->
  (float_of_Z a <? float_of_Z b)%float = (a <? b)%Z.
Proof.
  intros Ha Hb. rewrite ltb_spec. unfold SFltb.
  assert (HLa : a <> 0%Z -> (Z.log2 (Z.abs a) < 53)%Z)
    by (intros; apply Z.log2_lt_pow2; lia).
  assert (HLb : b <> 0%Z -> (Z.log2 (Z.abs b) < 53)%Z)
    by (intros; apply Z.log2_lt_pow2; lia).
  destruct (Z.eq_dec a 0) as [-> | Hna], (Z.eq_dec b 0) as [-> | Hnb].
  - reflexivity.
  - destruct (Prim2SF_float_of_Z b Hb Hnb) as (p & _ & ->).
    change (Prim2SF (float_of_Z 0)) with (S754_zero false). cbn [SFcompare].
    destruct (b <? 0)%Z eqn:E; symmetry.
    + apply Z.ltb_lt in E. apply Z.ltb_ge. lia.
    + apply Z.ltb_ge in E. apply Z.ltb_lt. lia.
  - destruct (Prim2SF_float_of_Z a Ha Hna) as (p & _ & ->).
    change (Prim2SF (float_of_Z 0)) with (S754_zero false). cbn [SFcompare].
    destruct (a <? 0)%Z; reflexivity.
  - destruct (Prim2SF_float_of_Z a Ha Hna) as (p & Hp & ->).
    destruct (Prim2SF_float_of_Z b Hb Hnb) as (q & Hq & ->).
    cbn [SFcompare].
    change (PosDef.Pos.compare_cont Eq ?x ?y) with (Pos.compare x y).
    destruct (a <? 0)%Z eqn:Ea, (b <? 0)%Z eqn:Eb.
    + apply Z.ltb_lt in Ea, Eb.
      assert (H := compare_normalized (Z.abs a) (Z.abs b) p q
                     ltac:(lia) ltac:(lia) Hp Hq (HLa Hna) (HLb Hnb)).
      assert (Hc : (Z.abs a ?= Z.abs b)%Z = (b ?= a)%Z).
      { rewrite !Z.abs_neq by lia. apply Z.compare_opp. }
      rewrite Hc in H. unfold Z.ltb. rewrite (Z.compare_antisym b a), <- H.
      destruct (Z.log2 (Z.abs a) - 52 ?= Z.log2 (Z.abs b) - 52)%Z;
        reflexivity.
    + apply Z.ltb_lt in Ea. apply Z.ltb_ge in Eb. symmetry. apply Z.ltb_lt. lia.
    + apply Z.ltb_ge in Ea. apply Z.ltb_lt in Eb. symmetry. apply Z.ltb_ge. lia.
    + apply Z.ltb_ge in Ea, Eb.
      assert (H := compare_normalized (Z.abs a) (Z.abs b) p q
                     ltac:(lia) ltac:(lia) Hp Hq (HLa Hna) (HLb Hnb)).
      rewrite !Z.abs_eq in H by lia. unfold Z.ltb. rewrite <- H.
      rewrite !Z.abs_eq by lia.
      destruct (Z.log2 a - 52 ?= Z.log2 b - 52)%Z; reflexivity.
Qed.

Lemma getTime_ofMs (t : Z) :
  (Z.abs t <= maxTime)%Z -> getTime (Utc.ofMs t) = float_of_Z t.
Proof.
  intros Ht. unfold Utc.ofMs, timeClip. cbn [getTime].
  assert (H53 : (Z.abs t < 2 ^ 53)%Z).
  { unfold maxTime in Ht. change (2 ^ 53)%Z with 9007199254740992%Z. lia. }
  rewrite (Z_of_float_of_Z t H53).
  assert (E : (Z.abs t <=? 8640000000000000)%Z = true) by (apply Z.leb_le; exact Ht).
  now rewrite E.
Qed.

(** In a host in UTC, a date is before another exactly when its time value
    is smaller. *)
Lemma ofMs_ltb (a b : Z) :
  (Z.abs a <= maxTime)%Z -> (Z.abs b <= maxTime)%Z ->
  (getTime (Utc.ofMs a) <? getTime (Utc.ofMs b))%float = (a <? b)%Z.
Proof.
  intros Ha Hb. rewrite (getTime_ofMs a Ha), (getTime_ofMs b Hb).
  apply float_of_Z_ltb; unfold maxTime in *;
    change (2 ^ 53)%Z with 9007199254740992%Z; lia.
Qed.

(** ** Concrete inputs *)

(** Monday 2 November 2026, 09:33 UTC. *)
Definition demoClock : Date := Utc.parse "2026-11-02T09:33:12.345Z".
Definition demoEnv : Env := Utc.env demoClock.
Definition yesterday : Date := Utc.parse "2026-11-01T00:00:00.000Z".

(** Every sector date passed yesterday and nothing was produced, but nothing
    is open any more. *)
Definition overdueClosedOrder : Order :=
  {| id := "ENC-1-1"; docNr := "ENC-1"; clientCode := "C100";
     clientName := "CLIENTE"; comercial := "ANA";
     issueDate := Some yesterday; requestedDate := Some yesterday;
     itemNr := 1%float; po := "PO-1"; articleCode := "ART"; reference := "REF";
     colorCode := "01"; colorDesc := "AZUL"; size := "L"; family := "BANHO";
     sizeDesc := "100x150"; ean := "5601234567890";
     qtyRequested := 100%float; dataTec := Some yesterday;
     felpoCruQty := 0%float; felpoCruDate := Some yesterday;
     tinturariaQty := 0%float; tinturariaDate := Some yesterday;
     confRoupoesQty := 0%float; confFelposQty := 0%float;
     confDate := Some yesterday; embAcabQty := 0%float;
     armExpDate := Some yesterday; stockCxQty := 0%float;
     dataEnt := Some yesterday; qtyBilled := 100%float; qtyOpen := 0%float;
     sectorObservations := []; sectorPredictedDates := []; priority := 0%float;
     isManual := false; sectorStopReasons := []; dataEspecial := None;
     dataPrinter := None; dataDebuxo := None; dataAmostras := None;
     dataBordados := None; isArchived := false; archivedAt := None;
     archivedBy := None |}.

(** The scenario of the specification: 100 requested, 40 open, requested
    for yesterday; every other quantity 0 and every other date [null]. *)
Definition scenarioLateOrder : Order :=
  {| id := ""; docNr := ""; clientCode := ""; clientName := ""; comercial := "";
     issueDate := None; requestedDate := Some yesterday; itemNr := 0%float;
     po := ""; articleCode := ""; reference := ""; colorCode := "";
     colorDesc := ""; size := ""; family := ""; sizeDesc := ""; ean := "";
     qtyRequested := 100%float; dataTec := None; felpoCruQty := 0%float;
     felpoCruDate := None; tinturariaQty := 0%float; tinturariaDate := None;
     confRoupoesQty := 0%float; confFelposQty := 0%float; confDate := None;
     embAcabQty := 0%float; armExpDate := None; stockCxQty := 0%float;
     dataEnt := None; qtyBilled := 0%float; qtyOpen := 40%float;
     sectorObservations := []; sectorPredictedDates := []; priority := 0%float;
     isManual := false; sectorStopReasons := []; dataEspecial := None;
     dataPrinter := None; dataDebuxo := None; dataAmostras := None;
     dataBordados := None; isArchived := false; archivedAt := None;
     archivedBy := None |}.

(** ** The order state machine *)

Lemma getOrderState_not_completed (env : Env) (o : Order) :
  getOrderState env o <> COMPLETED ->
  (qtyOpen o =? 0)%float = false
  /\ ((qtyRequested o <=? stockCxQty o)%float
      && (0 <? qtyRequested o)%float = false).
Proof.
  unfold getOrderState. intros H.
  destruct (qtyOpen o =? 0)%float; [now elim H|].
  destruct ((qtyRequested o <=? stockCxQty o)%float && (0 <? qtyRequested o)%float);
    [now elim H|].
  split; reflexivity.
Qed.

(** C4. An order is COMPLETED as soon as [qtyOpen] is 0, or [qtyRequested] is
    positive and covered by [stockCxQty]; nothing else is read: the test
    comes first, so it also wins over every lateness condition. *)
Theorem getOrderState_completed_first (env : Env) (o : Order) :
  (qtyOpen o =? 0)%float = true
  \/ ((0 <? qtyRequested o)%float = true
      /\ (qtyRequested o <=? stockCxQty o)%float = true) ->
  getOrderState env o = COMPLETED.
Proof.
  intros [H | [Hpos Hstock]]; unfold getOrderState.
  - rewrite H. reflexivity.
  - rewrite Hpos, Hstock. rewrite orb_true_r. reflexivity.
Qed.

(** The overdue order with nothing open is COMPLETED, although the four
    sector lateness conditions hold for it (the fifth needs an open
    quantity). *)
Lemma getOrderState_completed_first_witness :
  ((qtyOpen overdueClosedOrder =? 0)%float = true
   \/ ((0 <? qtyRequested overdueClosedOrder)%float = true
       /\ (qtyRequested overdueClosedOrder <=? stockCxQty overdueClosedOrder)%float = true))
  /\ late_dataTec (today demoEnv) overdueClosedOrder = true
  /\ late_felpoCru (today demoEnv) overdueClosedOrder = true
  /\ late_tinturaria (today demoEnv) overdueClosedOrder = true
  /\ late_conf (today demoEnv) overdueClosedOrder = true
  /\ getOrderState demoEnv overdueClosedOrder = COMPLETED.
Proof.
  assert (H : (qtyOpen overdueClosedOrder =? 0)%float = true
              \/ ((0 <? qtyRequested overdueClosedOrder)%float = true
                  /\ (qtyRequested overdueClosedOrder <=? stockCxQty overdueClosedOrder)%float = true))
    by (left; reflexivity).
  split; [exact H|].
  repeat (split; [vm_compute; reflexivity|]).
  exact (getOrderState_completed_first demoEnv overdueClosedOrder H).
Defined.

(** [d && d < now] holds for a date whose time value is below that of
    [now]. *)
Lemma is_past_spec (now : Date) (d : option Date) :
  is_past now d = true <->
  exists x : Date, d = Some x /\ (getTime x <? getTime now)%float = true.
Proof.
  destruct d as [x|]; cbn [is_past]; unfold date_lt.
  - split; [intros H; now exists x | now intros (y & [= <-] & H)].
  - split; [discriminate | now intros (y & [=] & _)].
Qed.

Lemma getOrderState_late_any (env : Env) (o : Order) :
  getOrderState env o <> COMPLETED ->
  (getOrderState env o = LATE <-> late_any (today env) o = true).
Proof.
  intros Hnc.
  destruct (getOrderState_not_completed env o Hnc) as [H0 H1].
  unfold getOrderState, late_any, late_dataTec, late_felpoCru, late_tinturaria,
    late_conf, late_requested.
  rewrite H0, H1. cbn [orb].
  destruct (is_past (today env) (dataTec o) && (felpoCruQty o <? qtyRequested o)%float);
    [tauto|].
  destruct (is_past (today env) (felpoCruDate o) && (felpoCruQty o <? qtyRequested o)%float);
    [tauto|].
  destruct (is_past (today env) (tinturariaDate o)
            && (confRoupoesQty o + confFelposQty o <? qtyRequested o)%float);
    [tauto|].
  destruct (is_past (today env) (confDate o) && (embAcabQty o <? qtyRequested o)%float);
    [tauto|].
  destruct (is_past (today env) (requestedDate o) && (0 <? qtyOpen o)%float);
    [tauto|].
  cbn [orb]. split; [|discriminate].
  destruct ((0 <? felpoCruQty o)%float || (0 <? tinturariaQty o)%float
            || (0 <? confRoupoesQty o + confFelposQty o)%float
            || (0 <? embAcabQty o)%float); discriminate.
Qed.

(** The start of the day of [t] in UTC is within the range of dates. *)
Lemma midnight_in_range (t : Z) :
  (Z.abs t <= maxTime)%Z ->
  (Z.abs (t / Utc.msPerDay * Utc.msPerDay) <= maxTime)%Z.
Proof.
  unfold maxTime, Utc.msPerDay. intros Ht.
  assert (Hm := Z.div_mod t 86400000 ltac:(discriminate)).
  assert (Hr := Z.mod_pos_bound t 86400000 ltac:(reflexivity)).
  assert (Hd : (-100000000 <= t / 86400000)%Z).
  { apply Z.div_le_lower_bound; lia. }
  lia.
Qed.

(** C5. For an order that is not COMPLETED, the state is LATE exactly when
    one of the five conditions holds: a due date that is set and strictly
    before today at midnight (the current date of the host after
    [setHours(0, 0, 0, 0)]), with the quantity of the condition short. So an
    order with 100 requested, 40 open and a requested date before today at
    midnight is LATE. In a host in UTC, a date is past exactly when its
    time value is below the start of the current day: a date of today, its
    first millisecond included, is not. *)
Theorem getOrderState_late_iff (env : Env) (o : Order) :
  getOrderState env o <> COMPLETED ->
  let midnight := setHours env (currentDate env) 0 0 0 0 in
  let past (d : option Date) : Prop :=
    exists x : Date, d = Some x /\ (getTime x <? getTime midnight)%float = true in
  (getOrderState env o = LATE <->
     (past (dataTec o) /\ (felpoCruQty o <? qtyRequested o)%float = true)
     \/ (past (felpoCruDate o) /\ (felpoCruQty o <? qtyRequested o)%float = true)
     \/ (past (tinturariaDate o)
         /\ (confRoupoesQty o + confFelposQty o <? qtyRequested o)%float = true)
     \/ (past (confDate o) /\ (embAcabQty o <? qtyRequested o)%float = true)
     \/ (past (requestedDate o) /\ (0 <? qtyOpen o)%float = true))
  /\ (forall x : Date,
        qtyRequested o = 100%float -> qtyOpen o = 40%float ->
        requestedDate o = Some x ->
        (getTime x <? getTime midnight)%float = true ->
        getOrderState env o = LATE)
  /\ (forall t d : Z,
        env = Utc.env (Utc.ofMs t) ->
        (Z.abs t <= maxTime)%Z -> (Z.abs d <= maxTime)%Z ->
        (past (Some (Utc.ofMs d)) <-> (d < t / Utc.msPerDay * Utc.msPerDay)%Z)).
Proof.
  intros Hnc midnight past.
  assert (Hpast : forall d, is_past (today env) d = true <-> past d)
    by (intros d; apply is_past_spec).
  assert (Hiff : getOrderState env o = LATE <->
     (past (dataTec o) /\ (felpoCruQty o <? qtyRequested o)%float = true)
     \/ (past (felpoCruDate o) /\ (felpoCruQty o <? qtyRequested o)%float = true)
     \/ (past (tinturariaDate o)
         /\ (confRoupoesQty o + confFelposQty o <? qtyRequested o)%float = true)
     \/ (past (confDate o) /\ (embAcabQty o <? qtyRequested o)%float = true)
     \/ (past (requestedDate o) /\ (0 <? qtyOpen o)%float = true)).
  { rewrite (getOrderState_late_any env o Hnc).
    unfold late_any, late_dataTec, late_felpoCru, late_tinturaria, late_conf,
      late_requested.
    rewrite !orb_true_iff, !andb_true_iff, !Hpast. tauto. }
  split; [exact Hiff|]. split.
  - intros x Hreq Hopen Hdate Hlt. apply Hiff. do 4 right. split.
    + exists x. now split.
    + rewrite Hopen. reflexivity.
  - intros t d -> Ht Hd. unfold past, midnight.
    cbn [setHours currentDate Utc.env].
    rewrite (setHours_ofMs t 0 0 0 0 Ht).
    replace (t / Utc.msPerDay * Utc.msPerDay + ((0 * 60 + 0) * 60 + 0) * 1000 + 0)%Z
      with (t / Utc.msPerDay * Utc.msPerDay)%Z by lia.
    split.
    + intros (x & [= <-] & Hlt).
      rewrite (ofMs_ltb d _ Hd (midnight_in_range t Ht)) in Hlt.
      now apply Z.ltb_lt.
    + intros Hlt. exists (Utc.ofMs d). split; [reflexivity|].
      rewrite (ofMs_ltb d _ Hd (midnight_in_range t Ht)).
      now apply Z.ltb_lt.
Qed.

(** The order line of the scenario with another requested date. *)
Definition scenarioOrderDue (d : Date) : Order :=
  {| id := ""; docNr := ""; clientCode := ""; clientName := ""; comercial := "";
     issueDate := None; requestedDate := Some d; itemNr := 0%float;
     po := ""; articleCode := ""; reference := ""; colorCode := "";
     colorDesc := ""; size := ""; family := ""; sizeDesc := ""; ean := "";
     qtyRequested := 100%float; dataTec := None; felpoCruQty := 0%float;
     felpoCruDate := None; tinturariaQty := 0%float; tinturariaDate := None;
     confRoupoesQty := 0%float; confFelposQty := 0%float; confDate := None;
     embAcabQty := 0%float; armExpDate := None; stockCxQty := 0%float;
     dataEnt := None; qtyBilled := 0%float; qtyOpen := 40%float;
     sectorObservations := []; sectorPredictedDates := []; priority := 0%float;
     isManual := false; sectorStopReasons := []; dataEspecial := None;
     dataPrinter := None; dataDebuxo := None; dataAmostras := None;
     dataBordados := None; isArchived := false; archivedAt := None;
     archivedBy := None |}.

(** On Monday 2 November 2026 at 09:33 UTC: the order of the scenario,
    requested for the day before, is LATE; requested for the last
    millisecond of the day before it is LATE; requested for the first
    millisecond of the day, or for 05:00 of the day, it is not. *)
Lemma getOrderState_late_iff_witness :
  getOrderState demoEnv scenarioLateOrder <> COMPLETED
  /\ getOrderState demoEnv scenarioLateOrder = LATE
  /\ getOrderState demoEnv
       (scenarioOrderDue (Utc.parse "2026-11-01T23:59:59.999Z")) = LATE
  /\ getOrderState demoEnv
       (scenarioOrderDue (Utc.parse "2026-11-02T00:00:00.000Z")) <> LATE
  /\ getOrderState demoEnv
       (scenarioOrderDue (Utc.parse "2026-11-02T05:00:00.000Z")) <> LATE.
Proof.
  assert (Henv : demoEnv = Utc.env (Utc.ofMs 1793611992345)).
  { unfold demoEnv. apply (f_equal Utc.env). vm_compute. reflexivity. }
  assert (E1 : Utc.parse "2026-11-01T23:59:59.999Z" = Utc.ofMs 1793577599999)
    by (vm_compute; reflexivity).
  assert (E2 : Utc.parse "2026-11-02T00:00:00.000Z" = Utc.ofMs 1793577600000)
    by (vm_compute; reflexivity).
  assert (E3 : Utc.parse "2026-11-02T05:00:00.000Z" = Utc.ofMs 1793595600000)
    by (vm_compute; reflexivity).
  assert (Em : (1793611992345 / Utc.msPerDay * Utc.msPerDay)%Z = 1793577600000%Z)
    by (vm_compute; reflexivity).
  assert (Hnc : forall d, getOrderState demoEnv (scenarioOrderDue d) <> COMPLETED).
  { intros d Hc.
    assert (Hq : (qtyOpen (scenarioOrderDue d) =? 0)%float = true
                 \/ (qtyRequested (scenarioOrderDue d) <=? stockCxQty (scenarioOrderDue d))%float
                     && (0 <? qtyRequested (scenarioOrderDue d))%float = true).
    { unfold getOrderState in Hc.
      destruct (qtyOpen (scenarioOrderDue d) =? 0)%float; [now left|].
      destruct ((qtyRequested (scenarioOrderDue d) <=? stockCxQty (scenarioOrderDue d))%float
                && (0 <? qtyRequested (scenarioOrderDue d))%float); [now right|].
      cbn [orb] in Hc.
      repeat match type of Hc with
             | (if ?b then _ else _) = _ => destruct b; try discriminate Hc
             end. }
    destruct Hq as [Hq | Hq]; vm_compute in Hq; discriminate Hq. }
  assert (Hdue : forall d : Z,
            (Z.abs d <= maxTime)%Z ->
            getOrderState demoEnv (scenarioOrderDue (Utc.ofMs d)) = LATE
            <-> (d < 1793577600000)%Z).
  { intros d Hd.
    destruct (getOrderState_late_iff demoEnv (scenarioOrderDue (Utc.ofMs d))
                (Hnc (Utc.ofMs d))) as (Hiff & _ & Hutc).
    specialize (Hutc 1793611992345%Z d Henv ltac:(unfold maxTime; lia) Hd).
    rewrite Em in Hutc.
    rewrite Hiff, <- Hutc.
    cbn [scenarioOrderDue dataTec felpoCruDate tinturariaDate confDate
         requestedDate qtyOpen].
    split.
    - intros [[(x & [=] & _) _] | [[(x & [=] & _) _] | [[(x & [=] & _) _]
             | [[(x & [=] & _) _] | [H _]]]]]. exact H.
    - intros H. do 4 right. split; [exact H | reflexivity]. }
  assert (H : getOrderState demoEnv scenarioLateOrder <> COMPLETED)
    by (vm_compute; discriminate).
  split; [exact H|]. split.
  - refine (proj1 (proj2 (getOrderState_late_iff demoEnv scenarioLateOrder H))
              yesterday _ _ _ _); vm_compute; reflexivity.
  - rewrite E1, E2, E3.
    rewrite !Hdue by (unfold maxTime; lia). lia.
Defined.

(** ** The sector state *)

Lemma sectorSwitch_sectorKey (o : Order) (s : SectorId) :
  sectorSwitch o (sectorKey s) = sectorQuantity s o.
Proof. destruct s; reflexivity. Qed.

(** C6. For each of the six sectors, [getSectorState] reads the quantity of
    the sector and answers COMPLETED iff [qtyRequested > 0] and the quantity
    reaches it, else IN_PROGRESS iff the quantity is positive, else
    NOT_STARTED; 30 + 20 confectioned for 50 requested is COMPLETED. *)
Theorem getSectorState_spec (o : Order) (s : SectorId) :
  let qty := sectorQuantity s o in
  let done := (0 <? qtyRequested o)%float && (qtyRequested o <=? qty)%float in
  (getSectorState o (sectorKey s) = SECTOR_COMPLETED <-> done = true)
  /\ (getSectorState o (sectorKey s) = IN_PROGRESS <->
        done = false /\ (0 <? qty)%float = true)
  /\ (getSectorState o (sectorKey s) = NOT_STARTED <->
        done = false /\ (0 <? qty)%float = false)
  /\ (confRoupoesQty o = 30%float -> confFelposQty o = 20%float ->
      qtyRequested o = 50%float ->
      getSectorState o "confeccao" = SECTOR_COMPLETED).
Proof.
  cbv zeta. unfold getSectorState. rewrite sectorSwitch_sectorKey.
  repeat split.
  - destruct ((0 <? qtyRequested o)%float && (qtyRequested o <=? sectorQuantity s o)%float);
      [reflexivity|].
    destruct (0 <? sectorQuantity s o)%float; discriminate.
  - intros ->. reflexivity.
  - destruct ((0 <? qtyRequested o)%float && (qtyRequested o <=? sectorQuantity s o)%float);
      [discriminate | reflexivity].
  - destruct ((0 <? qtyRequested o)%float && (qtyRequested o <=? sectorQuantity s o)%float);
      [discriminate|].
    destruct (0 <? sectorQuantity s o)%float; [reflexivity | discriminate].
  - intros [-> ->]. reflexivity.
  - destruct ((0 <? qtyRequested o)%float && (qtyRequested o <=? sectorQuantity s o)%float);
      [discriminate | reflexivity].
  - destruct ((0 <? qtyRequested o)%float && (qtyRequested o <=? sectorQuantity s o)%float);
      [discriminate|].
    destruct (0 <? sectorQuantity s o)%float; [discriminate | reflexivity].
  - intros [-> ->]. reflexivity.
  - intros Hr Hf Hq. unfold sectorSwitch. cbn. rewrite Hr, Hf, Hq. reflexivity.
Qed.

(** ** The KPIs of an empty collection *)

(** C8. On the empty list every count is 0, both sums are 0, and the weekly
    rate is 0: the division is guarded by [deliveriesThisWeek > 0]. *)
Theorem calculateKPIs_nil (env : Env) :
  calculateKPIs env [] =
  {| totalActiveDocs := 0; totalLate := 0; deliveriesThisWeek := 0;
     fulfillmentRateWeek := 0%float; totalInProduction := 0;
     billedVsOpen := {| billed := 0%float; open := 0%float |} |}.
Proof.
  unfold calculateKPIs.
  destruct (getWeekRange env (currentDate env)) as [weekStart weekEnd].
  reflexivity.
Qed.

(** ** [parseNumber] *)

(** A parse that is not a number degrades to 0. *)
Definition degrade (num : number) : number := if is_nan num then 0%float else num.

Lemma degrade_not_nan (num : number) : is_nan (degrade num) = false.
Proof.
  unfold degrade. destruct (is_nan num) eqn:E; [reflexivity | exact E].
Qed.

(** The text of a string after [trim], read by the four rules in order. *)
Lemma parseNumber_string (env : Env) (s : string) :
  parseNumber env (VStr s) =
  let str := trim s in
  if str =? "" then 0%float
  else if has_char str "," && has_char str "."
  then degrade (parseFloat (replace_first "," "." (remove_all "." str)))
  else if has_char str ","
  then degrade (parseFloat (replace_first "," "." str))
  else if has_char str "." && (js_length (last (split "." str) "") =? 3)%nat
  then degrade (parseFloat (remove_all "." str))
  else degrade (parseFloat str).
Proof.
  unfold parseNumber, degrade. cbn [truthy js_String]. cbv zeta.
  destruct (s =? "") eqn:Es.
  - apply String.eqb_eq in Es. subst s. reflexivity.
  - cbn [negb].
    destruct (trim s =? ""); [reflexivity|].
    destruct (has_char (trim s) "," && has_char (trim s) "."); [reflexivity|].
    destruct (has_char (trim s) ","); [reflexivity|].
    destruct (has_char (trim s) ".") eqn:Edot; [|reflexivity].
    assert (Hlen : (1 <? List.length (split "." (trim s)))%nat = true).
    { clear - Edot.
      induction (trim s) as [|a r IH]; [discriminate|].
      cbn [split has_char] in *.
      destruct (Ascii.eqb a ".").
      - destruct r as [|b r']; [reflexivity|].
        cbn [split]. destruct (Ascii.eqb b "."); [reflexivity|].
        destruct (split "." r'); reflexivity.
      - cbn [orb] in Edot. specialize (IH Edot).
        destruct (split "." r) as [|p ps]; [discriminate IH | exact IH]. }
    rewrite Hlen. cbn [andb]. reflexivity.
Qed.

(** *** The policy of the specification

    The four rules of 4.1 on the text of a string, in their order; in each
    of them a parse that is not a number gives 0. "Replace the comma" is
    the first comma (what follows a second separator is not read by the
    parse), and "characters" are counted as [length] counts them. *)
Module Policy.

Definition contains (str : string) (c : ascii) : bool := has_char str c.

Definition or_zero (num : number) : number :=
  if (num =? num)%float then num else 0%float.

(** The substring after the last [c] (the whole text when there is none). *)
Fixpoint after_last (c : ascii) (str : string) : string :=
  match str with
  | String a r =>
      if has_char r c then after_last c r
      else if Ascii.eqb a c then r else str
  | EmptyString => EmptyString
  end.

Definition grouped_eu (str : string) : number :=
  or_zero (parseFloat (replace_first "," "." (remove_all "." str))).

Definition decimal_comma (str : string) : number :=
  or_zero (parseFloat (replace_first "," "." str)).

Definition thousands (str : string) : number :=
  or_zero (parseFloat (remove_all "." str)).

Definition direct (str : string) : number := or_zero (parseFloat str).

Inductive rule : Set := GroupedEU | DecimalComma | Thousands | Direct.

(** The first rule, in the order of the specification, that applies. *)
Definition rule_of (str : string) : rule :=
  if contains str "," && contains str "." then GroupedEU
  else if contains str "," then DecimalComma
  else if contains str "." && (js_length (after_last "." str) =? 3)%nat
  then Thousands
  else Direct.

Definition parse (str : string) : number :=
  match rule_of str with
  | GroupedEU => grouped_eu str
  | DecimalComma => decimal_comma str
  | Thousands => thousands str
  | Direct => direct str
  end.

End Policy.

Lemma or_zero_degrade (num : number) : Policy.or_zero num = degrade num.
Proof.
  unfold Policy.or_zero, degrade, is_nan. now destruct (num =? num)%float.
Qed.

Lemma after_last_none (c : ascii) (str : string) :
  has_char str c = false -> Policy.after_last c str = str.
Proof.
  destruct str as [|a r]; [reflexivity|]. cbn [has_char Policy.after_last].
  intros H. apply orb_false_iff in H. destruct H as [Ha Hr].
  now rewrite Hr, Ha.
Qed.

Lemma split_single (c : ascii) (str : string) :
  has_char str c = false -> split c str = [str].
Proof.
  induction str as [|a r IH]; [reflexivity|]. cbn [has_char split].
  intros H. apply orb_false_iff in H. destruct H as [Ha Hr].
  now rewrite Ha, (IH Hr).
Qed.

Lemma split_not_nil (c : ascii) (str : string) : split c str <> [].
Proof.
  destruct str as [|a r]; [discriminate|]. cbn [split].
  destruct (Ascii.eqb a c); [discriminate|].
  destruct (split c r); discriminate.
Qed.

Lemma split_several (c : ascii) (str : string) :
  has_char str c = true -> exists p q ps, split c str = p :: q :: ps.
Proof.
  induction str as [|a r IH]; [discriminate|]. cbn [has_char split].
  destruct (Ascii.eqb a c).
  - intros _. destruct (split c r) as [|q ps] eqn:E;
      [now elim (split_not_nil c r)|].
    now exists "", q, ps.
  - cbn [orb]. intros H. destruct (IH H) as (p & q & ps & E). rewrite E.
    now exists (String a p), q, ps.
Qed.

(** The last part of [str.split(c)] is the substring after the last [c]. *)
Lemma last_split (c : ascii) (str : string) :
  last (split c str) "" = Policy.after_last c str.
Proof.
  induction str as [|a r IH]; [reflexivity|].
  cbn [split Policy.after_last].
  destruct (has_char r c) eqn:Hr.
  - destruct (split_several c r Hr) as (p & q & ps & E).
    rewrite <- IH, E. now destruct (Ascii.eqb a c).
  - rewrite (split_single c r Hr).
    destruct (Ascii.eqb a c); reflexivity.
Qed.

(** The text of a string is read by the policy of the specification. *)
Lemma parseNumber_parse (env : Env) (s : string) :
  parseNumber env (VStr s) =
  if trim s =? "" then 0%float else Policy.parse (trim s).
Proof.
  rewrite parseNumber_string. cbv zeta.
  unfold Policy.parse, Policy.rule_of, Policy.grouped_eu, Policy.decimal_comma,
    Policy.thousands, Policy.direct, Policy.contains.
  rewrite last_split, !or_zero_degrade.
  destruct (trim s =? ""); [reflexivity|].
  destruct (has_char (trim s) "," && has_char (trim s) "."); [reflexivity|].
  destruct (has_char (trim s) ","); [reflexivity|].
  destruct (has_char (trim s) "."
            && (js_length (Policy.after_last "." (trim s)) =? 3)%nat);
    reflexivity.
Qed.

(** C7. [parseNumber] follows the policy of the specification: a number is
    returned as it is; [undefined], [null], [false] and the empty text give
    0; any other value is read as its text; the text, once trimmed, is read
    by the first of the four
    rules that applies (both separators; a comma only; a dot followed by
    exactly three characters at the end; a direct parse), and in every rule
    a parse that is not a number gives 0, so that no string gives [NaN].
    The five documented parses follow. *)
Theorem parseNumber_policy (env : Env) :
  parseNumber env (VStr "1.234,56") = 1234.56%float
  /\ parseNumber env (VStr "1,5") = 1.5%float
  /\ parseNumber env (VStr "1.500") = 1500%float
  /\ parseNumber env (VStr "") = 0%float
  /\ parseNumber env VUndef = 0%float
  /\ (forall n : number, parseNumber env (VNum n) = n)
  /\ parseNumber env VNull = 0%float
  /\ parseNumber env (VBool false) = 0%float
  /\ (forall s : string,
        parseNumber env (VStr s) =
        if trim s =? "" then 0%float
        else match Policy.rule_of (trim s) with
             | Policy.GroupedEU =>
                 Policy.or_zero
                   (parseFloat (replace_first "," "." (remove_all "." (trim s))))
             | Policy.DecimalComma =>
                 Policy.or_zero (parseFloat (replace_first "," "." (trim s)))
             | Policy.Thousands =>
                 Policy.or_zero (parseFloat (remove_all "." (trim s)))
             | Policy.Direct => Policy.or_zero (parseFloat (trim s))
             end)
  /\ (forall v : JsVal,
        (forall n, v <> VNum n) -> truthy v = true ->
        parseNumber env v = parseNumber env (VStr (js_String env v)))
  /\ (forall s : string, (parseNumber env (VStr s) =? parseNumber env (VStr s))%float = true)
  /\ Policy.rule_of "1.234,56" = Policy.GroupedEU
  /\ Policy.rule_of "1,5" = Policy.DecimalComma
  /\ Policy.rule_of "1.500" = Policy.Thousands
  /\ Policy.rule_of "1.50" = Policy.Direct.
Proof.
  split; [vm_compute; reflexivity|].
  split; [vm_compute; reflexivity|].
  split; [vm_compute; reflexivity|].
  split; [reflexivity|].
  split; [reflexivity|].
  split; [reflexivity|].
  split; [reflexivity|].
  split; [reflexivity|].
  split; [intros s; apply parseNumber_parse|].
  split.
  { intros v Hv Ht.
    assert (E : forall t, parseNumber env (VStr t) =
                          if t =? "" then 0%float else parseNumber env (VStr t)).
    { intros t. destruct (t =? "") eqn:Et; [|reflexivity].
      apply String.eqb_eq in Et. now subst t. }
    rewrite (E (js_String env v)).
    destruct v as [| |b|n|s|d|fs|items]; try discriminate Ht;
      try (now elim (Hv n));
      unfold parseNumber; rewrite Ht; cbn [negb truthy];
      try (cbn [truthy] in Ht; rewrite negb_true_iff in Ht; cbn [js_String];
           now rewrite Ht);
      destruct (js_String env _ =? "") eqn:Et;
      try (apply String.eqb_eq in Et; rewrite Et; reflexivity);
      cbn [negb]; reflexivity. }
  split; [|repeat split; vm_compute; reflexivity].
  intros s. rewrite parseNumber_string. cbv zeta.
  assert (H : forall num, (degrade num =? degrade num)%float = true).
  { intros num. generalize (degrade_not_nan num). unfold is_nan.
    now destruct (degrade num =? degrade num)%float. }
  repeat match goal with
         | |- context [if ?b then _ else _] => destruct b
         end;
    try reflexivity; apply H.
Qed.

(** ** Objects and key lists *)

Lemma obj_keys_set (o : JsObj) (k : string) (v : JsVal) :
  obj_keys (obj_set o k v) = add_key (obj_keys o) k.
Proof.
  unfold add_key, obj_keys.
  induction o as [|[k' v'] o IH]; [reflexivity|].
  cbn [obj_set map fst existsb].
  rewrite (String.eqb_sym k k').
  destruct (k' =? k); [reflexivity|].
  cbn [orb map fst]. rewrite IH.
  destruct (existsb (String.eqb k) (map fst o)); reflexivity.
Qed.

Lemma obj_get_set (o : JsObj) (k k' : string) (v : JsVal) :
  obj_get (obj_set o k v) k' = if k =? k' then v else obj_get o k'.
Proof.
  induction o as [|[k0 v0] o IH].
  - cbn. destruct (k =? k'); reflexivity.
  - cbn [obj_set]. destruct (k0 =? k) eqn:E0.
    + apply String.eqb_eq in E0. subst k0. cbn [obj_get].
      destruct (k =? k'); reflexivity.
    + cbn [obj_get]. rewrite IH.
      destruct (k0 =? k') eqn:E1; [|reflexivity].
      apply String.eqb_eq in E1. subst k'.
      rewrite String.eqb_sym, E0. reflexivity.
Qed.

Lemma existsb_eqb_In (k : string) (l : list string) :
  existsb (String.eqb k) l = true <-> In k l.
Proof.
  rewrite existsb_exists. split.
  - intros [x [Hin Hx]]. apply String.eqb_eq in Hx. now subst.
  - intros H. exists k. split; [exact H | apply String.eqb_refl].
Qed.

Lemma add_key_In (hdr : list string) (k x : string) :
  In x (add_key hdr k) <-> In x hdr \/ x = k.
Proof.
  unfold add_key. destruct (existsb (String.eqb k) hdr) eqn:E.
  - apply existsb_eqb_In in E. split; [tauto|]. intros [H | ->]; assumption.
  - rewrite in_app_iff. cbn. intuition.
Qed.

Lemma fold_add_key_In (l hdr : list string) (x : string) :
  In x (fold_left add_key l hdr) <-> In x hdr \/ In x l.
Proof.
  revert hdr. induction l as [|k l IH]; intros hdr; cbn [fold_left].
  - cbn. tauto.
  - rewrite IH, add_key_In. cbn. intuition.
Qed.

Lemma add_key_NoDup (hdr : list string) (k : string) :
  NoDup hdr -> NoDup (add_key hdr k).
Proof.
  intros H. unfold add_key. destruct (existsb (String.eqb k) hdr) eqn:E; [exact H|].
  apply NoDup_app; [exact H | repeat constructor; intros [] |].
  intros x Hx [<- | []].
  apply existsb_eqb_In in Hx. congruence.
Qed.

Lemma fold_add_key_NoDup (l hdr : list string) :
  NoDup hdr -> NoDup (fold_left add_key l hdr).
Proof.
  revert hdr. induction l as [|k l IH]; intros hdr H; cbn [fold_left];
    [exact H | apply IH, add_key_NoDup, H].
Qed.

(** Keys that are all present already change nothing. *)
Lemma fold_add_key_absorb (l hdr : list string) :
  (forall x, In x l -> In x hdr) -> fold_left add_key l hdr = hdr.
Proof.
  induction l as [|k l IH]; intros H; cbn [fold_left]; [reflexivity|].
  assert (Hk : add_key hdr k = hdr).
  { unfold add_key.
    destruct (existsb (String.eqb k) hdr) eqn:E; [reflexivity|].
    assert (In k hdr) as Hin by (apply H; now left).
    apply existsb_eqb_In in Hin. congruence. }
  rewrite Hk. apply IH. intros x Hx. apply H. now right.
Qed.

(** Distinct new keys are appended in their order. *)
Lemma fold_add_key_fresh (l hdr : list string) :
  NoDup l -> (forall x, In x l -> ~ In x hdr) ->
  fold_left add_key l hdr = (hdr ++ l)%list.
Proof.
  revert hdr. induction l as [|k l IH]; intros hdr Hnd Hfresh; cbn [fold_left].
  - now rewrite app_nil_r.
  - inversion Hnd as [|? ? Hk Hl]; subst.
    assert (Hadd : add_key hdr k = (hdr ++ [k])%list).
    { unfold add_key.
      destruct (existsb (String.eqb k) hdr) eqn:E; [|reflexivity].
      apply existsb_eqb_In in E. elim (Hfresh k); [now left | exact E]. }
    rewrite Hadd, IH; [now rewrite <- app_assoc | exact Hl |].
    intros x Hx. rewrite in_app_iff. intros [H | [<- | []]].
    + apply (Hfresh x); [now right | exact H].
    + exact (Hk Hx).
Qed.

Lemma distinct_keys_NoDup (l : list string) : NoDup (distinct_keys l).
Proof. apply fold_add_key_NoDup. constructor. Qed.

Lemma distinct_keys_id (l : list string) : NoDup l -> distinct_keys l = l.
Proof.
  intros H. unfold distinct_keys. rewrite fold_add_key_fresh; auto.
Qed.

(** An injective relabelling commutes with taking the distinct keys. *)
Lemma fold_add_key_map (f : string -> string) (l hdr : list string) :
  (forall x y, (In x hdr \/ In x l) -> (In y hdr \/ In y l) -> f x = f y -> x = y) ->
  fold_left add_key (map f l) (map f hdr) = map f (fold_left add_key l hdr).
Proof.
  revert hdr. induction l as [|k l IH]; intros hdr Hinj; cbn [fold_left map];
    [reflexivity|].
  assert (Hadd : add_key (map f hdr) (f k) = map f (add_key hdr k)).
  { unfold add_key.
    destruct (existsb (String.eqb k) hdr) eqn:E.
    - apply existsb_eqb_In in E.
      assert (In (f k) (map f hdr)) as H by now apply in_map.
      apply existsb_eqb_In in H. now rewrite H.
    - destruct (existsb (String.eqb (f k)) (map f hdr)) eqn:E'.
      + apply existsb_eqb_In in E'. apply in_map_iff in E' as [y [Hy Hin]].
        assert (y = k) by (apply Hinj; cbn; auto).
        subst y. apply existsb_eqb_In in Hin. congruence.
      + now rewrite map_app. }
  rewrite Hadd. apply IH.
  intros x y Hx Hy. apply Hinj; rewrite ?add_key_In in *; cbn; intuition.
Qed.

(** ** The custom export *)

(** A key is recognized when the registry has a column for it. *)
Definition recognized (k : string) : bool :=
  existsb (fun c => key c =? k) ALL_EXPORT_COLUMNS.

Definition label_of (k : string) : string :=
  match find_column k with
  | Some c => label c
  | None => ""
  end.

Lemma find_column_Some (k : string) (c : ExportColumnDef) :
  find_column k = Some c -> key c = k /\ In c ALL_EXPORT_COLUMNS.
Proof.
  intros H. apply find_some in H as [Hin Hk].
  apply String.eqb_eq in Hk. now split.
Qed.

Lemma recognized_find (k : string) :
  recognized k = true -> exists c, find_column k = Some c.
Proof.
  unfold recognized, find_column. intros H.
  destruct (find (fun c => key c =? k) ALL_EXPORT_COLUMNS) as [c|] eqn:E;
    [now exists c|].
  apply existsb_exists in H as [c [Hin Hk]].
  now rewrite (find_none _ _ E c Hin) in Hk.
Qed.

Lemma find_column_recognized (k : string) :
  recognized k = false -> find_column k = None.
Proof.
  unfold recognized, find_column. intros H.
  destruct (find (fun c => key c =? k) ALL_EXPORT_COLUMNS) as [c|] eqn:E;
    [|reflexivity].
  apply find_some in E as [Hin Hk].
  assert (existsb (fun c => key c =? k) ALL_EXPORT_COLUMNS = true) as H'
    by (apply existsb_exists; now exists c).
  congruence.
Qed.

(** No two columns of the registry share a label. *)
Lemma registry_labels_distinct (c1 c2 : ExportColumnDef) :
  In c1 ALL_EXPORT_COLUMNS -> In c2 ALL_EXPORT_COLUMNS ->
  label c1 = label c2 -> key c1 = key c2.
Proof.
  assert (H : forallb (fun c1 => forallb (fun c2 =>
                implb (label c1 =? label c2) (key c1 =? key c2))
                ALL_EXPORT_COLUMNS) ALL_EXPORT_COLUMNS = true)
    by (vm_compute; reflexivity).
  intros H1 H2 Hl.
  rewrite forallb_forall in H. specialize (H c1 H1).
  rewrite forallb_forall in H. specialize (H c2 H2).
  apply String.eqb_eq in Hl. rewrite Hl in H. now apply String.eqb_eq in H.
Qed.

Lemma label_of_inj (k1 k2 : string) :
  recognized k1 = true -> recognized k2 = true ->
  label_of k1 = label_of k2 -> k1 = k2.
Proof.
  intros H1 H2. unfold label_of.
  destruct (recognized_find k1 H1) as [c1 E1].
  destruct (recognized_find k2 H2) as [c2 E2].
  rewrite E1, E2. intros Hl.
  destruct (find_column_Some _ _ E1) as [<- I1].
  destruct (find_column_Some _ _ E2) as [<- I2].
  now apply registry_labels_distinct.
Qed.

(** The columns resolved from the selected keys: one per recognized key. *)
Lemma colDefs_recognized (keys : list string) :
  flat_map (fun k => match find_column k with
                     | Some c => [c]
                     | None => []
                     end) keys
  = flat_map (fun k => match find_column k with
                       | Some c => [c]
                       | None => []
                       end) (filter recognized keys).
Proof.
  induction keys as [|k keys IH]; [reflexivity|].
  cbn [flat_map filter]. destruct (recognized k) eqn:E.
  - cbn [flat_map]. now rewrite IH.
  - rewrite (find_column_recognized k E). exact IH.
Qed.

Section CustomRow.

Variable f : string -> JsVal.

(** The row object built by the [forEach] over the resolved columns. *)
Definition custom_row (ks : list string) : JsObj :=
  fold_left (fun row col => obj_set row (label col) (f (key col)))
    (flat_map (fun k => match find_column k with
                        | Some c => [c]
                        | None => []
                        end) ks) [].

Lemma custom_row_filter (ks : list string) :
  custom_row ks = custom_row (filter recognized ks).
Proof. unfold custom_row. now rewrite colDefs_recognized. Qed.

Lemma custom_row_snoc (ks : list string) (k : string) :
  recognized k = true ->
  custom_row (ks ++ [k]) = obj_set (custom_row ks) (label_of k) (f k).
Proof.
  intros Hk. unfold custom_row, label_of.
  destruct (recognized_find k Hk) as [c E].
  rewrite flat_map_app, fold_left_app. cbn [flat_map]. rewrite E. cbn.
  now destruct (find_column_Some _ _ E) as [-> _].
Qed.

Lemma custom_row_keys (ks : list string) :
  Forall (fun k => recognized k = true) ks ->
  obj_keys (custom_row ks) = distinct_keys (map label_of ks).
Proof.
  induction ks as [|k ks IH] using rev_ind; intros H; [reflexivity|].
  apply Forall_app in H as [Hks Hk]. inversion Hk; subst.
  rewrite custom_row_snoc by assumption.
  rewrite obj_keys_set, IH by assumption.
  unfold distinct_keys. now rewrite map_app, fold_left_app.
Qed.

Lemma custom_row_get (ks : list string) (k : string) :
  Forall (fun k => recognized k = true) ks -> In k ks ->
  obj_get (custom_row ks) (label_of k) = f k.
Proof.
  induction ks as [|k' ks IH] using rev_ind; intros H Hin; [destruct Hin|].
  apply Forall_app in H as [Hks Hk']. inversion Hk'; subst.
  rewrite custom_row_snoc, obj_get_set by assumption.
  destruct (label_of k' =? label_of k) eqn:E.
  - apply String.eqb_eq in E. apply label_of_inj in E; [now subst | assumption |].
    rewrite Forall_forall in Hks.
    apply in_app_iff in Hin as [Hin | [<- | []]]; auto.
  - apply in_app_iff in Hin as [Hin | [<- | []]]; [now apply IH|].
    now rewrite String.eqb_refl in E.
Qed.

End CustomRow.

Lemma filter_recognized_Forall (keys : list string) :
  Forall (fun k => recognized k = true) (filter recognized keys).
Proof.
  apply Forall_forall. intros k Hk. now apply filter_In in Hk.
Qed.

Lemma distinct_labels (ks : list string) :
  Forall (fun k => recognized k = true) ks ->
  distinct_keys (map label_of ks) = map label_of (distinct_keys ks).
Proof.
  intros H. unfold distinct_keys.
  change (@nil string) with (map label_of []) at 1.
  apply fold_add_key_map.
  rewrite Forall_forall in H.
  intros x y [[] | Hx] [[] | Hy]. apply label_of_inj; auto.
Qed.

(** The header of a sheet whose rows all have the same distinct keys. *)
Lemma distinct_keys_same_rows (K : list string) (rows : list JsObj) :
  rows <> [] -> NoDup K -> Forall (fun row => obj_keys row = K) rows ->
  distinct_keys (flat_map obj_keys rows) = K.
Proof.
  intros Hne Hnd Hall. destruct rows as [|r rows]; [congruence|].
  inversion Hall as [|? ? Hr Hrows]; subst.
  cbn [flat_map]. unfold distinct_keys. rewrite fold_left_app.
  fold (distinct_keys (obj_keys r)). rewrite (distinct_keys_id _ Hnd).
  apply fold_add_key_absorb.
  intros x Hx. apply in_flat_map in Hx as [row [Hrow Hx]].
  rewrite Forall_forall in Hrows. now rewrite (Hrows row Hrow) in Hx.
Qed.

Lemma exportCustomColumns_cons (env : Env) (o : Order) (os : list Order)
    (k : string) (ks : list string) :
  exportCustomColumns env (o :: os) (k :: ks) =
  Some [("Exportação",
         json_to_sheet false
           (map (fun order => custom_row (getColumnValue env order) (k :: ks))
              (o :: os)))].
Proof. reflexivity. Qed.

(** C10. Keys without a column in [ALL_EXPORT_COLUMNS] are dropped without
    an error: the sheet that is written has one column per recognized key,
    in the order in which the keys are given (a key given twice counts
    once), headed by the registry label of the key, and one row per order
    holding the resolved values. *)
Theorem exportCustomColumns_recognized (env : Env) (orders : list Order)
    (selectedColumnKeys : list string) :
  orders <> [] -> selectedColumnKeys <> [] ->
  let ks := distinct_keys (filter recognized selectedColumnKeys) in
  exportCustomColumns env orders selectedColumnKeys =
    Some [("Exportação",
           map VStr (map label_of ks)
           :: map (fun o => map (fun k => cell_of (getColumnValue env o k)) ks) orders)]
  /\ (NoDup selectedColumnKeys -> ks = filter recognized selectedColumnKeys)
  /\ (forall k, In k ks <-> In k selectedColumnKeys /\ recognized k = true).
Proof.
  intros Ho Hk ks.
  assert (Hrec := filter_recognized_Forall selectedColumnKeys).
  split; [|split].
  - destruct orders as [|o os]; [congruence|].
    destruct selectedColumnKeys as [|k0 keys0]; [congruence|].
    rewrite exportCustomColumns_cons.
    set (keys := k0 :: keys0) in *. set (ords := o :: os) in *.
    set (rows := map (fun order => custom_row (getColumnValue env order) keys) ords).
    assert (Hrows : rows = map (fun order => custom_row (getColumnValue env order)
                                  (filter recognized keys)) ords).
    { unfold rows. apply map_ext. intros order. apply custom_row_filter. }
    unfold json_to_sheet.
    assert (HK : distinct_keys (flat_map obj_keys rows) = map label_of ks).
    { apply distinct_keys_same_rows.
      - rewrite Hrows. unfold ords. discriminate.
      - unfold ks. rewrite <- distinct_labels by assumption.
        apply distinct_keys_NoDup.
      - rewrite Hrows. apply Forall_forall. intros row Hrow.
        apply in_map_iff in Hrow as [order [<- _]].
        rewrite custom_row_keys by assumption.
        now apply distinct_labels. }
    rewrite HK. do 3 f_equal.
    rewrite Hrows. f_equal. rewrite map_map. apply map_ext. intros order.
    rewrite map_map. apply map_ext_in. intros k Hin.
    rewrite custom_row_get; [reflexivity | assumption |].
    unfold ks, distinct_keys in Hin. apply fold_add_key_In in Hin as [[] | Hin].
    exact Hin.
  - intros Hnd. apply distinct_keys_id, NoDup_filter, Hnd.
  - intros k. unfold ks, distinct_keys. rewrite fold_add_key_In, filter_In.
    cbn. tauto.
Qed.

(** Three keys, one of them unknown and one repeated, over one order. *)
Lemma exportCustomColumns_recognized_witness :
  [scenarioLateOrder] <> []
  /\ ["qtyOpen"; "bogus"; "estado"; "qtyOpen"] <> []
  /\ exportCustomColumns demoEnv [scenarioLateOrder]
       ["qtyOpen"; "bogus"; "estado"; "qtyOpen"]
     = Some [("Exportação",
              [ [VStr "Qtd. Em Aberto"; VStr "Estado"];
                [VNum 40%float; VStr "LATE"] ])].
Proof.
  assert (H1 : [scenarioLateOrder] <> []) by discriminate.
  assert (H2 : ["qtyOpen"; "bogus"; "estado"; "qtyOpen"] <> []) by discriminate.
  split; [exact H1|]. split; [exact H2|].
  exact (proj1 (exportCustomColumns_recognized demoEnv [scenarioLateOrder]
                  ["qtyOpen"; "bogus"; "estado"; "qtyOpen"] H1 H2)).
Defined.

(** ** Spreadsheet import: skipped rows *)

(** The data rows that the loop does not skip. *)
Definition kept_rows (env : Env) (rows : list JsObj) : list JsObj :=
  filter (fun row => negb (skipped_row env row)) rows.

Lemma excelRows_kept (env : Env) (rows : list JsObj) :
  excelRows env rows = excelRows env (kept_rows env rows).
Proof.
  induction rows as [|row rows IH]; [reflexivity|].
  cbn [excelRows kept_rows filter].
  destruct (skipped_row env row) eqn:E; cbn [negb]; [exact IH|].
  cbn [excelRows]. rewrite E. fold (kept_rows env rows). now rewrite IH.
Qed.

(** *** Rows that are read without an error

    A JSON cell is readable when it is falsy (no cell, the empty text) or
    holds a text that [JSON.parse] accepts. For the cell of the predicted
    dates the parsed value must moreover not be a text, other than the
    empty one: the dates of a text cannot be replaced. *)
Definition readable_cell (env : Env) (v : JsVal) : Prop :=
  truthy v = false \/ exists j, JSON_parse env v = Ok j.

Definition readable_dates (env : Env) (v : JsVal) : Prop :=
  truthy v = false
  \/ exists j, JSON_parse env v = Ok j /\ (forall s, j = VStr s -> s = "").

Definition readable_row (env : Env) (row : JsObj) : Prop :=
  readable_cell env (obj_get row "AH")
  /\ readable_dates env (obj_get row "AI")
  /\ readable_cell env (obj_get row "AJ").

Lemma json_cell_readable (env : Env) (v : JsVal) :
  readable_cell env v -> exists j, json_cell env v = Ok j.
Proof.
  unfold json_cell. intros [H | [j H]].
  - rewrite H. now exists (VObj []).
  - destruct (truthy v); [now exists j | now exists (VObj [])].
Qed.

Lemma json_cell_dates_readable (env : Env) (v : JsVal) :
  readable_dates env v ->
  exists j j',
    json_cell env v = Ok j
    /\ (if truthy j then hydrate_keys env j else Ok j) = Ok j'.
Proof.
  unfold json_cell. intros [H | (j & H & Hs)].
  - rewrite H. now exists (VObj []), (VObj []).
  - destruct (truthy v); [|now exists (VObj []), (VObj [])].
    destruct j as [| |b|n|s|d|fs|items];
      try (eexists; eexists; split; [eassumption|]; cbn [truthy hydrate_keys];
           try match goal with
               | |- (if ?c then _ else _) = _ => destruct c
               end; reflexivity).
    rewrite (Hs s eq_refl) in *.
    eexists; eexists; split; [eassumption | reflexivity].
Qed.

(** A readable row gives an order, with the trimmed text of its cell B as
    document number. *)
Lemma excelOrder_readable (env : Env) (row : JsObj) :
  readable_row env row ->
  exists o,
    excelOrder env row = Ok o
    /\ obj_get o "docNr" = VStr (trim (js_String env (obj_get row "B"))).
Proof.
  intros (H1 & H2 & H3). unfold excelOrder, excelOrderFrom.
  destruct (json_cell_readable env _ H1) as [a ->].
  destruct (json_cell_dates_readable env _ H2) as (b & b' & -> & Hb).
  destruct (json_cell_readable env _ H3) as [c ->].
  cbn [bind]. rewrite Hb. cbn [bind].
  eexists. split; reflexivity.
Qed.

Lemma excelRows_all_readable (env : Env) (rows : list JsObj) :
  Forall (readable_row env) (kept_rows env rows) ->
  exists mapped,
    excelRows env rows = Ok mapped
    /\ Forall2 (fun row o =>
                  excelOrder env row = Ok o
                  /\ obj_get o "docNr" = VStr (trim (js_String env (obj_get row "B"))))
         (kept_rows env rows) mapped.
Proof.
  induction rows as [|row rows IH]; intros H.
  - exists []. split; [reflexivity | constructor].
  - cbn [excelRows kept_rows filter] in *.
    destruct (skipped_row env row) eqn:E; cbn [negb] in *.
    + exact (IH H).
    + inversion H as [|? ? Hrow Hrest]; subst.
      destruct (IH Hrest) as [mapped [Hm Hf]].
      destruct (excelOrder_readable env row Hrow) as (o & Ho & Hd).
      exists (o :: mapped). rewrite Ho, Hm. split; [reflexivity|].
      constructor; [now split | exact Hf].
Qed.


(** A sheet with a header row and five data rows: an order, a row without a
    document number, a repeated header, an order whose document number is a
    number, and an order with the three JSON cells filled (an object of
    remarks, an object of dates, and a JSON number). *)
Definition demoSheet : Sheet :=
  [ [VStr "ID Interno"; VStr "Nr. Documento"; VStr "Cliente"];
    [VStr "a-1"; VStr "ENC-2024-1000"; VStr "CLIENTE A"];
    [VStr "a-2"; VUndef; VStr "CLIENTE B"];
    [VStr "ID Interno"; VStr "Nr. Documento"; VStr "Cliente"];
    [VUndef; VNum 20240012%float; VStr "CLIENTE C"];
    map (fun c => if c =? "B" then VStr " ENC-7 "
                  else if c =? "AH"
                  then VStr (JSON_stringify demoEnv (VObj [("tinturaria", VStr "cor")]))
                  else if c =? "AI"
                  then VStr (JSON_stringify demoEnv
                               (VObj [("tecelagem", VStr "2026-11-05T00:00:00.000Z")]))
                  else if c =? "AJ" then VStr "5"
                  else VUndef)
      (map encode_col (seq 0 44)) ].



(** ** The sector mappings on import *)

(** The value stored in a column of a row of the [orders] table. *)
Definition stored (columns : list string) (row : list JsVal) (field : string) : JsVal :=
  obj_get (zip_columns columns row []) field.

(** What the embedded-database import makes of a stored mapping of texts,
    and of a stored mapping of dates. *)
Definition text_map_read (env : Env) (v : JsVal) : JsVal :=
  if truthy v then try_catch (JSON_parse env v) (VObj []) else v.

Definition date_map_read (env : Env) (v : JsVal) : JsVal :=
  if truthy v
  then try_catch (parsed <- JSON_parse env v ;; hydrate_keys env parsed) (VObj [])
  else v.

Lemma hydrate_field_other (env : Env) (obj : JsObj) (f k : string) :
  (f =? k) = false -> obj_get (hydrate_field env obj f) k = obj_get obj k.
Proof.
  intros H. unfold hydrate_field.
  destruct (truthy (obj_get obj f)); [|reflexivity].
  now rewrite obj_get_set, H.
Qed.

Lemma hydrate_fields_other (env : Env) (fields : list string) (obj : JsObj)
    (k : string) :
  forallb (fun f => negb (f =? k)) fields = true ->
  obj_get (fold_left (hydrate_field env) fields obj) k = obj_get obj k.
Proof.
  revert obj. induction fields as [|f fields IH]; intros obj H; [reflexivity|].
  cbn [forallb] in H. apply andb_true_iff in H as [Hf Hrest].
  cbn [fold_left]. rewrite IH by exact Hrest.
  apply hydrate_field_other. now destruct (f =? k).
Qed.

Lemma parse_text_map_other (env : Env) (obj : JsObj) (f k : string) :
  (f =? k) = false -> obj_get (parse_text_map env obj f) k = obj_get obj k.
Proof.
  intros H. unfold parse_text_map.
  destruct (truthy (obj_get obj f)); [|reflexivity].
  now rewrite obj_get_set, H.
Qed.

Lemma parse_date_map_other (env : Env) (obj : JsObj) (f k : string) :
  (f =? k) = false -> obj_get (parse_date_map env obj f) k = obj_get obj k.
Proof.
  intros H. unfold parse_date_map.
  destruct (truthy (obj_get obj f)); [|reflexivity].
  now rewrite obj_get_set, H.
Qed.

Lemma parse_text_map_same (env : Env) (obj : JsObj) (f : string) :
  obj_get (parse_text_map env obj f) f = text_map_read env (obj_get obj f).
Proof.
  unfold parse_text_map, text_map_read.
  destruct (truthy (obj_get obj f)); [|reflexivity].
  now rewrite obj_get_set, String.eqb_refl.
Qed.

Lemma parse_date_map_same (env : Env) (obj : JsObj) (f : string) :
  obj_get (parse_date_map env obj f) f = date_map_read env (obj_get obj f).
Proof.
  unfold parse_date_map, date_map_read.
  destruct (truthy (obj_get obj f)); [|reflexivity].
  now rewrite obj_get_set, String.eqb_refl.
Qed.

Lemma obj_get_set_other (o : JsObj) (f k : string) (v : JsVal) :
  (f =? k) = false -> obj_get (obj_set o f v) k = obj_get o k.
Proof. intros H. now rewrite obj_get_set, H. Qed.

Lemma default_set_other (o : JsObj) (f k : string) (v : JsVal) :
  (f =? k) = false ->
  obj_get (if truthy (obj_get o f) then o else obj_set o f v) k = obj_get o k.
Proof.
  intros H. destruct (truthy (obj_get o f)); [reflexivity|].
  now apply obj_get_set_other.
Qed.

(** The steps of [sqliteOrder] that follow the three mappings leave a field
    of another name as it is. *)
Lemma sqliteOrder_tail_other (env : Env) (obj : JsObj) (k : string) :
  forallb (fun f => negb (f =? k))
    ["priority"; "comercial"; "isManual"; "isArchived"; "archivedAt"] = true ->
  let obj1 := if truthy (obj_get obj "priority") then obj
              else obj_set obj "priority" (VNum 0%float) in
  let obj2 := if truthy (obj_get obj1 "comercial") then obj1
              else obj_set obj1 "comercial" (VStr "") in
  let obj3 := obj_set obj2 "isManual" (VBool (is_flag (obj_get obj2 "isManual"))) in
  let obj4 := obj_set obj3 "isArchived" (VBool (is_flag (obj_get obj3 "isArchived"))) in
  obj_get (hydrate_field env obj4 "archivedAt") k = obj_get obj k.
Proof.
  cbn [forallb]. intros H.
  repeat (apply andb_true_iff in H as [?H H]).
  repeat match goal with
         | H : negb (?a =? k) = true |- _ => apply negb_true_iff in H
         end.
  cbv zeta.
  rewrite hydrate_field_other by assumption.
  rewrite 2 obj_get_set_other by assumption.
  rewrite 2 default_set_other by assumption.
  reflexivity.
Qed.

Ltac other_field := vm_compute; reflexivity.

Lemma sqliteOrder_sectorObservations (env : Env) (cols : list string)
    (row : list JsVal) :
  obj_get (sqliteOrder env cols row) "sectorObservations"
  = text_map_read env (stored cols row "sectorObservations").
Proof.
  unfold sqliteOrder.
  rewrite sqliteOrder_tail_other by other_field.
  rewrite parse_text_map_other by other_field.
  rewrite parse_date_map_other by other_field.
  rewrite parse_text_map_same.
  rewrite hydrate_fields_other by other_field.
  reflexivity.
Qed.

Lemma sqliteOrder_sectorPredictedDates (env : Env) (cols : list string)
    (row : list JsVal) :
  obj_get (sqliteOrder env cols row) "sectorPredictedDates"
  = date_map_read env (stored cols row "sectorPredictedDates").
Proof.
  unfold sqliteOrder.
  rewrite sqliteOrder_tail_other by other_field.
  rewrite parse_text_map_other by other_field.
  rewrite parse_date_map_same.
  rewrite parse_text_map_other by other_field.
  rewrite hydrate_fields_other by other_field.
  reflexivity.
Qed.

Lemma sqliteOrder_sectorStopReasons (env : Env) (cols : list string)
    (row : list JsVal) :
  obj_get (sqliteOrder env cols row) "sectorStopReasons"
  = text_map_read env (stored cols row "sectorStopReasons").
Proof.
  unfold sqliteOrder.
  rewrite sqliteOrder_tail_other by other_field.
  rewrite parse_text_map_same.
  rewrite parse_date_map_other by other_field.
  rewrite parse_text_map_other by other_field.
  rewrite hydrate_fields_other by other_field.
  reflexivity.
Qed.

(** The embedded-database import succeeds on every file that has an
    [orders] table. *)
Lemma parseSQLiteFile_total (env : Env) (db : Database) (t : Table) :
  orders_table db = Some t ->
  exists hs,
    parseSQLiteFile env (Ok db)
    = Ok (mkImported (map (sqliteOrder env (columns t)) (values t)) hs).
Proof.
  intros H. unfold parseSQLiteFile. cbn [bind]. rewrite H.
  eexists. destruct (values t); reflexivity.
Qed.

(** The three sector mappings of an order, each with the spreadsheet column
    it is read from. *)
Definition sectorMapFields : list (string * string) :=
  [ ("sectorObservations", "AH"); ("sectorPredictedDates", "AI");
    ("sectorStopReasons", "AJ") ].

(** C2, as the code has it. Embedded database: the import of a file with an
    [orders] table never fails; a sector mapping whose stored text is not
    JSON becomes the empty mapping; a sector mapping that is absent ([NULL],
    the empty text, a missing column) is left as stored, no mapping is put
    in its place. Spreadsheet: in an order that is read, the mapping of an
    absent or empty cell is the empty mapping. *)
Theorem sector_maps_on_import (env : Env) :
  (forall (db : Database) (t : Table),
      orders_table db = Some t ->
      exists hs,
        parseSQLiteFile env (Ok db)
        = Ok (mkImported (map (sqliteOrder env (columns t)) (values t)) hs))
  /\ (forall (cols : list string) (row : list JsVal) (field column : string),
        In (field, column) sectorMapFields ->
        let v := stored cols row field in
        (truthy v = true -> (exists msg, JSON_parse env v = Err msg) ->
         obj_get (sqliteOrder env cols row) field = VObj [])
        /\ (truthy v = false -> obj_get (sqliteOrder env cols row) field = v))
  /\ (forall (row o : JsObj) (field column : string),
        In (field, column) sectorMapFields ->
        excelOrder env row = Ok o ->
        truthy (obj_get row column) = false ->
        obj_get o field = VObj []).
Proof.
  split; [exact (parseSQLiteFile_total env)|]. split.
  - intros cols row field column Hin v. subst v.
    cbn in Hin. destruct Hin as [E | [E | [E | []]]]; inversion E; subst; clear E.
    + rewrite sqliteOrder_sectorObservations. unfold text_map_read. split.
      * intros -> [msg ->]. reflexivity.
      * intros ->. reflexivity.
    + rewrite sqliteOrder_sectorPredictedDates. unfold date_map_read. split.
      * intros -> [msg ->]. reflexivity.
      * intros ->. reflexivity.
    + rewrite sqliteOrder_sectorStopReasons. unfold text_map_read. split.
      * intros -> [msg ->]. reflexivity.
      * intros ->. reflexivity.
  - intros row o field column Hin Ho Hc. unfold excelOrder, excelOrderFrom in Ho.
    destruct (json_cell env (obj_get row "AH")) as [m1|] eqn:E1; [|discriminate Ho].
    destruct (json_cell env (obj_get row "AI")) as [m2|] eqn:E2; [|discriminate Ho].
    destruct (json_cell env (obj_get row "AJ")) as [m3|] eqn:E3; [|discriminate Ho].
    cbn [bind] in Ho.
    destruct (if truthy m2 then hydrate_keys env m2 else Ok m2) as [m2'|] eqn:E4;
      [|discriminate Ho].
    cbn [bind] in Ho. inversion Ho; subst o; clear Ho.
    unfold json_cell in *.
    cbn in Hin. destruct Hin as [E | [E | [E | []]]]; inversion E; subst; clear E;
      rewrite Hc in *.
    + inversion E1; subst. reflexivity.
    + inversion E2; subst. cbn in E4. inversion E4; subst. reflexivity.
    + inversion E3; subst. reflexivity.
Qed.

(** A database whose only order has [NULL] in [sectorObservations], and a
    sheet whose only order has a text that is not JSON in column AH. *)
Definition nullMapDatabase : Database :=
  mkDatabase None
    (Some (mkTable ["id"; "docNr"; "sectorObservations"]
             [[VStr "ENC-1-1"; VStr "ENC-1"; VNull]])).

Definition malformedMapSheet : Sheet :=
  [ [VStr "ID Interno"; VStr "Nr. Documento"];
    map (fun c => if c =? "B" then VStr "ENC-9"
                  else if c =? "AH" then VStr "{"
                  else VUndef)
      (map encode_col (seq 0 44)) ].

(** C2 as stated fails on both paths: the absent mapping of the database
    row stays [null] in the imported order, and the malformed mapping of
    the spreadsheet row makes the whole import fail. *)
Lemma sector_maps_on_import_counterexample :
  match parseSQLiteFile demoEnv (Ok nullMapDatabase) with
  | Ok r => map (fun o => obj_get o "sectorObservations") (orders r) = [VNull]
  | Err _ => False
  end
  /\ parseExcelFile demoEnv (Ok [("Dados_BD", malformedMapSheet)])
     = Err "Erro ao processar ficheiro Excel.".
Proof. vm_compute. split; reflexivity. Qed.

(** ** JSON: a written mapping is read back *)

Lemma append_assoc (a b c : string) : (a ++ b) ++ c = a ++ (b ++ c).
Proof. induction a as [|x a IH]; cbn; [reflexivity | now rewrite IH]. Qed.

Lemma length_append (a b : string) : length (a ++ b) = (length a + length b)%nat.
Proof. induction a as [|x a IH]; cbn; [reflexivity | now rewrite IH]. Qed.

(** The escaped characters of a string, then the closing quote, are read
    back as the string. *)
Lemma parse_string_body_escape (s rest : string) :
  parse_string_body (escape s ++ String DQUOTE rest) = Some (s, rest).
Proof.
  induction s as [|c s IH]; [reflexivity|].
  cbn [escape]. rewrite append_assoc.
  destruct c as [b0 b1 b2 b3 b4 b5 b6 b7].
  destruct b0, b1, b2, b3, b4, b5, b6, b7; cbn; rewrite IH; reflexivity.
Qed.

Lemma parse_value_quote (fuel : nat) (s rest : string) :
  parse_value (S fuel) (quote s ++ rest) = Some (VStr s, rest).
Proof.
  unfold quote. cbn. rewrite append_assoc. cbn.
  now rewrite parse_string_body_escape.
Qed.

Lemma parse_value_null (fuel : nat) (rest : string) :
  parse_value (S fuel) ("null" ++ rest) = Some (VNull, rest).
Proof. destruct rest; reflexivity. Qed.

(** A member of a written object: its key, the text of its value, and the
    value that the text denotes. *)
Definition Member : Set := string * string * JsVal.

Definition member_text (m : Member) : string :=
  let '(k, t, _) := m in quote k ++ ":" ++ t.

Definition member_field (m : Member) : string * JsVal :=
  let '(k, _, v) := m in (k, v).

(** The text of a value is read back as the value, whatever follows. *)
Definition reads_back (m : Member) : Prop :=
  let '(_, t, v) := m in
  forall (fuel : nat) (rest : string),
    parse_value (S fuel) (t ++ rest) = Some (v, rest).

Lemma member_text_shape (k t : string) (v : JsVal) (tail : string) :
  member_text (k, t, v) ++ tail
  = String DQUOTE (escape k ++ String DQUOTE (String ":" (t ++ tail))).
Proof.
  unfold member_text, quote. cbn [append]. now rewrite !append_assoc.
Qed.

(** One member: the key, the colon, the value, then a comma or the closing
    brace. *)
Lemma parse_members_key (fuel : nat) (acc : JsObj) (k r : string) :
  parse_members (S fuel) acc (String DQUOTE (escape k ++ String DQUOTE (String ":" r)))
  = match parse_value fuel r with
    | Some (v, r3) =>
        match skip_ws r3 with
        | String "," r4 => parse_members fuel (obj_set acc k v) r4
        | String "}" r4 => Some (VObj (obj_set acc k v), r4)
        | _ => None
        end
    | None => None
    end.
Proof.
  cbn -[parse_value parse_string_body].
  rewrite parse_string_body_escape. reflexivity.
Qed.

Lemma parse_members_written (ms : list Member) :
  Forall reads_back ms -> ms <> [] ->
  forall (fuel : nat) (acc : JsObj) (rest : string),
    (List.length ms < fuel)%nat ->
    parse_members fuel acc (join "," (map member_text ms) ++ String "}" rest)
    = Some (VObj (fold_left (fun o m => obj_set o (fst (member_field m)) (snd (member_field m)))
                    ms acc), rest).
Proof.
  intros Hall. induction Hall as [|[[k t] v] ms Hm Hms IH]; [congruence|].
  intros _ fuel acc rest Hfuel. cbn [List.length] in Hfuel.
  destruct fuel as [|fuel]; [lia|].
  destruct fuel as [|fuel]; [lia|].
  destruct ms as [|m' ms'].
  - cbn [map join fold_left].
    rewrite member_text_shape, parse_members_key, (Hm fuel). reflexivity.
  - change (join "," (map member_text ((k, t, v) :: m' :: ms')))
      with (member_text (k, t, v) ++ "," ++ join "," (map member_text (m' :: ms'))).
    rewrite append_assoc, member_text_shape, parse_members_key, (Hm fuel).
    rewrite append_assoc.
    change (skip_ws ("," ++ ?x)) with (String ","%char x).
    cbn [append fold_left member_field fst snd] in *.
    rewrite IH; [reflexivity | discriminate | cbn [List.length] in *; lia].
Qed.

(** The text of an object with at least as many characters as members. *)
Lemma length_join_members (ms : list Member) :
  (List.length ms <= length (join "," (map member_text ms)))%nat.
Proof.
  induction ms as [|[[k t] v] ms IH]; [cbn; lia|].
  destruct ms as [|m' ms'].
  - cbn. lia.
  - change (join "," (map member_text ((k, t, v) :: m' :: ms')))
      with (member_text (k, t, v) ++ "," ++ join "," (map member_text (m' :: ms'))).
    rewrite !length_append. cbn [List.length length] in *. lia.
Qed.

Lemma parse_value_object (fuel : nat) (r : string) :
  (exists r', r = String DQUOTE r') ->
  parse_value (S fuel) (String "{" r) = parse_members fuel [] r.
Proof. intros [r' ->]. reflexivity. Qed.

(** An object written member by member is read back as the object built by
    assigning the members in order. *)
Lemma JSON_parse_written (ms : list Member) :
  Forall reads_back ms ->
  JSON_parse_text ("{" ++ join "," (map member_text ms) ++ "}")
  = Ok (VObj (fold_left (fun o m => obj_set o (fst (member_field m)) (snd (member_field m)))
                ms [])).
Proof.
  intros Hall. unfold JSON_parse_text.
  destruct ms as [|m ms]; [reflexivity|].
  set (body := join "," (map member_text (m :: ms))).
  assert (Hlen : (List.length (m :: ms) <= length body)%nat)
    by apply length_join_members.
  assert (Hstart : exists r, body ++ "}" = String DQUOTE r).
  { unfold body. destruct m as [[k t] v].
    destruct ms as [|m' ms'].
    - cbn [map join]. rewrite member_text_shape. eauto.
    - change (join "," (map member_text ((k, t, v) :: m' :: ms')))
        with (member_text (k, t, v) ++ "," ++ join "," (map member_text (m' :: ms'))).
      rewrite append_assoc, member_text_shape. eauto. }
  change ("{" ++ body ++ "}") with (String "{" (body ++ "}")).
  cbn [length]. rewrite length_append.
  rewrite (parse_value_object _ _ Hstart).
  unfold body. rewrite parse_members_written;
    [reflexivity | exact Hall | discriminate | fold body; lia].
Qed.

(** *** The two kinds of mapping of an order *)

Definition text_member (kv : string * string) : Member :=
  (fst kv, quote (snd kv), VStr (snd kv)).

Lemma stringify_text_map (env : Env) (m : list (string * string)) :
  JSON_stringify env (text_map_val m)
  = "{" ++ join "," (map member_text (map text_member m)) ++ "}".
Proof.
  unfold JSON_stringify, text_map_val. cbn [stringify]. do 2 f_equal. f_equal.
  induction m as [|[k v] m IH]; [reflexivity|].
  cbn [map fst snd flat_map stringify app]. now rewrite IH.
Qed.

(** Assigning members with distinct new keys appends them. *)
Lemma fold_obj_set_fresh (fields acc : JsObj) :
  NoDup (map fst fields) ->
  (forall k, In k (map fst fields) -> ~ In k (map fst acc)) ->
  fold_left (fun o kv => obj_set o (fst kv) (snd kv)) fields acc
  = (acc ++ fields)%list.
Proof.
  revert acc. induction fields as [|[k v] fields IH]; intros acc Hnd Hfresh.
  - now rewrite app_nil_r.
  - cbn [fold_left fst snd map] in *. inversion Hnd as [|? ? Hk Hrest]; subst.
    assert (Hset : obj_set acc k v = (acc ++ [(k, v)])%list).
    { assert (Hk' : ~ In k (map fst acc)) by (apply Hfresh; now left).
      clear - Hk'. induction acc as [|[k' v'] acc IHacc]; [reflexivity|].
      cbn [obj_set app]. cbn [map fst In] in Hk'.
      destruct (k' =? k) eqn:E.
      - apply String.eqb_eq in E. tauto.
      - rewrite IHacc; [reflexivity | tauto]. }
    rewrite Hset, IH; [now rewrite <- app_assoc | exact Hrest |].
    intros x Hx. rewrite map_app, in_app_iff. cbn. intros [H | [<- | []]].
    + apply (Hfresh x); [now right | exact H].
    + exact (Hk Hx).
Qed.

Lemma fold_left_map_list {A B C : Type} (f : A -> B -> A) (g : C -> B)
    (l : list C) (acc : A) :
  fold_left f (map g l) acc = fold_left (fun a x => f a (g x)) l acc.
Proof.
  revert acc. induction l as [|x l IH]; intros acc; [reflexivity|].
  cbn. apply IH.
Qed.

(** Members with distinct keys are read back as their fields, in order. *)
Lemma fold_members_fresh (ms : list Member) :
  NoDup (map (fun m => fst (member_field m)) ms) ->
  fold_left (fun o m => obj_set o (fst (member_field m)) (snd (member_field m))) ms []
  = map member_field ms.
Proof.
  intros Hnd.
  rewrite <- (fold_left_map_list (fun o kv => obj_set o (fst kv) (snd kv)) member_field).
  rewrite fold_obj_set_fresh; [reflexivity | now rewrite map_map | intros k _ []].
Qed.

(** A mapping of texts with distinct keys is read back as it was written. *)
Lemma JSON_text_map_roundtrip (env : Env) (m : list (string * string)) :
  NoDup (map fst m) ->
  JSON_parse env (VStr (JSON_stringify env (text_map_val m))) = Ok (text_map_val m).
Proof.
  intros Hnd. unfold JSON_parse. cbn [js_String].
  rewrite stringify_text_map, JSON_parse_written.
  - rewrite fold_members_fresh.
    + unfold text_map_val. do 2 f_equal. rewrite map_map.
      apply map_ext. now intros [k v].
    + rewrite map_map. cbn. exact Hnd.
  - apply Forall_forall. intros mem Hin.
    apply in_map_iff in Hin as [[k v] [<- _]].
    unfold text_member, reads_back. cbn [fst snd].
    intros fuel rest. apply parse_value_quote.
Qed.

(** A date is read back from its JSON text when it is valid and
    [new Date(d.toISOString())] is the same instant (which holds in
    JavaScript for every valid date). *)
Definition date_reads_back (env : Env) (d : Date) : Prop :=
  is_nan (getTime d) = false
  /\ Date_toISOString env d <> ""
  /\ Date_parse env (Date_toISOString env d) = d.

Definition dates_read_back (env : Env) (m : list (string * option Date)) : Prop :=
  Forall (fun kv => match snd kv with
                    | Some d => date_reads_back env d
                    | None => True
                    end) m.

(** The text written for a date of a mapping, and the value read from it. *)
Definition date_member (env : Env) (kv : string * option Date) : Member :=
  match snd kv with
  | Some d =>
      match Date_toJSON env d with
      | VStr s => (fst kv, quote s, VStr s)
      | _ => (fst kv, "null", VNull)
      end
  | None => (fst kv, "null", VNull)
  end.

Lemma date_member_key (env : Env) (kv : string * option Date) :
  fst (member_field (date_member env kv)) = fst kv.
Proof.
  unfold date_member. destruct (snd kv) as [d|]; [|reflexivity].
  destruct (Date_toJSON env d); reflexivity.
Qed.

Lemma date_member_reads_back (env : Env) (kv : string * option Date) :
  reads_back (date_member env kv).
Proof.
  unfold date_member, reads_back.
  destruct (snd kv) as [d|]; [|intros; apply parse_value_null].
  destruct (Date_toJSON env d); intros;
    apply parse_value_null || apply parse_value_quote.
Qed.

Lemma stringify_date_map (env : Env) (m : list (string * option Date)) :
  JSON_stringify env (date_map_val m)
  = "{" ++ join "," (map member_text (map (date_member env) m)) ++ "}".
Proof.
  unfold JSON_stringify, date_map_val. cbn [stringify]. do 2 f_equal. f_equal.
  induction m as [|[k d] m IH]; [reflexivity|].
  cbn [map fst snd flat_map]. rewrite IH.
  unfold date_member. cbn [fst snd].
  destruct d as [d|]; [|reflexivity].
  cbn [date_val stringify]. destruct (Date_toJSON env d); reflexivity.
Qed.

(** What [JSON.parse] makes of a written mapping of dates: texts and
    [null]s. *)
Definition date_map_parsed (env : Env) (m : list (string * option Date)) : JsVal :=
  VObj (map member_field (map (date_member env) m)).

Lemma JSON_date_map_parsed (env : Env) (m : list (string * option Date)) :
  NoDup (map fst m) ->
  JSON_parse env (VStr (JSON_stringify env (date_map_val m)))
  = Ok (date_map_parsed env m).
Proof.
  intros Hnd. unfold JSON_parse. cbn [js_String].
  rewrite stringify_date_map, JSON_parse_written
    by (apply Forall_forall; intros mem Hin;
        apply in_map_iff in Hin as [kv [<- _]]; apply date_member_reads_back).
  rewrite fold_members_fresh; [reflexivity|].
  rewrite map_map. erewrite map_ext; [exact Hnd|].
  intros kv. apply date_member_key.
Qed.

(** The conversion of the texts gives the dates back. *)
Lemma hydrate_date_map_parsed (env : Env) (m : list (string * option Date)) :
  dates_read_back env m ->
  hydrate_keys env (date_map_parsed env m) = Ok (date_map_val m).
Proof.
  intros Hdates. unfold date_map_parsed, date_map_val. cbn [hydrate_keys].
  do 2 f_equal.
  rewrite !map_map. apply map_ext_in. intros [k d] Hin.
  unfold dates_read_back in Hdates. rewrite Forall_forall in Hdates.
  specialize (Hdates _ Hin). cbn [snd fst] in *.
  unfold date_member. cbn [fst snd].
  destruct d as [d|]; [|reflexivity].
  destruct Hdates as [Hnan [Hne Hparse]].
  unfold Date_toJSON. rewrite Hnan. cbn [member_field fst snd].
  unfold hydrate_value. cbn [truthy].
  apply String.eqb_neq in Hne. rewrite Hne. cbn [negb newDate].
  now rewrite Hparse.
Qed.

(** A mapping of dates with distinct keys is read back as it was written,
    each date again a date. *)
Lemma JSON_date_map_roundtrip (env : Env) (m : list (string * option Date)) :
  NoDup (map fst m) -> dates_read_back env m ->
  (parsed <- JSON_parse env (VStr (JSON_stringify env (date_map_val m))) ;;
   hydrate_keys env parsed)
  = Ok (date_map_val m).
Proof.
  intros Hnd Hdates. rewrite JSON_date_map_parsed by exact Hnd.
  cbn [bind]. now apply hydrate_date_map_parsed.
Qed.

(** ** Numbers that a file keeps *)

(** Zero as a binary64 specification. *)
Lemma Prim2SF_zero : Prim2SF 0%float = S754_zero false.
Proof. reflexivity. Qed.

Lemma SFcompare_refl (x : spec_float) :
  x <> S754_nan -> SFcompare x x = Some Eq.
Proof.
  destruct x as [s | s | | s m e]; try congruence; intros _.
  - reflexivity.
  - destruct s; reflexivity.
  - cbn. destruct s; rewrite Z.compare_refl, Pos.compare_refl; reflexivity.
Qed.

(** A truthy number is neither [NaN] nor a zero. *)
Lemma number_truthy_not_nan (n : number) :
  number_truthy n = true -> is_nan n = false /\ (n =? 0)%float = false.
Proof.
  unfold number_truthy, is_nan.
  rewrite !ltb_spec, !eqb_spec, Prim2SF_zero. unfold SFltb, SFeqb.
  destruct (Prim2SF n) as [s | s | | s m e] eqn:E.
  - cbn. discriminate.
  - intros _. split; [|destruct s; reflexivity].
    rewrite SFcompare_refl; [reflexivity | discriminate].
  - cbn. discriminate.
  - intros _. split; [|destruct s; reflexivity].
    rewrite SFcompare_refl; [reflexivity | discriminate].
Qed.

Lemma file_number_truthy (n : number) :
  number_truthy n = true -> file_number n = n.
Proof.
  intros H. unfold file_number.
  now destruct (number_truthy_not_nan n H) as [_ ->].
Qed.

(** ** The embedded-database round trip *)

(** [if (v) v = new Date(v)]. *)
Definition hydrated (env : Env) (v : JsVal) : JsVal :=
  if truthy v then VDate (newDate env v) else v.

Lemma hydrate_field_same (env : Env) (obj : JsObj) (f : string) :
  obj_get (hydrate_field env obj f) f = hydrated env (obj_get obj f).
Proof.
  unfold hydrate_field, hydrated.
  destruct (truthy (obj_get obj f)); [|reflexivity].
  now rewrite obj_get_set, String.eqb_refl.
Qed.

Lemma hydrate_fields_same (env : Env) (fields : list string) (obj : JsObj)
    (k : string) :
  NoDup fields -> In k fields ->
  obj_get (fold_left (hydrate_field env) fields obj) k = hydrated env (obj_get obj k).
Proof.
  revert obj. induction fields as [|f fields IH]; intros obj Hnd Hin; [destruct Hin|].
  inversion Hnd as [|? ? Hf Hrest]; subst. cbn [fold_left].
  destruct Hin as [-> | Hin].
  - rewrite hydrate_fields_other; [apply hydrate_field_same|].
    apply forallb_forall. intros x Hx. apply negb_true_iff, String.eqb_neq.
    intros ->. exact (Hf Hx).
  - rewrite IH by assumption. f_equal. apply hydrate_field_other.
    apply String.eqb_neq. intros ->. exact (Hf Hin).
Qed.

Lemma NoDup_by_distinct (l : list string) : distinct_keys l = l -> NoDup l.
Proof. intros <-. apply distinct_keys_NoDup. Qed.

Lemma sqliteDateFields_NoDup : NoDup sqliteDateFields.
Proof. apply NoDup_by_distinct. vm_compute. reflexivity. Qed.

(** The fields that [sqliteOrder] rewrites, by kind. *)
Definition rewritten_after_dates : list string :=
  [ "sectorObservations"; "sectorPredictedDates"; "sectorStopReasons";
    "priority"; "comercial"; "isManual"; "isArchived"; "archivedAt" ].

Section ReadColumn.

Variables (env : Env) (cols : list string) (row : list JsVal).

Lemma sqliteOrder_maps_other (obj : JsObj) (k : string) :
  forallb (fun f => negb (f =? k))
    ["sectorObservations"; "sectorPredictedDates"; "sectorStopReasons"] = true ->
  obj_get (parse_text_map env
             (parse_date_map env (parse_text_map env obj "sectorObservations")
                "sectorPredictedDates") "sectorStopReasons") k
  = obj_get obj k.
Proof.
  cbn [forallb]. intros H.
  repeat (apply andb_true_iff in H as [?H H]).
  repeat match goal with
         | H : negb (?a =? k) = true |- _ => apply negb_true_iff in H
         end.
  rewrite parse_text_map_other, parse_date_map_other, parse_text_map_other
    by assumption.
  reflexivity.
Qed.

(** A column that the import does not touch. *)
Lemma sqliteOrder_untouched (k : string) :
  forallb (fun f => negb (f =? k)) (sqliteDateFields ++ rewritten_after_dates) = true ->
  obj_get (sqliteOrder env cols row) k = stored cols row k.
Proof.
  intros H. rewrite forallb_app in H. apply andb_true_iff in H as [Hd Hr].
  unfold rewritten_after_dates in Hr. cbn [forallb] in Hr.
  repeat (apply andb_true_iff in Hr as [?H Hr]).
  unfold sqliteOrder.
  rewrite sqliteOrder_tail_other by (cbn [forallb]; now rewrite H2, H3, H4, H5, H6).
  rewrite sqliteOrder_maps_other by (cbn [forallb]; now rewrite H, H0, H1).
  now rewrite hydrate_fields_other.
Qed.

(** A date column. *)
Lemma sqliteOrder_date (k : string) :
  In k sqliteDateFields ->
  obj_get (sqliteOrder env cols row) k = hydrated env (stored cols row k).
Proof.
  intros Hin. unfold sqliteOrder.
  assert (Hk : forallb (fun f => negb (f =? k)) rewritten_after_dates = true).
  { cbn in Hin.
    repeat (destruct Hin as [<- | Hin]; [vm_compute; reflexivity|]).
    destruct Hin. }
  unfold rewritten_after_dates in Hk. cbn [forallb] in Hk.
  repeat (apply andb_true_iff in Hk as [?H Hk]).
  rewrite sqliteOrder_tail_other by (cbn [forallb]; now rewrite H2, H3, H4, H5, H6).
  rewrite sqliteOrder_maps_other by (cbn [forallb]; now rewrite H, H0, H1).
  apply hydrate_fields_same; [apply sqliteDateFields_NoDup | exact Hin].
Qed.

Lemma sqliteOrder_archivedAt :
  obj_get (sqliteOrder env cols row) "archivedAt"
  = hydrated env (stored cols row "archivedAt").
Proof.
  unfold sqliteOrder. rewrite hydrate_field_same. f_equal.
  rewrite 2 obj_get_set_other by reflexivity.
  rewrite 2 default_set_other by reflexivity.
  rewrite sqliteOrder_maps_other by reflexivity.
  now rewrite hydrate_fields_other by reflexivity.
Qed.

Lemma sqliteOrder_isArchived :
  obj_get (sqliteOrder env cols row) "isArchived"
  = VBool (is_flag (stored cols row "isArchived")).
Proof.
  unfold sqliteOrder. rewrite hydrate_field_other by reflexivity.
  rewrite obj_get_set, String.eqb_refl. do 2 f_equal.
  rewrite obj_get_set_other by reflexivity.
  rewrite 2 default_set_other by reflexivity.
  rewrite sqliteOrder_maps_other by reflexivity.
  now rewrite hydrate_fields_other by reflexivity.
Qed.

Lemma sqliteOrder_isManual :
  obj_get (sqliteOrder env cols row) "isManual"
  = VBool (is_flag (stored cols row "isManual")).
Proof.
  unfold sqliteOrder. rewrite hydrate_field_other by reflexivity.
  rewrite obj_get_set_other by reflexivity.
  rewrite obj_get_set, String.eqb_refl. do 2 f_equal.
  rewrite 2 default_set_other by reflexivity.
  rewrite sqliteOrder_maps_other by reflexivity.
  now rewrite hydrate_fields_other by reflexivity.
Qed.

Lemma default_set_same (o : JsObj) (f : string) (v : JsVal) :
  obj_get (if truthy (obj_get o f) then o else obj_set o f v) f
  = js_or (obj_get o f) v.
Proof.
  unfold js_or. destruct (truthy (obj_get o f)); [reflexivity|].
  now rewrite obj_get_set, String.eqb_refl.
Qed.

Lemma sqliteOrder_comercial :
  obj_get (sqliteOrder env cols row) "comercial"
  = js_or (stored cols row "comercial") (VStr "").
Proof.
  unfold sqliteOrder. rewrite hydrate_field_other by reflexivity.
  rewrite 2 obj_get_set_other by reflexivity.
  rewrite default_set_same. f_equal.
  rewrite default_set_other by reflexivity.
  rewrite sqliteOrder_maps_other by reflexivity.
  now rewrite hydrate_fields_other by reflexivity.
Qed.

Lemma sqliteOrder_priority :
  obj_get (sqliteOrder env cols row) "priority"
  = js_or (stored cols row "priority") (VNum 0%float).
Proof.
  unfold sqliteOrder. rewrite hydrate_field_other by reflexivity.
  rewrite 2 obj_get_set_other by reflexivity.
  rewrite default_set_other by reflexivity.
  rewrite default_set_same. f_equal.
  rewrite sqliteOrder_maps_other by reflexivity.
  now rewrite hydrate_fields_other by reflexivity.
Qed.

End ReadColumn.

(** *** What the export stores *)

(** The value stored for a bound parameter ([NULL] where binding fails). *)
Definition sql_stored (v : JsVal) : JsVal := try_catch (sql_bind v) VNull.

Definition storedRow (env : Env) (o : Order) : list JsVal :=
  map sql_stored (sqliteRow env o).

Lemma sql_bind_all_stored (vs : list JsVal) :
  Forall (fun v => exists x, sql_bind v = Ok x) vs ->
  sql_bind_all vs = Ok (map sql_stored vs).
Proof.
  induction 1 as [|v vs [x Hx] _ IH]; [reflexivity|].
  cbn [sql_bind_all map]. unfold sql_stored at 1. rewrite Hx, IH. reflexivity.
Qed.

Lemma sqliteRow_bindable (env : Env) (o : Order) :
  Forall (fun v => exists x, sql_bind v = Ok x) (sqliteRow env o).
Proof.
  unfold sqliteRow.
  repeat match goal with
         | |- Forall _ [] => constructor
         | |- Forall _ (_ :: _) => constructor
         | |- exists x, sql_bind (time_or_null ?d) = Ok x =>
             destruct d; cbn; eauto
         | |- exists x, sql_bind (js_or ?a ?b) = Ok x =>
             unfold js_or; destruct (truthy a); cbn; eauto
         | |- exists x, sql_bind (opt_text_val ?a) = Ok x =>
             destruct a; cbn; eauto
         | |- exists x, sql_bind _ = Ok x => cbn; eauto
         end.
  all: destruct (archivedBy o); cbn; eauto.
Qed.

Lemma insert_order_fresh (env : Env) (prev : list Order) (o : Order) :
  ~ In (id o) (map id prev) ->
  insert_order (map (storedRow env) prev) (sqliteRow env o)
  = Ok (map (storedRow env) (prev ++ [o])).
Proof.
  intros Hfresh. unfold insert_order.
  rewrite (sql_bind_all_stored _ (sqliteRow_bindable env o)). cbn [bind].
  fold (storedRow env o).
  assert (Hno : existsb (fun r => sql_key_eqb (hd VNull r) (hd VNull (storedRow env o)))
                  (map (storedRow env) prev) = false).
  { induction prev as [|p prev IH]; [reflexivity|].
    cbn [map existsb]. cbn [map In] in Hfresh.
    rewrite IH by tauto.
    change (hd VNull (storedRow env p)) with (VStr (id p)).
    change (hd VNull (storedRow env o)) with (VStr (id o)).
    cbn [sql_key_eqb].
    destruct (id p =? id o) eqn:E; [|reflexivity].
    apply String.eqb_eq in E. tauto. }
  rewrite Hno. now rewrite map_app.
Qed.

Lemma insert_orders_fresh (env : Env) (os prev : list Order) :
  NoDup (map id (prev ++ os)) ->
  insert_orders env (map (storedRow env) prev) os
  = Ok (map (storedRow env) (prev ++ os)).
Proof.
  revert prev. induction os as [|o os IH]; intros prev Hnd.
  - now rewrite app_nil_r.
  - cbn [insert_orders].
    rewrite insert_order_fresh.
    + cbn [bind]. rewrite IH; rewrite <- app_assoc; [reflexivity | exact Hnd].
    + rewrite map_app in Hnd. cbn [map] in Hnd.
      apply NoDup_remove_2 in Hnd. rewrite in_app_iff in Hnd.
      intros H. apply Hnd. now left.
Qed.

Lemma insert_headers_ok (hs : list (string * string)) :
  insert_headers hs = Ok (map (fun kv => (VStr (fst kv), VStr (snd kv))) hs).
Proof.
  induction hs as [|[k v] hs IH]; [reflexivity|].
  cbn [insert_headers sql_bind bind map fst snd]. now rewrite IH.
Qed.

(** The export succeeds when no two orders share an [id], and stores one
    row per order. *)
Lemma exportOrdersToSQLite_ok (env : Env) (os : list Order)
    (hs : list (string * string)) :
  NoDup (map id os) ->
  exportOrdersToSQLite env os hs
  = Ok (mkDatabase (Some (map (fun kv => (VStr (fst kv), VStr (snd kv))) hs))
          (Some (mkTable ORDERS_COLUMNS (map (storedRow env) os)))).
Proof.
  intros Hnd. unfold exportOrdersToSQLite.
  rewrite insert_headers_ok. cbn [bind].
  change (@nil (list JsVal)) with (map (storedRow env) []).
  rewrite insert_orders_fresh by exact Hnd. reflexivity.
Qed.

(** *** What the import reads from the stored row *)

Definition order_dates (o : Order) : list (option Date) :=
  [ issueDate o; requestedDate o; dataTec o; felpoCruDate o; tinturariaDate o;
    confDate o; armExpDate o; dataEnt o; dataEspecial o; dataPrinter o;
    dataDebuxo o; dataAmostras o; dataBordados o; archivedAt o ].

Definition order_numbers (o : Order) : list number :=
  [ itemNr o; qtyRequested o; felpoCruQty o; tinturariaQty o; confRoupoesQty o;
    confFelposQty o; embAcabQty o; stockCxQty o; qtyBilled o; qtyOpen o;
    priority o ].

(** A number that a file keeps: not [NaN], and not the negative zero. *)
Definition kept_number (n : number) : Prop :=
  is_nan n = false /\ file_number n = n.

(** A date that the database keeps: its time value [t] is a number other
    than 0 (the date is valid and is not the epoch instant), and it is a
    time value ([TimeClip t = t], as for every date object). *)
Definition kept_stamp (d : option Date) : Prop :=
  match d with
  | Some d =>
      number_truthy (getTime d) = true /\ timeClip (getTime d) = getTime d
  | None => True
  end.

Record sqlite_faithful (env : Env) (o : Order) : Prop := {
  sf_dates : Forall kept_stamp (order_dates o);
  sf_numbers : Forall kept_number (order_numbers o);
  sf_archivedBy : archivedBy o <> Some "";
  sf_observations : NoDup (map fst (sectorObservations o));
  sf_stopReasons : NoDup (map fst (sectorStopReasons o));
  sf_predicted : NoDup (map fst (sectorPredictedDates o));
  sf_predicted_dates : dates_read_back env (sectorPredictedDates o)
}.

Lemma hydrated_stamp (env : Env) (d : option Date) :
  kept_stamp d -> hydrated env (sql_stored (time_or_null d)) = date_val d.
Proof.
  destruct d as [[t]|]; [|reflexivity].
  cbn [kept_stamp getTime time_or_null]. intros [Ht Hclip].
  destruct (number_truthy_not_nan t Ht) as [Hnan Hz].
  unfold sql_stored. cbn [sql_bind try_catch]. rewrite Hnan.
  rewrite (file_number_truthy t Ht).
  unfold hydrated. cbn [truthy]. rewrite Ht. cbn [newDate date_val].
  now rewrite Hclip.
Qed.

Lemma stored_number (n : number) :
  kept_number n -> sql_stored (VNum n) = VNum n.
Proof.
  intros [Hnan Hfile]. unfold sql_stored. cbn [sql_bind try_catch].
  now rewrite Hnan, Hfile.
Qed.

Lemma stored_priority (p : number) :
  kept_number p ->
  js_or (sql_stored (js_or (VNum p) (VNum 0%float))) (VNum 0%float) = VNum p.
Proof.
  intros [Hnan Hfile]. unfold js_or at 2. cbn [truthy].
  destruct (number_truthy p) eqn:Ht.
  - unfold sql_stored. cbn [sql_bind try_catch]. rewrite Hnan, Hfile.
    unfold js_or. cbn [truthy]. now rewrite Ht.
  - unfold sql_stored. cbn. unfold js_or. cbn.
    f_equal. rewrite <- Hfile. unfold file_number.
    unfold number_truthy, is_nan in *.
    rewrite ltb_spec, ltb_spec, Prim2SF_zero in Ht.
    rewrite eqb_spec in Hnan. rewrite eqb_spec, Prim2SF_zero.
    unfold SFltb, SFeqb in *.
    destruct (Prim2SF p) as [s | s | | s m e]; try discriminate.
    + reflexivity.
    + destruct s; discriminate.
    + destruct s; discriminate.
Qed.

Lemma stored_flag (b : bool) : is_flag (sql_stored (flag b)) = b.
Proof. destruct b; reflexivity. Qed.

Lemma stored_archivedBy (a : option string) :
  a <> Some "" -> sql_stored (js_or (opt_text_val a) VNull) = opt_text_val a.
Proof.
  intros H. destruct a as [s|]; [|reflexivity].
  unfold js_or. cbn [opt_text_val truthy].
  destruct (s =? "") eqn:E; [|reflexivity].
  apply String.eqb_eq in E. congruence.
Qed.

Lemma stringify_text_map_truthy (env : Env) (m : list (string * string)) :
  truthy (sql_stored (VStr (JSON_stringify env (text_map_val m)))) = true.
Proof. now rewrite stringify_text_map. Qed.

Lemma stringify_date_map_truthy (env : Env) (m : list (string * option Date)) :
  truthy (sql_stored (VStr (JSON_stringify env (date_map_val m)))) = true.
Proof. now rewrite stringify_date_map. Qed.

Lemma text_map_read_stored (env : Env) (m : list (string * string)) :
  NoDup (map fst m) ->
  text_map_read env (sql_stored (VStr (JSON_stringify env (text_map_val m))))
  = text_map_val m.
Proof.
  intros H. unfold text_map_read. rewrite stringify_text_map_truthy.
  change (sql_stored (VStr ?s)) with (VStr s).
  now rewrite JSON_text_map_roundtrip.
Qed.

Lemma date_map_read_stored (env : Env) (m : list (string * option Date)) :
  NoDup (map fst m) -> dates_read_back env m ->
  date_map_read env (sql_stored (VStr (JSON_stringify env (date_map_val m))))
  = date_map_val m.
Proof.
  intros H Hd. unfold date_map_read. rewrite stringify_date_map_truthy.
  change (sql_stored (VStr ?s)) with (VStr s).
  now rewrite (JSON_date_map_roundtrip env m H Hd).
Qed.

Lemma zip_columns_fresh (cols : list string) (row : list JsVal) (acc : JsObj) :
  NoDup cols -> List.length row = List.length cols ->
  (forall k, In k cols -> ~ In k (map fst acc)) ->
  zip_columns cols row acc = (acc ++ combine cols row)%list.
Proof.
  revert row acc. induction cols as [|c cols IH]; intros row acc Hnd Hlen Hfresh.
  - cbn. now rewrite app_nil_r.
  - destruct row as [|v row]; [discriminate|].
    inversion Hnd as [|? ? Hc Hrest]; subst.
    cbn [zip_columns hd tl combine].
    assert (Hset : obj_set acc c v = (acc ++ [(c, v)])%list).
    { rewrite <- (fold_obj_set_fresh [(c, v)] acc); [reflexivity | |].
      - repeat constructor. intros [].
      - intros k [<- | []]. apply Hfresh. now left. }
    rewrite Hset, IH.
    + now rewrite <- app_assoc.
    + exact Hrest.
    + cbn in Hlen. lia.
    + intros k Hk. rewrite map_app, in_app_iff. cbn.
      intros [H | [<- | []]]; [|exact (Hc Hk)].
      apply (Hfresh k); [now right | exact H].
Qed.

Lemma ORDERS_COLUMNS_NoDup : NoDup ORDERS_COLUMNS.
Proof. apply NoDup_by_distinct. vm_compute. reflexivity. Qed.

Lemma stored_columns (env : Env) (o : Order) (k : string) :
  stored ORDERS_COLUMNS (storedRow env o) k
  = obj_get (combine ORDERS_COLUMNS (storedRow env o)) k.
Proof.
  unfold stored. rewrite zip_columns_fresh; [reflexivity | | reflexivity |].
  - apply ORDERS_COLUMNS_NoDup.
  - intros x _ [].
Qed.

Ltac split_Forall :=
  repeat match goal with
         | H : Forall _ (_ :: _) |- _ =>
             apply Forall_cons_iff in H; destruct H as [? H]
         | H : Forall _ [] |- _ => clear H
         end.

(** The value of a column of the row stored for an order, and of a field
    of the order. *)
Ltac column_value :=
  rewrite stored_columns;
  lazy beta iota zeta
    delta [combine ORDERS_COLUMNS storedRow sqliteRow map obj_get order_to_obj
           String.eqb Ascii.eqb Bool.eqb].

(** Read after export, each of the 45 columns is the field of the order. *)
Lemma sqliteOrder_storedRow (env : Env) (o : Order) :
  sqlite_faithful env o ->
  Forall (fun k => obj_get (sqliteOrder env ORDERS_COLUMNS (storedRow env o)) k
                   = obj_get (order_to_obj o) k) ORDER_FIELDS.
Proof.
  intros [Hdates Hnums Harch Hobs Hstop Hpred Hpdates].
  unfold order_dates, order_numbers in *. split_Forall.
  unfold ORDER_FIELDS.
  repeat match goal with
         | |- Forall _ [] => constructor
         | |- Forall _ (_ :: _) => constructor
         end.
  all: first
    [ rewrite sqliteOrder_untouched by (vm_compute; reflexivity);
      column_value; first [reflexivity | apply stored_number; assumption]
    | rewrite sqliteOrder_date by (cbn; tauto);
      column_value; apply hydrated_stamp; assumption
    | rewrite sqliteOrder_archivedAt;
      column_value; apply hydrated_stamp; assumption
    | rewrite sqliteOrder_sectorObservations;
      column_value; apply text_map_read_stored; assumption
    | rewrite sqliteOrder_sectorStopReasons;
      column_value; apply text_map_read_stored; assumption
    | rewrite sqliteOrder_sectorPredictedDates;
      column_value; apply date_map_read_stored; assumption
    | rewrite sqliteOrder_priority;
      column_value; apply stored_priority; assumption
    | rewrite sqliteOrder_comercial;
      column_value; unfold js_or; cbn [sql_stored sql_bind try_catch truthy];
      destruct (comercial o =? "") eqn:E; cbn [negb];
      [apply String.eqb_eq in E; now rewrite E | reflexivity]
    | rewrite sqliteOrder_isManual;
      column_value; now rewrite stored_flag
    | rewrite sqliteOrder_isArchived;
      column_value; now rewrite stored_flag
    | idtac ].
  all: rewrite sqliteOrder_untouched by (vm_compute; reflexivity);
    column_value; apply stored_archivedBy; assumption.
Qed.

Lemma headers_read_back (env : Env) (hs : list (string * string)) :
  NoDup (map fst hs) ->
  fold_left (fun h kv => obj_set h (js_String env (fst kv)) (snd kv))
    (map (fun kv => (VStr (fst kv), VStr (snd kv))) hs) []
  = map (fun kv => (fst kv, VStr (snd kv))) hs.
Proof.
  intros Hnd. rewrite fold_left_map_list. cbn [fst snd js_String].
  rewrite <- (fold_left_map_list (fun o kv => obj_set o (fst kv) (snd kv))
                (fun kv : string * string => (fst kv, VStr (snd kv)))).
  rewrite fold_obj_set_fresh; [reflexivity | now rewrite map_map | intros k _ []].
Qed.

(** The order read back has the 45 fields of the original. *)
Definition same_order (o : Order) (obj : JsObj) : Prop :=
  Forall (fun k => obj_get obj k = obj_get (order_to_obj o) k) ORDER_FIELDS.


(** Two orders: one late, with the three mappings filled in, and the
    overdue one with nothing open. *)
Definition demoOrder : Order :=
  {| id := "ENC-2-1"; docNr := "ENC-2"; clientCode := "C200";
     clientName := "CLIENTE B"; comercial := "RUI";
     issueDate := Some (Utc.parse "2026-10-01T00:00:00.000Z");
     requestedDate := Some yesterday;
     itemNr := 1%float; po := "PO-2"; articleCode := "ART-2"; reference := "REF-2";
     colorCode := "02"; colorDesc := "VERDE"; size := "M"; family := "BANHO";
     sizeDesc := "70x140"; ean := "5601234567891";
     qtyRequested := 100%float;
     dataTec := Some (Utc.parse "2026-10-10T00:00:00.000Z");
     felpoCruQty := 100%float; felpoCruDate := None;
     tinturariaQty := 60.5%float; tinturariaDate := None;
     confRoupoesQty := 0%float; confFelposQty := 0%float; confDate := None;
     embAcabQty := 0%float; armExpDate := None; stockCxQty := 0%float;
     dataEnt := Some yesterday; qtyBilled := 60%float; qtyOpen := 40%float;
     sectorObservations := [("tecelagem", "tear 4"); ("tinturaria", "")];
     sectorPredictedDates :=
       [("tinturaria", Some (Utc.parse "2026-11-05T08:30:00.000Z"));
        ("confeccao", None)];
     priority := 1%float; isManual := true;
     sectorStopReasons := [("tinturaria", "falta de corante")];
     dataEspecial := None; dataPrinter := None; dataDebuxo := None;
     dataAmostras := None; dataBordados := None; isArchived := false;
     archivedAt := None; archivedBy := None |}.

Ltac decide_NoDup := apply NoDup_by_distinct; vm_compute; reflexivity.

Lemma demoOrder_sqlite_faithful : sqlite_faithful demoEnv demoOrder.
Proof.
  constructor; try decide_NoDup.
  - repeat constructor; vm_compute; reflexivity.
  - repeat constructor; vm_compute; reflexivity.
  - discriminate.
  - repeat constructor; vm_compute; try reflexivity. discriminate.
Qed.

Lemma overdueClosedOrder_sqlite_faithful : sqlite_faithful demoEnv overdueClosedOrder.
Proof.
  constructor; try decide_NoDup.
  - repeat constructor; vm_compute; reflexivity.
  - repeat constructor; vm_compute; reflexivity.
  - discriminate.
  - constructor.
Qed.


(** An order issued at the epoch instant and archived by nobody in
    particular (the empty text). *)
Definition epochOrder : Order :=
  {| id := "ENC-3-1"; docNr := "ENC-3"; clientCode := "C300";
     clientName := "CLIENTE C"; comercial := "";
     issueDate := Some (mkDate 0%float); requestedDate := None;
     itemNr := 1%float; po := ""; articleCode := ""; reference := "";
     colorCode := ""; colorDesc := ""; size := ""; family := "";
     sizeDesc := ""; ean := ""; qtyRequested := 10%float; dataTec := None;
     felpoCruQty := 0%float; felpoCruDate := None; tinturariaQty := 0%float;
     tinturariaDate := None; confRoupoesQty := 0%float; confFelposQty := 0%float;
     confDate := None; embAcabQty := 0%float; armExpDate := None;
     stockCxQty := 0%float; dataEnt := None; qtyBilled := 0%float;
     qtyOpen := 10%float; sectorObservations := []; sectorPredictedDates := [];
     priority := 0%float; isManual := false; sectorStopReasons := [];
     dataEspecial := None; dataPrinter := None; dataDebuxo := None;
     dataAmostras := None; dataBordados := None; isArchived := true;
     archivedAt := Some yesterday; archivedBy := Some "" |}.


(** ** The spreadsheet round trip *)

(** *** Texts that the file keeps

    A text of at most 32767 characters, without a control character and
    without an [_xHHHH_] sequence, is read from the file as it was
    written. *)
Fixpoint no_escape (s : string) : bool :=
  match s with
  | String c r =>
      (32 <=? code c)%N
      && match escape_code s with
         | Some _ => false
         | None => true
         end
      && no_escape r
  | EmptyString => true
  end.

Definition kept_text (s : string) : bool :=
  (N.of_nat (js_length s) <=? TEXT_LIMIT)%N && no_escape s.

Lemma no_escape_inv (c : ascii) (r : string) :
  no_escape (String c r) = true ->
  is_control c = false /\ escape_code (String c r) = None
  /\ no_escape r = true.
Proof.
  cbn [no_escape]. rewrite !andb_true_iff. intros [[Hc He] Hr].
  split; [|split; [|exact Hr]].
  - apply N.leb_le in Hc. unfold is_control.
    destruct (code c <=? 8)%N eqn:E1; [apply N.leb_le in E1; lia|].
    destruct (code c <=? 31)%N eqn:E2; [apply N.leb_le in E2; lia|].
    now rewrite andb_false_r.
  - now destruct (escape_code (String c r)).
Qed.

Lemma escapexml_plain (s : string) : no_escape s = true -> escapexml s = s.
Proof.
  induction s as [|c r IH]; [reflexivity|]. intros H.
  destruct (no_escape_inv c r H) as (Hc & _ & Hr).
  cbn [escapexml]. now rewrite Hc, (IH Hr).
Qed.

Lemma unescapexml_plain (s : string) : no_escape s = true -> unescapexml s = s.
Proof.
  unfold unescapexml. induction s as [|c r IH]; [reflexivity|]. intros H.
  destruct (no_escape_inv c r H) as (_ & He & Hr).
  cbn [unescape_from]. now rewrite He, (IH Hr).
Qed.

Lemma file_text_kept (s : string) : kept_text s = true -> file_text s = s.
Proof.
  unfold kept_text, file_text. rewrite andb_true_iff. intros [_ H].
  now rewrite (escapexml_plain s H), (unescapexml_plain s H).
Qed.

Lemma kept_text_fits (s : string) : kept_text s = true -> cell_fits (VStr s) = true.
Proof. unfold kept_text. rewrite andb_true_iff. now intros [H _]. Qed.

(** *** From the written sheet to the rows that are read *)

(** The 44 column letters, A to AR. *)
Definition COLS : list string := Eval cbv in obj_keys headerRow.

Lemma COLS_encode : map encode_col (seq 0 44) = COLS.
Proof. vm_compute. reflexivity. Qed.

Lemma COLS_NoDup : NoDup COLS.
Proof. apply NoDup_by_distinct. vm_compute. reflexivity. Qed.

Lemma In_COLS (k : string) : existsb (String.eqb k) COLS = true -> In k COLS.
Proof. apply existsb_eqb_In. Qed.

Definition has_value (v : JsVal) : bool :=
  match v with
  | VUndef | VNull => false
  | _ => true
  end.

Lemma row_cells_encode (g : string -> JsVal) (n c : nat) :
  row_cells c (map g (map encode_col (seq c n)))
  = filter (fun kv => has_value (snd kv))
      (map (fun k => (k, g k)) (map encode_col (seq c n))).
Proof.
  revert c. induction n as [|n IH]; intros c; [reflexivity|].
  cbn [seq map row_cells filter snd]. rewrite IH.
  destruct (g (encode_col c)); reflexivity.
Qed.

Lemma obj_get_absent (o : JsObj) (k : string) :
  ~ In k (map fst o) -> obj_get o k = VUndef.
Proof.
  induction o as [|[k' v] o IH]; intros H; [reflexivity|].
  cbn [obj_get]. cbn [map fst In] in H.
  destruct (k' =? k) eqn:E; [apply String.eqb_eq in E; tauto|].
  apply IH. tauto.
Qed.

Lemma obj_get_cells (g : string -> JsVal) (K : list string) (k : string) :
  NoDup K -> In k K ->
  obj_get (filter (fun kv => has_value (snd kv)) (map (fun k => (k, g k)) K)) k
  = cell_of (g k).
Proof.
  induction K as [|k0 K IH]; intros Hnd Hin; [destruct Hin|].
  inversion Hnd as [|? ? Hk0 HK]; subst.
  cbn [map filter snd]. destruct Hin as [-> | Hin].
  - destruct (has_value (g k)) eqn:Hv.
    + cbn [obj_get]. rewrite String.eqb_refl. now destruct (g k).
    + rewrite obj_get_absent; [now destruct (g k)|].
      intros Hin. apply in_map_iff in Hin as [[k' v] [Hk' Hin]].
      apply filter_In in Hin as [Hin _].
      apply in_map_iff in Hin as [x [Hx Hin]].
      cbn in Hk'. inversion Hx; subst. exact (Hk0 Hin).
  - assert (Hne : (k0 =? k) = false).
    { apply String.eqb_neq. intros ->. exact (Hk0 Hin). }
    destruct (has_value (g k0)); [cbn [obj_get]; rewrite Hne|]; now apply IH.
Qed.

(** The row object read from the line written for a row object. *)
Definition read_row (r : JsObj) : JsObj :=
  row_cells 0 (map file_cell (map (fun k => cell_of (obj_get r k)) COLS)).

(** The cell read in column [k] for a row object that was written. *)
Definition written_cell (r : JsObj) (k : string) : JsVal :=
  cell_of (file_cell (cell_of (obj_get r k))).

Lemma read_row_get (r : JsObj) (k : string) :
  In k COLS -> obj_get (read_row r) k = written_cell r k.
Proof.
  intros Hin. unfold read_row, written_cell.
  rewrite map_map, <- COLS_encode.
  rewrite (row_cells_encode (fun k => file_cell (cell_of (obj_get r k)))).
  rewrite COLS_encode.
  apply (obj_get_cells (fun k => file_cell (cell_of (obj_get r k))));
    [apply COLS_NoDup | exact Hin].
Qed.

Lemma read_row_headerRow : read_row headerRow = headerRow.
Proof. vm_compute. reflexivity. Qed.

Lemma excelRow_keys (env : Env) (o : Order) : obj_keys (excelRow env o) = COLS.
Proof. reflexivity. Qed.

(** A written order always has a value in column AG, so its line is read. *)
Lemma read_row_excelRow_nonempty (env : Env) (o : Order) :
  read_row (excelRow env o) <> [].
Proof.
  intros H.
  assert (Hag : obj_get (read_row (excelRow env o)) "AG"
                = written_cell (excelRow env o) "AG")
    by (apply read_row_get, In_COLS; reflexivity).
  rewrite H in Hag. unfold written_cell in Hag.
  lazy beta iota zeta delta [excelRow obj_get String.eqb Ascii.eqb Bool.eqb] in Hag.
  destruct (isManual o); discriminate Hag.
Qed.

(** The rows read from the lines written for a list of row objects. *)
Lemma sheet_to_json_A_written (rows : list JsObj) :
  sheet_to_json_A
    (map (map file_cell)
       (map (fun row => map (fun k => cell_of (obj_get row k)) COLS) rows))
  = flat_map (fun r => match read_row r with
                       | [] => []
                       | row => [row]
                       end) rows.
Proof.
  unfold sheet_to_json_A, read_row.
  rewrite !flat_map_concat_map, !map_map. reflexivity.
Qed.

(** The rows read from the file written for a list of orders. *)
Lemma exported_rows (env : Env) (os : list Order) :
  match select_sheet (map (fun s => (fst s, map (map file_cell) (snd s)))
                        (exportOrdersToExcel env os)) with
  | Some ws => sheet_to_json_A ws
  | None => []
  end
  = headerRow :: map (fun o => read_row (excelRow env o)) os.
Proof.
  unfold exportOrdersToExcel.
  change (select_sheet (map ?f [("Dados_BD", ?ws)])) with (Some (snd (f ("Dados_BD", ws)))).
  cbn [snd]. unfold json_to_sheet.
  assert (HK : distinct_keys (flat_map obj_keys (headerRow :: map (excelRow env) os))
               = COLS).
  { apply distinct_keys_same_rows; [discriminate | apply COLS_NoDup |].
    constructor; [reflexivity|].
    apply Forall_forall. intros row Hrow.
    apply in_map_iff in Hrow as [o [<- _]]. apply excelRow_keys. }
  rewrite HK, sheet_to_json_A_written.
  cbn [flat_map]. rewrite read_row_headerRow.
  replace (match headerRow with [] => [] | row => [row] end) with [headerRow]
    by reflexivity.
  cbn [app]. f_equal.
  induction os as [|o os IH]; [reflexivity|].
  cbn [map flat_map].
  destruct (read_row (excelRow env o)) eqn:E;
    [now elim (read_row_excelRow_nonempty env o)|].
  cbn [app]. now rewrite IH.
Qed.

(** *** From the row that is read to the order *)

(** A date after a trip through its display string: formatted by
    [formatDate] on export, read by [parseExcelDate] on import ([null]
    leaves no cell). *)
Definition reread (env : Env) (d : option Date) : option Date :=
  parseExcelDate env (cell_of (formatted env d)).

(** The display string written for a date (nothing for [null]). *)
Definition display (env : Env) (d : option Date) : string :=
  match d with
  | Some x => formatDate env (Some x)
  | None => ""
  end.

(** Two dates that are equal at the precision of the formatter: both are
    [null], or both have the same display string. *)
Definition same_display (env : Env) (d d' : option Date) : Prop :=
  match d, d' with
  | Some a, Some b => formatDate env (Some a) = formatDate env (Some b)
  | None, None => True
  | _, _ => False
  end.

Lemma same_display_trans (env : Env) (a b c : option Date) :
  same_display env a b -> same_display env b c -> same_display env a c.
Proof.
  destruct a, b, c; cbn; try tauto; try congruence.
Qed.

(** A date that the formatter and the reader keep: it is read from its
    display string as a date with the same display string, and no cell is
    read as [null]. *)
Definition date_kept (env : Env) (d : option Date) : Prop :=
  same_display env d (reread env d).

(** An order without its dates. *)
Definition without_dates (o : Order) : Order :=
  {| id := id o; docNr := docNr o; clientCode := clientCode o;
     clientName := clientName o; comercial := comercial o;
     issueDate := None; requestedDate := None;
     itemNr := itemNr o; po := po o; articleCode := articleCode o;
     reference := reference o; colorCode := colorCode o;
     colorDesc := colorDesc o; size := size o; family := family o;
     sizeDesc := sizeDesc o; ean := ean o; qtyRequested := qtyRequested o;
     dataTec := None; felpoCruQty := felpoCruQty o; felpoCruDate := None;
     tinturariaQty := tinturariaQty o; tinturariaDate := None;
     confRoupoesQty := confRoupoesQty o; confFelposQty := confFelposQty o;
     confDate := None; embAcabQty := embAcabQty o; armExpDate := None;
     stockCxQty := stockCxQty o; dataEnt := None;
     qtyBilled := qtyBilled o; qtyOpen := qtyOpen o;
     sectorObservations := sectorObservations o;
     sectorPredictedDates := sectorPredictedDates o;
     priority := priority o; isManual := isManual o;
     sectorStopReasons := sectorStopReasons o;
     dataEspecial := None; dataPrinter := None; dataDebuxo := None;
     dataAmostras := None; dataBordados := None;
     isArchived := isArchived o; archivedAt := None;
     archivedBy := archivedBy o |}.

(** The imported object [obj] is the order [o] up to the precision of the
    formatter: it holds the 45 fields of an order that has every field of
    [o] other than the dates, and dates with the display strings of those
    of [o]. *)
Definition equal_upto_dates (env : Env) (o : Order) (obj : JsObj) : Prop :=
  exists o' : Order,
    same_order o' obj
    /\ without_dates o' = without_dates o
    /\ Forall2 (same_display env) (order_dates o) (order_dates o').

(** The order that is read back: every date taken through its display
    string, and [dataEnt] read from the column of [requestedDate]. *)
Definition excel_image (env : Env) (o : Order) : Order :=
  {| id := id o; docNr := docNr o; clientCode := clientCode o;
     clientName := clientName o; comercial := comercial o;
     issueDate := reread env (issueDate o);
     requestedDate := reread env (requestedDate o);
     itemNr := itemNr o; po := po o; articleCode := articleCode o;
     reference := reference o; colorCode := colorCode o;
     colorDesc := colorDesc o; size := size o; family := family o;
     sizeDesc := sizeDesc o; ean := ean o; qtyRequested := qtyRequested o;
     dataTec := reread env (dataTec o); felpoCruQty := felpoCruQty o;
     felpoCruDate := reread env (felpoCruDate o);
     tinturariaQty := tinturariaQty o;
     tinturariaDate := reread env (tinturariaDate o);
     confRoupoesQty := confRoupoesQty o; confFelposQty := confFelposQty o;
     confDate := reread env (confDate o); embAcabQty := embAcabQty o;
     armExpDate := reread env (armExpDate o); stockCxQty := stockCxQty o;
     dataEnt := reread env (requestedDate o);
     qtyBilled := qtyBilled o; qtyOpen := qtyOpen o;
     sectorObservations := sectorObservations o;
     sectorPredictedDates := sectorPredictedDates o;
     priority := priority o; isManual := isManual o;
     sectorStopReasons := sectorStopReasons o;
     dataEspecial := reread env (dataEspecial o);
     dataPrinter := reread env (dataPrinter o);
     dataDebuxo := reread env (dataDebuxo o);
     dataAmostras := reread env (dataAmostras o);
     dataBordados := reread env (dataBordados o);
     isArchived := isArchived o;
     archivedAt := reread env (archivedAt o);
     archivedBy := archivedBy o |}.

(** The texts of an order that the import trims. *)
Definition order_texts (o : Order) : list string :=
  [ docNr o; clientCode o; clientName o; comercial o; po o; articleCode o;
    reference o; colorCode o; colorDesc o; size o; family o; sizeDesc o; ean o ].

(** The quantities of an order, and its item number. *)
Definition order_quantities (o : Order) : list number :=
  [ itemNr o; qtyRequested o; felpoCruQty o; tinturariaQty o; confRoupoesQty o;
    confFelposQty o; embAcabQty o; stockCxQty o; qtyBilled o; qtyOpen o ].

(** The texts written in the cells of the line of an order: its text
    fields, the JSON texts of its three mappings, and the display strings
    of its dates. *)
Definition written_texts (env : Env) (o : Order) : list string :=
  [ id o; docNr o; clientName o; po o; articleCode o; reference o;
    colorCode o; colorDesc o; size o; family o; sizeDesc o; ean o;
    comercial o; clientCode o;
    match archivedBy o with
    | Some s => s
    | None => ""
    end;
    JSON_stringify env (text_map_val (sectorObservations o));
    JSON_stringify env (date_map_val (sectorPredictedDates o));
    JSON_stringify env (text_map_val (sectorStopReasons o));
    display env (issueDate o); display env (requestedDate o);
    display env (dataTec o); display env (felpoCruDate o);
    display env (tinturariaDate o); display env (confDate o);
    display env (armExpDate o); display env (dataEspecial o);
    display env (dataPrinter o); display env (dataDebuxo o);
    display env (dataAmostras o); display env (dataBordados o);
    display env (archivedAt o) ].

(** An order that the spreadsheet round trip keeps. The sheet has no column
    for [dataEnt], which the import reads from column E as it does
    [requestedDate]: the two must have the same display string. *)
Record excel_faithful (env : Env) (o : Order) : Prop := {
  ef_dataEnt : same_display env (dataEnt o) (requestedDate o);
  ef_dates : Forall (date_kept env) (order_dates o);
  ef_id : id o <> "";
  ef_docNr : docNr o <> "";
  ef_not_header : includes (toLowerCase (docNr o)) "doc" = false;
  ef_trimmed : Forall (fun s => trim s = s) (order_texts o);
  ef_written : Forall (fun s => kept_text s = true) (written_texts env o);
  ef_clientCode : clientCode o <> "" \/ clientName o = "";
  ef_comercial : comercial o <> "" \/ size o = "";
  ef_quantities : Forall kept_number (order_quantities o);
  ef_priority : In (priority o) [0%float; 1%float; 2%float; 3%float];
  ef_archivedBy : archivedBy o <> Some "";
  ef_observations : NoDup (map fst (sectorObservations o));
  ef_stopReasons : NoDup (map fst (sectorStopReasons o));
  ef_predicted : NoDup (map fst (sectorPredictedDates o));
  ef_predicted_dates : dates_read_back env (sectorPredictedDates o)
}.

Lemma excelOrderFrom_ext (env : Env) (cell1 cell2 : string -> JsVal) (raw : JsVal) :
  (forall c, existsb (String.eqb c) COLS = true -> cell1 c = cell2 c) ->
  excelOrderFrom env cell1 raw = excelOrderFrom env cell2 raw.
Proof.
  intros H. unfold excelOrderFrom.
  repeat match goal with
         | |- context [cell1 ?c] => rewrite (H c) by reflexivity
         end.
  reflexivity.
Qed.

Section WrittenCells.

Variable env : Env.

Lemma written_text (s : string) :
  kept_text s = true -> cell_of (file_cell (cell_of (VStr s))) = VStr s.
Proof. intros H. cbn [cell_of file_cell]. now rewrite (file_text_kept s H). Qed.

Lemma written_number (n : number) :
  kept_number n -> cell_of (file_cell (cell_of (VNum n))) = VNum n.
Proof. intros [_ H]. cbn. now rewrite H. Qed.

Lemma written_date (d : option Date) :
  kept_text (display env d) = true ->
  date_val (parseExcelDate env (cell_of (file_cell (cell_of (formatted env d)))))
  = date_val (reread env d).
Proof.
  unfold reread. destruct d as [x|]; [|reflexivity].
  cbn [display formatted cell_of file_cell]. intros H.
  now rewrite (file_text_kept _ H).
Qed.

Lemma written_flag (b : bool) :
  is_flag (cell_of (file_cell (cell_of (flag b)))) = b.
Proof. destruct b; reflexivity. Qed.

Lemma read_text (s : string) :
  trim s = s -> text_of env (js_or (VStr s) (VStr "")) = s.
Proof.
  intros H. unfold text_of, js_or. cbn [truthy].
  destruct (s =? "") eqn:E; cbn [negb js_String]; [|exact H].
  apply String.eqb_eq in E. now subst.
Qed.

Lemma read_text_fallback (s other : string) :
  trim s = s -> trim other = other -> s <> "" \/ other = "" ->
  text_of env (js_or (js_or (VStr s) (VStr other)) (VStr "")) = s.
Proof.
  intros Hs Ho Hor. unfold js_or at 2. cbn [truthy].
  destruct (s =? "") eqn:E; cbn [negb].
  - apply String.eqb_eq in E. subst s.
    destruct Hor as [Hor | ->]; [congruence|]. reflexivity.
  - now apply read_text.
Qed.

Lemma read_id (s fallback : string) :
  s <> "" -> js_or (VStr s) (VStr fallback) = VStr s.
Proof.
  intros H. unfold js_or. cbn [truthy].
  apply String.eqb_neq in H. now rewrite H.
Qed.

Lemma read_priority (p : number) :
  In p [0%float; 1%float; 2%float; 3%float] ->
  (if truthy (cell_of (file_cell (cell_of (VNum p))))
   then parseInt env (cell_of (file_cell (cell_of (VNum p))))
   else 0%float) = p.
Proof.
  intros [<- | [<- | [<- | [<- | []]]]]; vm_compute; reflexivity.
Qed.

Lemma read_archivedBy (a : option string) :
  a <> Some "" ->
  kept_text match a with
            | Some s => s
            | None => ""
            end = true ->
  js_or (cell_of (file_cell (cell_of (opt_text_val a)))) VNull = opt_text_val a.
Proof.
  intros H Hk. destruct a as [s|]; [|reflexivity].
  unfold js_or. cbn [opt_text_val cell_of file_cell truthy].
  rewrite (file_text_kept s Hk).
  destruct (s =? "") eqn:E; [|reflexivity].
  apply String.eqb_eq in E. congruence.
Qed.

Lemma read_text_map (m : list (string * string)) :
  NoDup (map fst m) ->
  kept_text (JSON_stringify env (text_map_val m)) = true ->
  json_cell env (cell_of (file_cell (cell_of (VStr (JSON_stringify env (text_map_val m))))))
  = Ok (text_map_val m).
Proof.
  intros H Hk. rewrite (written_text _ Hk). unfold json_cell.
  rewrite JSON_text_map_roundtrip by exact H.
  now rewrite stringify_text_map.
Qed.

Lemma read_date_map (m : list (string * option Date)) :
  NoDup (map fst m) ->
  kept_text (JSON_stringify env (date_map_val m)) = true ->
  json_cell env (cell_of (file_cell (cell_of (VStr (JSON_stringify env (date_map_val m))))))
  = Ok (date_map_parsed env m).
Proof.
  intros H Hk. rewrite (written_text _ Hk). unfold json_cell.
  rewrite JSON_date_map_parsed by exact H.
  now rewrite stringify_date_map.
Qed.

End WrittenCells.

Ltac written_cells :=
  lazy beta iota zeta
    delta [written_cell excelRow obj_get String.eqb Ascii.eqb Bool.eqb].

Ltac order_fields :=
  lazy beta iota zeta delta [obj_get String.eqb Ascii.eqb Bool.eqb order_to_obj];
  cbn [excel_image
       id docNr clientCode clientName comercial issueDate requestedDate
       itemNr po articleCode reference colorCode colorDesc size family
       sizeDesc ean qtyRequested dataTec felpoCruQty felpoCruDate
       tinturariaQty tinturariaDate confRoupoesQty confFelposQty confDate
       embAcabQty armExpDate stockCxQty dataEnt qtyBilled qtyOpen
       sectorObservations sectorPredictedDates priority isManual
       sectorStopReasons dataEspecial dataPrinter dataDebuxo dataAmostras
       dataBordados isArchived archivedAt archivedBy].

(** The order read from the cells written for an order that the round trip
    keeps. *)
Lemma excelOrderFrom_written (env : Env) (o : Order) (raw : JsVal) :
  excel_faithful env o ->
  exists obj,
    excelOrderFrom env (written_cell (excelRow env o)) raw = Ok obj
    /\ same_order (excel_image env o) obj.
Proof.
  intros [Hent Hdates Hid Hdoc Hhdr Htrim Hwr Hcc Hcom Hqty Hprio Harch Hobs
          Hstop Hpred Hpdates].
  unfold order_texts, order_quantities, written_texts in *. split_Forall.
  unfold excelOrderFrom. written_cells.
  rewrite !read_text_map by assumption.
  rewrite read_date_map by assumption.
  cbn [bind]. change (truthy (date_map_parsed env ?m)) with true. cbv iota.
  rewrite hydrate_date_map_parsed by assumption.
  cbn [bind]. eexists. split; [reflexivity|].
  unfold same_order, ORDER_FIELDS.
  repeat match goal with
         | |- Forall _ [] => constructor
         | |- Forall _ (_ :: _) => constructor
         end.
  all: order_fields.
  all: try reflexivity.
  all: try (rewrite written_date by assumption; reflexivity).
  all: try (rewrite written_flag; reflexivity).
  all: try (rewrite read_priority by assumption; reflexivity).
  all: try (rewrite read_archivedBy by assumption; reflexivity).
  all: rewrite ?written_text by assumption.
  all: cbn [cell_of file_cell parseNumber].
  all: try (apply read_id; assumption).
  all: try (f_equal; apply read_text_fallback; assumption).
  all: try (f_equal; apply read_text; assumption).
  all: try (unfold text_of; cbn [js_String]; f_equal; assumption).
  all: try match goal with
           | H : kept_number ?n |- VNum (file_number ?n) = VNum ?n =>
               destruct H as [_ H]; now rewrite H
           end.
Qed.

(** The order that is read back is the original at the precision of the
    formatter. *)
Lemma excel_image_upto_dates (env : Env) (o : Order) :
  excel_faithful env o ->
  without_dates (excel_image env o) = without_dates o
  /\ Forall2 (same_display env) (order_dates o) (order_dates (excel_image env o)).
Proof.
  intros H. split; [reflexivity|].
  assert (Hent := ef_dataEnt env o H). assert (Hd := ef_dates env o H).
  unfold order_dates in *. split_Forall.
  cbn [excel_image issueDate requestedDate dataTec felpoCruDate tinturariaDate
       confDate armExpDate dataEnt dataEspecial dataPrinter dataDebuxo
       dataAmostras dataBordados archivedAt].
  repeat match goal with
         | |- Forall2 _ [] [] => constructor
         | |- Forall2 _ (_ :: _) (_ :: _) => constructor
         end;
    try assumption.
  eapply same_display_trans; [exact Hent | assumption].
Qed.

Lemma written_row_kept (env : Env) (o : Order) :
  excel_faithful env o ->
  skipped_row env (read_row (excelRow env o)) = false.
Proof.
  intros H. unfold skipped_row.
  rewrite read_row_get by (apply In_COLS; reflexivity).
  written_cells.
  assert (Hk : kept_text (docNr o) = true).
  { assert (Hw := ef_written env o H). unfold written_texts in Hw.
    split_Forall. assumption. }
  rewrite (written_text (docNr o) Hk). cbn [truthy js_String].
  rewrite (ef_not_header env o H).
  destruct (docNr o =? "") eqn:E; [|reflexivity].
  apply String.eqb_eq in E. now elim (ef_docNr env o H).
Qed.

Lemma excelOrder_written (env : Env) (o : Order) :
  excel_faithful env o ->
  exists obj,
    excelOrder env (read_row (excelRow env o)) = Ok obj
    /\ equal_upto_dates env o obj.
Proof.
  intros H. unfold excelOrder.
  rewrite (excelOrderFrom_ext env (obj_get (read_row (excelRow env o)))
             (written_cell (excelRow env o)))
    by (intros c Hc; apply read_row_get, In_COLS, Hc).
  destruct (excelOrderFrom_written env o (VObj (read_row (excelRow env o))) H)
    as (obj & Hobj & Hsame).
  exists obj. split; [exact Hobj|].
  exists (excel_image env o). split; [exact Hsame|].
  now apply excel_image_upto_dates.
Qed.

Lemma excelRows_written (env : Env) (os : list Order) :
  Forall (excel_faithful env) os ->
  exists mapped,
    excelRows env (map (fun o => read_row (excelRow env o)) os) = Ok mapped
    /\ Forall2 (equal_upto_dates env) os mapped.
Proof.
  induction 1 as [|o os Ho _ [mapped [Hm Hf]]].
  - exists []. split; [reflexivity | constructor].
  - destruct (excelOrder_written env o Ho) as [obj [Hobj Hsame]].
    exists (obj :: mapped). cbn [map excelRows].
    rewrite (written_row_kept env o Ho), Hobj, Hm.
    split; [reflexivity | now constructor].
Qed.

(** *** The writer accepts the sheet *)

Lemma formatted_fits (env : Env) (d : option Date) :
  kept_text (display env d) = true -> cell_fits (cell_of (formatted env d)) = true.
Proof. destruct d; [apply kept_text_fits | reflexivity]. Qed.

Lemma excelRow_fits (env : Env) (o : Order) :
  Forall (fun s => kept_text s = true) (written_texts env o) ->
  forallb cell_fits (map (fun k => cell_of (obj_get (excelRow env o) k)) COLS) = true.
Proof.
  intros H. unfold written_texts in H. split_Forall.
  unfold COLS. cbn [map].
  lazy beta iota zeta delta [excelRow obj_get String.eqb Ascii.eqb Bool.eqb].
  cbn [forallb].
  repeat match goal with
         | |- context [cell_fits (cell_of (formatted env ?d))] =>
             rewrite (formatted_fits env d) by assumption
         | |- context [cell_of (VStr ?s)] =>
             change (cell_of (VStr s)) with (VStr s)
         | |- context [cell_fits (VStr ?s)] =>
             rewrite (kept_text_fits s) by assumption
         end.
  destruct (archivedBy o) as [s|]; cbn [opt_text_val cell_of].
  - rewrite (kept_text_fits s) by assumption. destruct (isManual o), (isArchived o); reflexivity.
  - destruct (isManual o), (isArchived o); reflexivity.
Qed.

Lemma exported_fits (env : Env) (os : list Order) :
  Forall (fun o => Forall (fun s => kept_text s = true) (written_texts env o)) os ->
  forallb (fun s => sheet_fits (snd s)) (exportOrdersToExcel env os) = true.
Proof.
  intros Hall. unfold exportOrdersToExcel. cbn [forallb snd]. rewrite andb_true_r.
  unfold json_to_sheet.
  assert (HK : distinct_keys (flat_map obj_keys (headerRow :: map (excelRow env) os))
               = COLS).
  { apply distinct_keys_same_rows; [discriminate | apply COLS_NoDup |].
    constructor; [reflexivity|].
    apply Forall_forall. intros row Hrow.
    apply in_map_iff in Hrow as [o [<- _]]. apply excelRow_keys. }
  rewrite HK. clear HK. unfold sheet_fits. cbn [map forallb].
  apply andb_true_iff. split; [vm_compute; reflexivity|].
  induction Hall as [|o os Ho _ IH]; [reflexivity|].
  cbn [map forallb]. rewrite IH, andb_true_r.
  apply excelRow_fits. exact Ho.
Qed.

(** C1, as the code has it. Orders that the spreadsheet keeps are read back,
    in order, equal to the originals on the 45 fields at the precision of
    the formatter: every field other than a date is the original one, and
    every date has the display string of the original one. The headers are
    the label row. The spreadsheet keeps an order when: its texts, the JSON
    texts of its mappings and the display strings of its dates have at most
    32767 characters, no control character and no [_xHHHH_] sequence; each
    date is read from its display string as a date with the same display
    string; [dataEnt] and [requestedDate] have the same display string; the
    [id] is not empty; the document number is not empty and has no "doc" in
    any letter case; the texts have no white space at either end; the client
    code and the salesperson are not empty unless the client name,
    respectively the size, is empty too; the numbers are neither [NaN] nor
    the negative zero; the priority is among 0, 1, 2, 3; [archivedBy] is not
    the empty text; the mappings have distinct keys and valid predicted
    dates. *)
Theorem excel_roundtrip (env : Env) (os : list Order) :
  Forall (excel_faithful env) os ->
  exists imported : Imported,
    parseExcelFile env (xlsx_file (exportOrdersToExcel env os)) = Ok imported
    /\ Forall2 (equal_upto_dates env) os (orders imported)
    /\ headers imported = headerRow.
Proof.
  intros Hall.
  destruct (excelRows_written env os Hall) as [mapped [Hm Hf]].
  exists (mkImported mapped headerRow). split; [|split; [exact Hf | reflexivity]].
  unfold parseExcelFile, xlsx_file.
  rewrite (exported_fits env os)
    by (eapply Forall_impl; [|exact Hall]; intros o Ho; exact (ef_written env o Ho)).
  cbn [bind]. rewrite exported_rows, Hm. reflexivity.
Qed.

(** An order with times of day in its dates, a [dataEnt] later in the day
    than its [requestedDate], and letters outside ASCII. *)
Definition timedOrder : Order :=
  {| id := "ENC-3-1"; docNr := "ENC-3"; clientCode := "C300";
     clientName := "CONFECÇÕES AÇOR"; comercial := "JOÃO";
     issueDate := Some (Utc.parse "2026-10-01T14:45:10.250Z");
     requestedDate := Some (Utc.parse "2026-11-01T07:00:00.000Z");
     itemNr := 2%float; po := "PO-3"; articleCode := "ART-3"; reference := "REF-3";
     colorCode := "03"; colorDesc := "CARMESIM"; size := "S"; family := "ROUPÃO";
     sizeDesc := "50x100"; ean := "5601234567892";
     qtyRequested := 250%float; dataTec := None;
     felpoCruQty := 12.5%float; felpoCruDate := None;
     tinturariaQty := 0%float; tinturariaDate := None;
     confRoupoesQty := 0%float; confFelposQty := 0%float; confDate := None;
     embAcabQty := 0%float; armExpDate := None; stockCxQty := 0%float;
     dataEnt := Some (Utc.parse "2026-11-01T18:00:00.000Z");
     qtyBilled := 0%float; qtyOpen := 250%float;
     sectorObservations := [("confeccao", "atenção: _x e _y")];
     sectorPredictedDates := []; priority := 3%float; isManual := false;
     sectorStopReasons := []; dataEspecial := None; dataPrinter := None;
     dataDebuxo := None; dataAmostras := None; dataBordados := None;
     isArchived := true;
     archivedAt := Some (Utc.parse "2026-11-02T08:00:00.000Z");
     archivedBy := Some "Plan" |}.

Ltac each_of_list :=
  repeat match goal with
         | |- Forall _ (_ :: _) => apply Forall_cons
         | |- Forall _ [] => apply Forall_nil
         end.

Ltac decide_faithful :=
  constructor;
  [ vm_compute; reflexivity
  | unfold order_dates; each_of_list; vm_compute; try reflexivity; exact I
  | discriminate
  | discriminate
  | vm_compute; reflexivity
  | unfold order_texts; each_of_list; vm_compute; reflexivity
  | unfold written_texts; each_of_list; vm_compute; reflexivity
  | left; discriminate
  | left; discriminate
  | unfold order_quantities; each_of_list; split; vm_compute; reflexivity
  | cbn; tauto
  | discriminate
  | decide_NoDup
  | decide_NoDup
  | decide_NoDup
  | repeat constructor; vm_compute; try reflexivity; discriminate ].

Lemma demoOrder_excel_faithful : excel_faithful demoEnv demoOrder.
Proof. decide_faithful. Qed.

Lemma overdueClosedOrder_excel_faithful : excel_faithful demoEnv overdueClosedOrder.
Proof. decide_faithful. Qed.

Lemma timedOrder_excel_faithful : excel_faithful demoEnv timedOrder.
Proof. decide_faithful. Qed.

Lemma excel_roundtrip_witness :
  exists imported : Imported,
    parseExcelFile demoEnv
      (xlsx_file (exportOrdersToExcel demoEnv [demoOrder; overdueClosedOrder; timedOrder]))
    = Ok imported
    /\ Forall2 (equal_upto_dates demoEnv)
         [demoOrder; overdueClosedOrder; timedOrder] (orders imported)
    /\ headers imported = headerRow.
Proof.
  apply (excel_roundtrip demoEnv [demoOrder; overdueClosedOrder; timedOrder]).
  constructor; [exact demoOrder_excel_faithful|].
  constructor; [exact overdueClosedOrder_excel_faithful|].
  constructor; [exact timedOrder_excel_faithful | constructor].
Defined.

(** An order without a salesperson and without a client code, whose
    [dataEnt] is set although no date is requested. *)
Definition quirkOrder : Order :=
  {| id := "ENC-4-1"; docNr := "ENC-4"; clientCode := "";
     clientName := "CLIENTE D"; comercial := "";
     issueDate := None; requestedDate := None;
     itemNr := 1%float; po := ""; articleCode := ""; reference := "";
     colorCode := ""; colorDesc := ""; size := "XL"; family := "";
     sizeDesc := ""; ean := ""; qtyRequested := 10%float; dataTec := None;
     felpoCruQty := 0%float; felpoCruDate := None; tinturariaQty := 0%float;
     tinturariaDate := None; confRoupoesQty := 0%float; confFelposQty := 0%float;
     confDate := None; embAcabQty := 0%float; armExpDate := None;
     stockCxQty := 0%float; dataEnt := Some yesterday; qtyBilled := 0%float;
     qtyOpen := 10%float; sectorObservations := []; sectorPredictedDates := [];
     priority := 0%float; isManual := false; sectorStopReasons := [];
     dataEspecial := None; dataPrinter := None; dataDebuxo := None;
     dataAmostras := None; dataBordados := None; isArchived := false;
     archivedAt := None; archivedBy := None |}.

(** The order ENC-5 with the given document number, purchase order and
    reference. *)
Definition orderWith (doc purchase ref : string) : Order :=
  {| id := "ENC-5-1"; docNr := doc; clientCode := "C500";
     clientName := "CLIENTE E"; comercial := "ANA";
     issueDate := None; requestedDate := None;
     itemNr := 1%float; po := purchase; articleCode := ""; reference := ref;
     colorCode := ""; colorDesc := ""; size := ""; family := "";
     sizeDesc := ""; ean := ""; qtyRequested := 10%float; dataTec := None;
     felpoCruQty := 0%float; felpoCruDate := None; tinturariaQty := 0%float;
     tinturariaDate := None; confRoupoesQty := 0%float; confFelposQty := 0%float;
     confDate := None; embAcabQty := 0%float; armExpDate := None;
     stockCxQty := 0%float; dataEnt := None; qtyBilled := 0%float;
     qtyOpen := 10%float; sectorObservations := []; sectorPredictedDates := [];
     priority := 0%float; isManual := false; sectorStopReasons := [];
     dataEspecial := None; dataPrinter := None; dataDebuxo := None;
     dataAmostras := None; dataBordados := None; isArchived := false;
     archivedAt := None; archivedBy := None |}.

Definition docOrder : Order := orderWith "DOC-5" "" "".

(** A text of [2 ^ n] letters. *)
Fixpoint letters (n : nat) : string :=
  match n with
  | O => "a"
  | S k => letters k ++ letters k
  end.

(** C1 as stated fails. The first order comes back with the size as its
    salesperson, the client name as its client code and no [dataEnt],
    although its own [dataEnt] survives the display string unchanged. The
    order of document DOC-5 does not come back at all. A purchase order
    between spaces comes back without them, and a document number with an
    [_x0041_] comes back with the letter A in its place. A reference of
    32768 letters is refused by the writer: no file is produced. *)
Lemma excel_roundtrip_counterexample :
  match parseExcelFile demoEnv (xlsx_file (exportOrdersToExcel demoEnv [quirkOrder])) with
  | Ok imported =>
      map (fun obj => (obj_get obj "comercial", obj_get obj "clientCode",
                       obj_get obj "dataEnt"))
        (orders imported)
      = [(VStr "XL", VStr "CLIENTE D", VNull)]
      /\ (comercial quirkOrder, clientCode quirkOrder) = ("", "")
      /\ reread demoEnv (dataEnt quirkOrder) = dataEnt quirkOrder
      /\ dataEnt quirkOrder = Some yesterday
  | Err _ => False
  end
  /\ parseExcelFile demoEnv (xlsx_file (exportOrdersToExcel demoEnv [docOrder]))
     = Ok (mkImported [] headerRow)
  /\ match parseExcelFile demoEnv
             (xlsx_file (exportOrdersToExcel demoEnv [orderWith "ENC_x0041_1" " PO-5 " ""])) with
     | Ok imported =>
         map (fun obj => (obj_get obj "docNr", obj_get obj "po")) (orders imported)
         = [(VStr "ENCA1", VStr "PO-5")]
     | Err _ => False
     end
  /\ xlsx_file (exportOrdersToExcel demoEnv [orderWith "ENC-5" "" (letters 15)])
     = Err "Text length must not exceed 32767 characters".
Proof. vm_compute. repeat split; reflexivity. Qed.
(** * Further properties of the module *)

(** ** The order of numbers *)

Lemma SFcompare_lt_le_trans (a b c : spec_float) :
  SFltb a b = true -> SFleb b c = true -> SFltb a c = true.
Proof.
  unfold SFltb, SFleb.
  destruct a as [sa|sa| |sa ma ea], b as [sb|sb| |sb mb eb],
           c as [sc|sc| |sc mc ec]; cbn [SFcompare];
    try destruct sa; try destruct sb; try destruct sc; cbn;
    try discriminate; try reflexivity.
  all: change (PosDef.Pos.compare_cont Eq ?x ?y) with (Pos.compare x y).
  all: destruct (Z.compare_spec ea eb), (Z.compare_spec eb ec),
         (Z.compare_spec ea ec); cbn; try discriminate; try reflexivity;
         try lia.
  all: subst; destruct (Pos.compare_spec ma mb), (Pos.compare_spec mb mc),
         (Pos.compare_spec ma mc); cbn; try discriminate; try reflexivity;
         try lia.
Qed.

Lemma ltb_leb_trans (a b c : number) :
  (a <? b)%float = true -> (b <=? c)%float = true -> (a <? c)%float = true.
Proof. rewrite !ltb_spec, leb_spec. apply SFcompare_lt_le_trans. Qed.

(** A number that is not below zero and is not zero is above zero. *)
Lemma positive_of_nonzero (q : number) :
  (0 <=? q)%float = true -> (q =? 0)%float = false -> (0 <? q)%float = true.
Proof.
  rewrite leb_spec, eqb_spec, ltb_spec.
  change (Prim2SF 0) with (S754_zero false).
  unfold SFleb, SFeqb, SFltb.
  destruct (Prim2SF q) as [s|s| |s m e]; cbn; try destruct s; cbn;
    congruence.
Qed.

Lemma ltb_not_leb (a b : number) :
  (a <? b)%float = true -> (b <=? a)%float = false.
Proof.
  rewrite ltb_spec, leb_spec. unfold SFltb, SFleb.
  destruct (Prim2SF a) as [sa|sa| |sa ma ea], (Prim2SF b) as [sb|sb| |sb mb eb];
    cbn [SFcompare]; try destruct sa; try destruct sb; cbn;
    try discriminate; try reflexivity.
  all: change (PosDef.Pos.compare_cont Eq ?x ?y) with (Pos.compare x y).
  all: rewrite (Z.compare_antisym ea eb), (Pos.compare_antisym ma mb).
  all: destruct (ea ?= eb)%Z, (ma ?= mb)%positive; cbn;
         try discriminate; reflexivity.
Qed.

(** ** Concrete orders *)

(** An order line of 100 pieces for document ENC-9, with the given open
    quantity, sector quantities and requested date; no other date is set. *)
Definition lineOf (open felpo tinturaria stock : number) (due : option Date) : Order :=
  {| id := "ENC-9-1"; docNr := "ENC-9"; clientCode := "C900";
     clientName := "CLIENTE"; comercial := "ANA";
     issueDate := None; requestedDate := due;
     itemNr := 1%float; po := ""; articleCode := ""; reference := "";
     colorCode := ""; colorDesc := ""; size := ""; family := "";
     sizeDesc := ""; ean := ""; qtyRequested := 100%float; dataTec := None;
     felpoCruQty := felpo; felpoCruDate := None; tinturariaQty := tinturaria;
     tinturariaDate := None; confRoupoesQty := 0%float; confFelposQty := 0%float;
     confDate := None; embAcabQty := 0%float; armExpDate := None;
     stockCxQty := stock; dataEnt := None; qtyBilled := 0%float;
     qtyOpen := open; sectorObservations := []; sectorPredictedDates := [];
     priority := 0%float; isManual := false; sectorStopReasons := [];
     dataEspecial := None; dataPrinter := None; dataDebuxo := None;
     dataAmostras := None; dataBordados := None; isArchived := false;
     archivedAt := None; archivedBy := None |}.

(** The same host one week later. *)
Definition laterEnv : Env := Utc.env (Utc.parse "2026-11-09T07:00:00.000Z").

(** ** The remaining states of an order *)

(** [isCompleted] and [hasStarted] of [getOrderState]. *)
Definition isCompleted (o : Order) : bool :=
  (qtyOpen o =? 0)%float
  || ((qtyRequested o <=? stockCxQty o)%float && (0 <? qtyRequested o)%float).

Definition hasStarted (o : Order) : bool :=
  (0 <? felpoCruQty o)%float || (0 <? tinturariaQty o)%float
  || (0 <? confRoupoesQty o + confFelposQty o)%float || (0 <? embAcabQty o)%float.

Lemma getOrderState_cases (env : Env) (o : Order) :
  getOrderState env o =
  if isCompleted o then COMPLETED
  else if late_any (today env) o then LATE
  else if hasStarted o then IN_PRODUCTION else OPEN.
Proof.
  unfold getOrderState, isCompleted, late_any, late_dataTec, late_felpoCru,
    late_tinturaria, late_conf, late_requested, hasStarted.
  destruct ((qtyOpen o =? 0)%float
            || (qtyRequested o <=? stockCxQty o)%float && (0 <? qtyRequested o)%float);
    [reflexivity|].
  destruct (is_past (today env) (dataTec o) && (felpoCruQty o <? qtyRequested o)%float);
    [reflexivity|].
  destruct (is_past (today env) (felpoCruDate o) && (felpoCruQty o <? qtyRequested o)%float);
    [reflexivity|].
  destruct (is_past (today env) (tinturariaDate o)
            && (confRoupoesQty o + confFelposQty o <? qtyRequested o)%float);
    [reflexivity|].
  destruct (is_past (today env) (confDate o) && (embAcabQty o <? qtyRequested o)%float);
    [reflexivity|].
  destruct (is_past (today env) (requestedDate o) && (0 <? qtyOpen o)%float);
    reflexivity.
Qed.

(** X1. An order is IN_PRODUCTION exactly when it is not completed, none of
    the five lateness conditions holds and one of the quantities of felpo
    cru, tinturaria, confecção (the sum of its two) or embalagem is above
    zero; it is OPEN exactly when it is not completed, not late and none of
    these quantities is above zero. The quantity in stock starts nothing. *)
Theorem getOrderState_started_or_open (env : Env) (o : Order) :
  (getOrderState env o = IN_PRODUCTION <->
     isCompleted o = false /\ late_any (today env) o = false
     /\ hasStarted o = true)
  /\ (getOrderState env o = OPEN <->
        isCompleted o = false /\ late_any (today env) o = false
        /\ hasStarted o = false)
  /\ (forall stock : number,
        getOrderState env (lineOf 100 0 0 stock None)%float = OPEN
        \/ getOrderState env (lineOf 100 0 0 stock None)%float = COMPLETED).
Proof.
  rewrite getOrderState_cases.
  split; [|split].
  - destruct (isCompleted o), (late_any (today env) o), (hasStarted o);
      split; intros H; try discriminate; try tauto;
      destruct H as (H1 & H2 & H3); discriminate.
  - destruct (isCompleted o), (late_any (today env) o), (hasStarted o);
      split; intros H; try discriminate; try tauto;
      destruct H as (H1 & H2 & H3); discriminate.
  - intros stock. rewrite getOrderState_cases.
    destruct (isCompleted (lineOf 100 0 0 stock None)%float); [now right|].
    left. reflexivity.
Qed.

(** ** Lateness and the clock *)

Lemma is_past_later (now now' : Date) (d : option Date) :
  date_le now now' = true -> is_past now d = true -> is_past now' d = true.
Proof.
  destruct d as [d|]; [|discriminate]. unfold is_past, date_lt, date_le.
  intros Hle Hlt. exact (ltb_leb_trans _ _ _ Hlt Hle).
Qed.

Lemma late_any_later (now now' : Date) (o : Order) :
  date_le now now' = true -> late_any now o = true -> late_any now' o = true.
Proof.
  intros Hle. unfold late_any, late_dataTec, late_felpoCru, late_tinturaria,
    late_conf, late_requested.
  rewrite !orb_true_iff, !andb_true_iff.
  intros [[[[[H ?]|[H ?]]|[H ?]]|[H ?]]|[H ?]];
    apply (is_past_later now now' _ Hle) in H; tauto.
Qed.

(** X2. Whether an order is COMPLETED does not depend on the clock, and an
    order that is LATE on one day is LATE on every later day (as long as
    the order itself does not change). *)
Theorem getOrderState_late_persists (env env' : Env) (o : Order) :
  date_le (today env) (today env') = true ->
  (getOrderState env o = COMPLETED <-> getOrderState env' o = COMPLETED)
  /\ (getOrderState env o = LATE -> getOrderState env' o = LATE).
Proof.
  intros Hle. rewrite !getOrderState_cases.
  destruct (isCompleted o).
  - split; [tauto | discriminate].
  - destruct (late_any (today env) o) eqn:Hlate.
    + rewrite (late_any_later _ _ _ Hle Hlate). split; [|reflexivity].
      split; discriminate.
    + split.
      * destruct (late_any (today env') o), (hasStarted o); split; discriminate.
      * destruct (hasStarted o); discriminate.
Qed.

Lemma getOrderState_late_persists_witness :
  (getOrderState demoEnv (lineOf 40 0 0 0 (Some yesterday))%float = COMPLETED
   <-> getOrderState laterEnv (lineOf 40 0 0 0 (Some yesterday))%float = COMPLETED)
  /\ (getOrderState demoEnv (lineOf 40 0 0 0 (Some yesterday))%float = LATE
      -> getOrderState laterEnv (lineOf 40 0 0 0 (Some yesterday))%float = LATE).
Proof.
  apply (getOrderState_late_persists demoEnv laterEnv
           (lineOf 40 0 0 0 (Some yesterday))%float).
  vm_compute. reflexivity.
Defined.

(** ** Sectors *)

Lemma sectorSwitch_unknown (o : Order) (sectorId : string) :
  (forall s : SectorId, sectorId <> sectorKey s) -> sectorSwitch o sectorId = 0%float.
Proof.
  intros H. unfold sectorSwitch.
  destruct (sectorId =? "tecelagem") eqn:E1;
    [apply String.eqb_eq in E1; now elim (H tecelagem)|].
  destruct (sectorId =? "felpo_cru") eqn:E2;
    [apply String.eqb_eq in E2; now elim (H felpo_cru)|].
  destruct (sectorId =? "tinturaria") eqn:E3;
    [apply String.eqb_eq in E3; now elim (H tinturaria)|].
  destruct (sectorId =? "confeccao") eqn:E4;
    [apply String.eqb_eq in E4; now elim (H confeccao)|].
  destruct (sectorId =? "embalagem") eqn:E5;
    [apply String.eqb_eq in E5; now elim (H embalagem)|].
  destruct (sectorId =? "expedicao") eqn:E6;
    [apply String.eqb_eq in E6; now elim (H expedicao)|].
  reflexivity.
Qed.

(** X3. For a sector id that is none of the six (the ids are compared as
    written, letter case included), [getSectorState] is NOT_STARTED whatever
    the order holds. *)
Theorem getSectorState_unknown_sector (o : Order) (sectorId : string) :
  (forall s : SectorId, sectorId <> sectorKey s) ->
  getSectorState o sectorId = NOT_STARTED.
Proof.
  intros H. unfold getSectorState. rewrite (sectorSwitch_unknown o sectorId H).
  destruct (0 <? qtyRequested o)%float eqn:E.
  - rewrite (ltb_not_leb _ _ E). reflexivity.
  - reflexivity.
Qed.

Lemma getSectorState_unknown_sector_witness :
  getSectorState (lineOf 40 100 0 0 None)%float "Tecelagem" = NOT_STARTED
  /\ getSectorState (lineOf 40 100 0 0 None)%float "tecelagem" = SECTOR_COMPLETED.
Proof.
  split.
  - apply (getSectorState_unknown_sector (lineOf 40 100 0 0 None)%float "Tecelagem").
    intros []; discriminate.
  - reflexivity.
Defined.

(** X4. An order whose expedição sector is completed is COMPLETED, on any
    day and whatever its open quantity. *)
Theorem getSectorState_expedicao_completes (env : Env) (o : Order) :
  getSectorState o "expedicao" = SECTOR_COMPLETED ->
  getOrderState env o = COMPLETED.
Proof.
  unfold getSectorState, sectorSwitch. cbn [String.eqb Ascii.eqb Bool.eqb].
  intros H. rewrite getOrderState_cases. unfold isCompleted.
  destruct (0 <? qtyRequested o)%float; cbn in H |- *.
  - destruct (qtyRequested o <=? stockCxQty o)%float; cbn in H |- *.
    + now rewrite orb_true_r.
    + destruct (0 <? stockCxQty o)%float; discriminate.
  - destruct (0 <? stockCxQty o)%float; discriminate.
Qed.

Lemma getSectorState_expedicao_completes_witness :
  getOrderState demoEnv (lineOf 40 0 0 100 (Some yesterday))%float = COMPLETED.
Proof.
  apply (getSectorState_expedicao_completes demoEnv
           (lineOf 40 0 0 100 (Some yesterday))%float).
  reflexivity.
Defined.

Lemma positive_of_reached (r q : number) :
  (0 <? r)%float = true -> (r <=? q)%float = true -> (0 <? q)%float = true.
Proof. apply ltb_leb_trans. Qed.

(** X5. In an OPEN order every sector before expedição is NOT_STARTED. *)
Theorem getOrderState_open_sectors (env : Env) (o : Order) (s : SectorId) :
  getOrderState env o = OPEN -> s <> expedicao ->
  getSectorState o (sectorKey s) = NOT_STARTED.
Proof.
  rewrite getOrderState_cases.
  destruct (isCompleted o); [discriminate|].
  destruct (late_any (today env) o); [discriminate|].
  destruct (hasStarted o) eqn:Hs; [discriminate|]. intros _ Hne.
  unfold hasStarted in Hs. rewrite !orb_false_iff in Hs.
  destruct Hs as [[[H1 H2] H3] H4].
  assert (Hq : (0 <? sectorSwitch o (sectorKey s))%float = false).
  { destruct s; try exact H1; try exact H2; try exact H3; try exact H4.
    now elim Hne. }
  unfold getSectorState. rewrite Hq.
  destruct (0 <? qtyRequested o)%float eqn:Er; [|reflexivity].
  destruct (qtyRequested o <=? sectorSwitch o (sectorKey s))%float eqn:El;
    [|reflexivity].
  rewrite (positive_of_reached _ _ Er El) in Hq. discriminate.
Qed.

Lemma getOrderState_open_sectors_witness :
  getSectorState (lineOf 100 0 0 30 None)%float (sectorKey tinturaria) = NOT_STARTED
  /\ getSectorState (lineOf 100 0 0 30 None)%float "expedicao" = IN_PROGRESS.
Proof.
  split.
  - apply (getOrderState_open_sectors demoEnv (lineOf 100 0 0 30 None)%float tinturaria).
    + reflexivity.
    + discriminate.
  - reflexivity.
Defined.

(** ** The dashboard figures *)

Lemma nodup_length_le (l : list string) :
  List.length (nodup string_dec l) <= List.length l.
Proof.
  induction l as [|x l IH]; cbn; [lia|].
  destruct (in_dec string_dec x l); cbn; lia.
Qed.

Lemma filter_length_incl {A : Type} (f g : A -> bool) (l : list A) :
  Forall (fun x => f x = true -> g x = true) l ->
  List.length (filter f l) <= List.length (filter g l).
Proof.
  induction 1 as [|x l Hx _ IH]; cbn; [lia|].
  destruct (f x).
  - rewrite (Hx eq_refl). cbn. lia.
  - destruct (g x); cbn; lia.
Qed.

(** The pieces of [calculateKPIs] that do not depend on the week. *)
Lemma calculateKPIs_counts (env : Env) (orders : list Order) :
  totalInProduction (calculateKPIs env orders)
  = List.length (filter (fun o => (0 <? qtyOpen o)%float) orders)
  /\ totalActiveDocs (calculateKPIs env orders)
     = List.length (nodup string_dec
                      (map docNr (filter (fun o => (0 <? qtyOpen o)%float) orders)))
  /\ totalLate (calculateKPIs env orders)
     = List.length (filter (fun o => OrderState_eqb (getOrderState env o) LATE) orders).
Proof.
  unfold calculateKPIs. destruct (getWeekRange env (currentDate env)) as [ws we].
  cbn. repeat split.
Qed.

(** X6. The figures of the dashboard are bounded by one another: the
    distinct active documents by the active lines, and the active lines,
    the late lines and the deliveries of the week by the number of lines;
    without a delivery in the week the fulfilment rate is 0. *)
Theorem calculateKPIs_bounds (env : Env) (orders : list Order) :
  let k := calculateKPIs env orders in
  totalActiveDocs k <= totalInProduction k
  /\ totalInProduction k <= List.length orders
  /\ totalLate k <= List.length orders
  /\ deliveriesThisWeek k <= List.length orders
  /\ (deliveriesThisWeek k = 0 -> fulfillmentRateWeek k = 0%float).
Proof.
  cbv zeta.
  destruct (calculateKPIs_counts env orders) as (Ha & Hd & Hl).
  rewrite Ha, Hd, Hl.
  split; [|split; [|split]].
  - rewrite <- (length_map docNr (filter _ orders)). apply nodup_length_le.
  - apply filter_length_le.
  - apply filter_length_le.
  - unfold calculateKPIs. destruct (getWeekRange env (currentDate env)) as [ws we].
    cbn [deliveriesThisWeek fulfillmentRateWeek]. split.
    + apply filter_length_le.
    + intros ->. reflexivity.
Qed.

Lemma late_is_active (env : Env) (o : Order) :
  (0 <=? qtyOpen o)%float = true ->
  OrderState_eqb (getOrderState env o) LATE = true ->
  (0 <? qtyOpen o)%float = true.
Proof.
  intros Hq. rewrite getOrderState_cases. unfold isCompleted.
  destruct (qtyOpen o =? 0)%float eqn:E; [discriminate|].
  intros _. exact (positive_of_nonzero _ Hq E).
Qed.

(** X7. When no open quantity is negative or [NaN], every late line is an
    active line: the number of late lines does not exceed the number of
    active lines. *)
Theorem calculateKPIs_late_active (env : Env) (orders : list Order) :
  Forall (fun o => (0 <=? qtyOpen o)%float = true) orders ->
  totalLate (calculateKPIs env orders) <= totalInProduction (calculateKPIs env orders).
Proof.
  intros H. destruct (calculateKPIs_counts env orders) as (Ha & _ & Hl).
  rewrite Ha, Hl. apply filter_length_incl.
  eapply Forall_impl; [|exact H]. intros o Hq. cbv beta.
  apply late_is_active. exact Hq.
Qed.

Lemma calculateKPIs_late_active_witness :
  totalLate (calculateKPIs demoEnv
               [lineOf 40 0 0 0 (Some yesterday); lineOf 0 0 0 0 (Some yesterday);
                lineOf 40 0 0 0 None]%float)
  <= totalInProduction (calculateKPIs demoEnv
               [lineOf 40 0 0 0 (Some yesterday); lineOf 0 0 0 0 (Some yesterday);
                lineOf 40 0 0 0 None]%float).
Proof.
  apply (calculateKPIs_late_active demoEnv
           [lineOf 40 0 0 0 (Some yesterday); lineOf 0 0 0 0 (Some yesterday);
            lineOf 40 0 0 0 None]%float).
  repeat constructor.
Defined.

(** ** More on [parseNumber] *)

(** The rules of [parseNumber] on the trimmed text of a value. *)
Definition readText (str : string) : number :=
  if str =? "" then 0%float
  else if has_char str "," && has_char str "."
  then degrade (parseFloat (replace_first "," "." (remove_all "." str)))
  else if has_char str ","
  then degrade (parseFloat (replace_first "," "." str))
  else if has_char str "." && (js_length (last (split "." str) "") =? 3)%nat
  then degrade (parseFloat (remove_all "." str))
  else degrade (parseFloat str).

Lemma split_has_dot (str : string) :
  has_char str "." = true -> (1 <? List.length (split "." str))%nat = true.
Proof.
  induction str as [|a r IH]; [discriminate|].
  cbn [split has_char].
  destruct (Ascii.eqb a ".").
  - intros _. destruct r as [|b r']; [reflexivity|].
    cbn [split]. destruct (Ascii.eqb b "."); [reflexivity|].
    destruct (split "." r'); reflexivity.
  - cbn [orb]. intros H. specialize (IH H).
    destruct (split "." r) as [|p ps]; [discriminate IH | exact IH].
Qed.

Lemma parseNumber_readText (env : Env) (v : JsVal) :
  (forall n, v <> VNum n) ->
  parseNumber env v =
  if truthy v then readText (trim (js_String env v)) else 0%float.
Proof.
  intros Hv. unfold readText.
  assert (H : parseNumber env v =
              if negb (truthy v) then 0%float else
              let str := trim (js_String env v) in
              if str =? "" then 0%float else
              if has_char str "," && has_char str "." then
                degrade (parseFloat (replace_first "," "." (remove_all "." str)))
              else if has_char str "," then
                degrade (parseFloat (replace_first "," "." str))
              else
                if (if has_char str "."
                    then (1 <? List.length (split "." str))%nat
                         && (js_length (last (split "." str) "") =? 3)%nat
                    else false)
                then degrade (parseFloat (remove_all "." str))
                else degrade (parseFloat str)).
  { destruct v; try reflexivity. now elim (Hv n). }
  rewrite H. cbv zeta. destruct (truthy v); [|reflexivity]. cbn [negb].
  destruct (trim (js_String env v) =? ""); [reflexivity|].
  destruct (has_char (trim (js_String env v)) ","
            && has_char (trim (js_String env v)) "."); [reflexivity|].
  destruct (has_char (trim (js_String env v)) ","); [reflexivity|].
  destruct (has_char (trim (js_String env v)) ".") eqn:Edot; [|reflexivity].
  rewrite (split_has_dot _ Edot). reflexivity.
Qed.

Lemma readText_not_nan (str : string) : is_nan (readText str) = false.
Proof.
  unfold readText.
  repeat match goal with
         | |- context [if ?b then _ else _] => destruct b
         end;
    try reflexivity; apply degrade_not_nan.
Qed.

(** X8. Whatever value it is given (a text, a boolean, a date, an object,
    [null], [undefined]), [parseNumber] returns [NaN] only when the value is
    the number [NaN] itself: a number is returned as it is, and everything
    else is read as a text that degrades to 0. *)
Theorem parseNumber_nan_only_from_nan (env : Env) (v : JsVal) :
  (is_nan (parseNumber env v) = true <-> exists n, v = VNum n /\ is_nan n = true)
  /\ (forall n, parseNumber env (VNum n) = n).
Proof.
  split; [|reflexivity].
  split.
  - intros H. destruct v as [| |b|n|s|d|fs|items];
      try (rewrite parseNumber_readText in H by discriminate;
           destruct (truthy _);
           [rewrite readText_not_nan in H|]; discriminate).
    exists n. split; [reflexivity | exact H].
  - intros (n & -> & Hn). exact Hn.
Qed.

(** ASCII characters of a numeral that are neither a separator nor white
    space. *)
Definition plain_char (c : ascii) : bool :=
  (code c <? 128)%N && negb (is_ws c || Ascii.eqb c "." || Ascii.eqb c ",").

Fixpoint plain (s : string) : bool :=
  match s with
  | String c r => plain_char c && plain r
  | EmptyString => true
  end.

Lemma plain_char_inv (c : ascii) :
  plain_char c = true ->
  is_ws c = false /\ Ascii.eqb c "." = false /\ Ascii.eqb c "," = false.
Proof.
  unfold plain_char. rewrite andb_true_iff, negb_true_iff, !orb_false_iff. tauto.
Qed.

Lemma plain_has_char (s : string) (c : ascii) :
  plain s = true -> plain_char c = false -> has_char s c = false.
Proof.
  intros Hs Hc. induction s as [|x r IH]; [reflexivity|].
  cbn [plain has_char] in *. apply andb_true_iff in Hs. destruct Hs as [Hx Hr].
  rewrite (IH Hr), orb_false_r.
  destruct (Ascii.eqb x c) eqn:E; [|reflexivity].
  apply Ascii.eqb_eq in E. congruence.
Qed.

Lemma has_char_sep (sep : ascii) (a b : string) (c : ascii) :
  has_char (a ++ String sep b) c = Ascii.eqb sep c || has_char a c || has_char b c.
Proof.
  induction a as [|x r IH]; cbn [append has_char].
  - now rewrite orb_false_r.
  - rewrite IH. destruct (Ascii.eqb x c), (Ascii.eqb sep c), (has_char r c);
      reflexivity.
Qed.

Lemma has_char_app (a b : string) (c : ascii) :
  has_char (a ++ b) c = has_char a c || has_char b c.
Proof.
  induction a as [|x r IH]; cbn [append has_char]; [reflexivity|].
  rewrite IH. now rewrite orb_assoc.
Qed.

(** An ASCII character that is not white space, and the texts made of
    them: [trim] leaves such a text as it is. *)
Definition solid_char (c : ascii) : bool := (code c <? 128)%N && negb (is_ws c).

Fixpoint solid (s : string) : bool :=
  match s with
  | String c r => solid_char c && solid r
  | EmptyString => true
  end.

Lemma solid_char_inv (c : ascii) :
  solid_char c = true ->
  is_ws c = false /\ (forall b, is_ws2 c b = false)
  /\ (forall b d, is_ws3 c b d = false).
Proof.
  unfold solid_char. rewrite andb_true_iff, negb_true_iff. intros [Hlt Hws].
  apply N.ltb_lt in Hlt. split; [exact Hws|]. split.
  - intros b. unfold is_ws2.
    destruct (code c =? 194)%N eqn:E; [apply N.eqb_eq in E; lia | reflexivity].
  - intros b d. unfold is_ws3.
    destruct (code c =? 225)%N eqn:E1; [apply N.eqb_eq in E1; lia|].
    destruct (code c =? 226)%N eqn:E2; [apply N.eqb_eq in E2; lia|].
    destruct (code c =? 227)%N eqn:E3; [apply N.eqb_eq in E3; lia|].
    destruct (code c =? 239)%N eqn:E4; [apply N.eqb_eq in E4; lia|].
    reflexivity.
Qed.

Lemma trimStart_solid (c : ascii) (r : string) :
  solid_char c = true -> trimStart (String c r) = String c r.
Proof.
  intros H. destruct (solid_char_inv c H) as (H1 & H2 & H3).
  cbn [trimStart]. rewrite H1.
  destruct r as [|b r]; [reflexivity|]. rewrite H2.
  destruct r as [|d r]; [reflexivity|]. now rewrite H3.
Qed.

Lemma trimEnd_solid (s : string) : solid s = true -> trimEnd s = s.
Proof.
  induction s as [|c r IH]; [reflexivity|]. cbn [solid]. intros H.
  apply andb_true_iff in H. destruct H as [Hc Hr].
  cbn [trimEnd]. unfold blank. rewrite (trimStart_solid c r Hc).
  cbn [String.eqb]. now rewrite (IH Hr).
Qed.

Lemma trim_solid (s : string) : solid s = true -> trim s = s.
Proof.
  intros H. unfold trim. destruct s as [|c r]; [reflexivity|].
  cbn [solid] in H. apply andb_true_iff in H. destruct H as [Hc Hr].
  rewrite (trimStart_solid c r Hc). apply trimEnd_solid.
  cbn [solid]. now rewrite Hc, Hr.
Qed.

Lemma solid_app (a b : string) : solid (a ++ b) = solid a && solid b.
Proof.
  induction a as [|c r IH]; [reflexivity|]. cbn [append solid].
  now rewrite IH, andb_assoc.
Qed.

Lemma plain_solid (s : string) : plain s = true -> solid s = true.
Proof.
  induction s as [|c r IH]; [reflexivity|]. cbn [plain solid]. intros H.
  apply andb_true_iff in H. destruct H as [Hc Hr]. rewrite (IH Hr), andb_true_r.
  unfold plain_char in Hc. unfold solid_char.
  apply andb_true_iff in Hc. destruct Hc as [Hlt Hn]. rewrite Hlt.
  rewrite negb_true_iff, !orb_false_iff in Hn. cbn [andb].
  now rewrite (proj1 (proj1 Hn)).
Qed.

Lemma trim_separated (sep : ascii) (a b : string) :
  plain a = true -> plain b = true -> solid_char sep = true ->
  trim (a ++ String sep b) = a ++ String sep b.
Proof.
  intros Ha Hb Hsep. apply trim_solid. rewrite solid_app. cbn [solid].
  now rewrite (plain_solid a Ha), (plain_solid b Hb), Hsep.
Qed.

Lemma trim_joined (a b : string) :
  plain a = true -> plain b = true -> trim (a ++ b) = a ++ b.
Proof.
  intros Ha Hb. apply trim_solid. rewrite solid_app.
  now rewrite (plain_solid a Ha), (plain_solid b Hb).
Qed.

Lemma split_plain (s : string) : plain s = true -> split "." s = [s].
Proof.
  induction s as [|x r IH]; [reflexivity|]. cbn [plain split]. intros H.
  apply andb_true_iff in H. destruct H as [Hx Hr].
  destruct (plain_char_inv x Hx) as (_ & Hd & _). rewrite Hd, (IH Hr).
  reflexivity.
Qed.

Lemma split_dotted (a b : string) :
  plain a = true -> plain b = true -> split "." (a ++ String "." b) = [a; b].
Proof.
  intros Ha Hb. induction a as [|x r IH]; cbn [append split].
  - cbn. now rewrite (split_plain b Hb).
  - cbn [plain] in Ha. apply andb_true_iff in Ha. destruct Ha as [Hx Hr].
    destruct (plain_char_inv x Hx) as (_ & Hd & _). rewrite Hd, (IH Hr).
    reflexivity.
Qed.

Lemma remove_all_plain (s : string) : plain s = true -> remove_all "." s = s.
Proof.
  induction s as [|x r IH]; [reflexivity|]. cbn [plain remove_all]. intros H.
  apply andb_true_iff in H. destruct H as [Hx Hr].
  destruct (plain_char_inv x Hx) as (_ & Hd & _). now rewrite Hd, (IH Hr).
Qed.

Lemma remove_all_dotted (a b : string) :
  plain a = true -> plain b = true -> remove_all "." (a ++ String "." b) = a ++ b.
Proof.
  intros Ha Hb. induction a as [|x r IH]; cbn [append remove_all].
  - cbn. apply remove_all_plain. exact Hb.
  - cbn [plain] in Ha. apply andb_true_iff in Ha. destruct Ha as [Hx Hr].
    destruct (plain_char_inv x Hx) as (_ & Hd & _). now rewrite Hd, (IH Hr).
Qed.

Lemma replace_first_comma (a b : string) :
  plain a = true ->
  replace_first "," "." (a ++ String "," b) = a ++ String "." b.
Proof.
  intros Ha. induction a as [|x r IH]; cbn [append replace_first].
  - reflexivity.
  - cbn [plain] in Ha. apply andb_true_iff in Ha. destruct Ha as [Hx Hr].
    destruct (plain_char_inv x Hx) as (_ & _ & Hc). now rewrite Hc, (IH Hr).
Qed.

Lemma append_empty (a b : string) : a ++ b = "" -> b = "".
Proof. destruct a; [trivial | discriminate]. Qed.

Lemma separated_not_empty (a b : string) (sep : ascii) :
  (a ++ String sep b =? "") = false.
Proof. destruct a; reflexivity. Qed.

(** X9. For two ASCII texts [a] and [b] without dot, comma or white space:
    a dot followed by exactly three characters is a thousands separator
    ([a.b] reads as [ab]); a dot followed by any other number of characters,
    and a comma in every case, is the decimal point. *)
Theorem parseNumber_separators (env : Env) (a b : string) :
  plain a = true -> plain b = true ->
  (js_length b = 3 ->
   parseNumber env (VStr (a ++ "." ++ b)) = parseNumber env (VStr (a ++ b)))
  /\ (js_length b <> 3 ->
      parseNumber env (VStr (a ++ "." ++ b)) = degrade (parseFloat (a ++ "." ++ b)))
  /\ parseNumber env (VStr (a ++ "," ++ b)) = degrade (parseFloat (a ++ "." ++ b)).
Proof.
  intros Ha Hb. cbn [append].
  rewrite !parseNumber_string. cbv zeta.
  rewrite (trim_separated "." a b Ha Hb eq_refl),
    (trim_separated "," a b Ha Hb eq_refl), (trim_joined a b Ha Hb).
  rewrite !separated_not_empty, !has_char_sep, !has_char_app.
  rewrite (plain_has_char a "," Ha eq_refl), (plain_has_char b "," Hb eq_refl),
    (plain_has_char a "." Ha eq_refl), (plain_has_char b "." Hb eq_refl).
  cbn [Ascii.eqb Bool.eqb orb andb].
  rewrite (split_dotted a b Ha Hb), (remove_all_dotted a b Ha Hb),
    (replace_first_comma a b Ha).
  cbn [last].
  split; [|split].
  - intros Hlen. rewrite Hlen. cbn [Nat.eqb].
    destruct (a ++ b =? "") eqn:E; [|reflexivity].
    apply String.eqb_eq in E. apply append_empty in E. subst b. discriminate.
  - intros Hlen. apply Nat.eqb_neq in Hlen. rewrite Hlen. reflexivity.
  - reflexivity.
Qed.

Lemma parseNumber_separators_witness :
  parseNumber demoEnv (VStr "12.345") = 12345%float
  /\ parseNumber demoEnv (VStr "12.34") = 12.34%float
  /\ parseNumber demoEnv (VStr "12,345") = 12.345%float
  /\ parseNumber demoEnv (VStr "1.5e3") = 15000%float.
Proof.
  destruct (parseNumber_separators demoEnv "12" "345" eq_refl eq_refl) as (H1 & _ & H3).
  destruct (parseNumber_separators demoEnv "12" "34" eq_refl eq_refl) as (_ & H2 & _).
  destruct (parseNumber_separators demoEnv "1" "5e3" eq_refl eq_refl) as (H4 & _ & _).
  cbn [append] in *.
  rewrite (H1 eq_refl), (H2 ltac:(discriminate)), H3, (H4 eq_refl).
  vm_compute. repeat split.
Defined.

(** ** The embedded database: when the export fails, and older files *)

Lemma insert_order_taken (env : Env) (prev : list Order) (o : Order) :
  In (id o) (map id prev) ->
  insert_order (map (storedRow env) prev) (sqliteRow env o)
  = Err "UNIQUE constraint failed: orders.id".
Proof.
  intros Hin. unfold insert_order.
  rewrite (sql_bind_all_stored _ (sqliteRow_bindable env o)). cbn [bind].
  fold (storedRow env o).
  assert (Hyes : existsb (fun r => sql_key_eqb (hd VNull r) (hd VNull (storedRow env o)))
                   (map (storedRow env) prev) = true).
  { induction prev as [|p prev IH]; [destruct Hin|].
    cbn [map existsb].
    change (hd VNull (storedRow env p)) with (VStr (id p)).
    change (hd VNull (storedRow env o)) with (VStr (id o)).
    cbn [sql_key_eqb]. cbn [map In] in Hin.
    destruct (id p =? id o) eqn:E; [reflexivity|].
    apply String.eqb_neq in E. cbn [orb]. apply IH. tauto. }
  rewrite Hyes. reflexivity.
Qed.

Lemma insert_orders_repeated (env : Env) (os prev : list Order) :
  NoDup (map id prev) -> ~ NoDup (map id (prev ++ os)) ->
  insert_orders env (map (storedRow env) prev) os
  = Err "UNIQUE constraint failed: orders.id".
Proof.
  revert prev. induction os as [|o os IH]; intros prev Hprev Hdup.
  - rewrite app_nil_r in Hdup. contradiction.
  - cbn [insert_orders].
    destruct (in_dec string_dec (id o) (map id prev)) as [Hin | Hout].
    + rewrite (insert_order_taken env prev o Hin). reflexivity.
    + rewrite (insert_order_fresh env prev o Hout). cbn [bind].
      apply IH.
      * rewrite map_app. cbn [map].
        apply NoDup_app; [exact Hprev | repeat constructor; intros [] |].
        intros x Hx [<- | []]. exact (Hout Hx).
      * now rewrite <- app_assoc.
Qed.

(** No text occurs twice in the list. *)
Fixpoint all_distinct (l : list string) : bool :=
  match l with
  | [] => true
  | x :: rest => negb (existsb (String.eqb x) rest) && all_distinct rest
  end.

Lemma all_distinct_NoDup (l : list string) : all_distinct l = true <-> NoDup l.
Proof.
  induction l as [|x l IH]; cbn [all_distinct].
  - split; [constructor | reflexivity].
  - rewrite andb_true_iff, negb_true_iff, IH. split.
    + intros [Hx Hl]. constructor; [|exact Hl].
      intros Hin. apply (existsb_eqb_In x l) in Hin. congruence.
    + intros H. inversion H as [|? ? Hx Hl]; subst. split; [|exact Hl].
      destruct (existsb (String.eqb x) l) eqn:E; [|reflexivity].
      apply existsb_eqb_In in E. contradiction.
Qed.

(** X10. [exportOrdersToSQLite] succeeds exactly when no two orders have the
    same [id]: it then stores one row per order, in order, under the 45
    column names; otherwise the insertion of the second order of the same
    [id] throws and no file is produced, whatever the other orders are. *)
Theorem exportOrdersToSQLite_unique_ids (env : Env) (os : list Order)
    (hs : list (string * string)) :
  exportOrdersToSQLite env os hs =
  if all_distinct (map id os)
  then Ok (mkDatabase (Some (map (fun kv => (VStr (fst kv), VStr (snd kv))) hs))
             (Some (mkTable ORDERS_COLUMNS (map (storedRow env) os))))
  else Err "UNIQUE constraint failed: orders.id".
Proof.
  destruct (all_distinct (map id os)) eqn:E.
  - apply exportOrdersToSQLite_ok. apply all_distinct_NoDup. exact E.
  - assert (Hdup : ~ NoDup (map id os)).
    { intros H. apply all_distinct_NoDup in H. congruence. }
    unfold exportOrdersToSQLite. rewrite insert_headers_ok. cbn [bind].
    change (@nil (list JsVal)) with (map (storedRow env) []).
    rewrite insert_orders_repeated; [reflexivity | constructor | exact Hdup].
Qed.

Lemma stored_absent (cols : list string) (row : list JsVal) (f : string) :
  ~ In f cols -> stored cols row f = VUndef.
Proof.
  intros H. unfold stored.
  assert (G : forall acc, obj_get acc f = VUndef ->
                          obj_get (zip_columns cols row acc) f = VUndef).
  { revert row. induction cols as [|c cols IH]; intros row acc Hacc; [exact Hacc|].
    cbn [zip_columns]. cbn [In] in H. apply IH; [tauto|].
    rewrite obj_get_set. destruct (c =? f) eqn:E; [|exact Hacc].
    apply String.eqb_eq in E. tauto. }
  apply G. reflexivity.
Qed.

(** X11. A database written before the columns [priority], [comercial],
    [isManual] and [isArchived] existed, and without a [headers] table, is
    still read: the headers are empty and every order gets priority 0, an
    empty salesperson and both flags false. *)
Theorem parseSQLiteFile_older_file (env : Env) (t : Table) :
  Forall (fun f => ~ In f (columns t)) ["priority"; "comercial"; "isManual"; "isArchived"] ->
  exists os,
    parseSQLiteFile env (Ok (mkDatabase None (Some t))) = Ok (mkImported os [])
    /\ List.length os = List.length (values t)
    /\ Forall (fun o =>
                 obj_get o "priority" = VNum 0%float
                 /\ obj_get o "comercial" = VStr ""
                 /\ obj_get o "isManual" = VBool false
                 /\ obj_get o "isArchived" = VBool false) os.
Proof.
  intros H. inversion H as [|? ? Hp H1]; subst.
  inversion H1 as [|? ? Hc H2]; subst.
  inversion H2 as [|? ? Hm H3]; subst.
  inversion H3 as [|? ? Ha _]; subst.
  exists (map (sqliteOrder env (columns t)) (values t)). split; [|split].
  - unfold parseSQLiteFile. cbn [bind headers_table orders_table].
    destruct (values t); reflexivity.
  - apply length_map.
  - apply Forall_forall. intros o Ho. apply in_map_iff in Ho as [row [<- _]].
    rewrite sqliteOrder_priority, sqliteOrder_comercial, sqliteOrder_isManual,
      sqliteOrder_isArchived.
    rewrite !stored_absent by assumption. repeat split.
Qed.

Lemma parseSQLiteFile_older_file_witness :
  exists os,
    parseSQLiteFile demoEnv
      (Ok (mkDatabase None
             (Some (mkTable ["id"; "docNr"; "qtyOpen"]
                      [[VStr "ENC-7-1"; VStr "ENC-7"; VNum 12%float]]))))
    = Ok (mkImported os [])
    /\ List.length os = 1
    /\ Forall (fun o =>
                 obj_get o "priority" = VNum 0%float
                 /\ obj_get o "comercial" = VStr ""
                 /\ obj_get o "isManual" = VBool false
                 /\ obj_get o "isArchived" = VBool false) os.
Proof.
  apply (parseSQLiteFile_older_file demoEnv
           (mkTable ["id"; "docNr"; "qtyOpen"]
              [[VStr "ENC-7-1"; VStr "ENC-7"; VNum 12%float]])).
  repeat constructor; cbn; intros H; repeat destruct H as [H | H];
    try discriminate H; exact H.
Defined.

(** X26. The import of a database that [exportOrdersToSQLite] produced
    never fails and neither drops nor adds an order, whatever the orders
    hold (as long as their ids differ, so that there is a database): it
    gives one order per exported order, in order, each with the [id] and
    the document number of its original. *)
Theorem exportOrdersToSQLite_then_parse (env : Env) (os : list Order)
    (hs : list (string * string)) :
  NoDup (map id os) ->
  exists (db : Database) (imported : Imported),
    exportOrdersToSQLite env os hs = Ok db
    /\ parseSQLiteFile env (Ok db) = Ok imported
    /\ Forall2 (fun o obj =>
                  obj_get obj "id" = VStr (id o)
                  /\ obj_get obj "docNr" = VStr (docNr o))
         os (orders imported).
Proof.
  intros Hnd. eexists.
  exists (mkImported
            (map (sqliteOrder env ORDERS_COLUMNS) (map (storedRow env) os))
            (fold_left (fun h kv => obj_set h (js_String env (fst kv)) (snd kv))
               (map (fun kv => (VStr (fst kv), VStr (snd kv))) hs) [])).
  split; [apply exportOrdersToSQLite_ok; exact Hnd|].
  assert (Hrows : Forall2 (fun o obj =>
                             obj_get obj "id" = VStr (id o)
                             /\ obj_get obj "docNr" = VStr (docNr o))
                    os (map (sqliteOrder env ORDERS_COLUMNS) (map (storedRow env) os))).
  { clear Hnd. induction os as [|o os IH]; [constructor|].
    cbn [map]. constructor; [|exact IH].
    rewrite !sqliteOrder_untouched by (vm_compute; reflexivity).
    split; reflexivity. }
  unfold parseSQLiteFile. cbn [bind headers_table orders_table columns values].
  split; [|exact Hrows].
  destruct (map (storedRow env) os); reflexivity.
Qed.

Lemma exportOrdersToSQLite_then_parse_witness :
  exists (db : Database) (imported : Imported),
    exportOrdersToSQLite demoEnv
      [lineOf nan 0 0 0 (Some (mkDate 0))]%float [] = Ok db
    /\ parseSQLiteFile demoEnv (Ok db) = Ok imported
    /\ Forall2 (fun o obj =>
                  obj_get obj "id" = VStr (id o)
                  /\ obj_get obj "docNr" = VStr (docNr o))
         [lineOf nan 0 0 0 (Some (mkDate 0))]%float (orders imported).
Proof.
  apply (exportOrdersToSQLite_then_parse demoEnv
           [lineOf nan 0 0 0 (Some (mkDate 0))]%float []).
  repeat constructor. intros [].
Defined.

(** ** The spreadsheet: files of the ERP, and the layout that is written *)

(** The columns that only this application writes. *)
Definition TEXFLOW_COLUMNS : list string :=
  [ "AD"; "AE"; "AF"; "AG"; "AH"; "AI"; "AJ"; "AK"; "AL"; "AM"; "AN"; "AO";
    "AP"; "AQ"; "AR" ].

Ltac read_fields :=
  lazy beta iota zeta delta [obj_get String.eqb Ascii.eqb Bool.eqb].

(** X12. A row of a file of the ERP, which has no cell in the columns AD to
    AR, is read with the salesperson taken from the size column (L), the
    client code from the client name column (C), [dataEnt] equal to the
    requested date, priority 0, both flags false, the three sector mappings
    empty and nobody as archiver; when column A is empty too, the [id] is
    the document number, a hyphen and the item number. *)
Theorem excelOrder_erp_row (env : Env) (row : JsObj) :
  Forall (fun c => obj_get row c = VUndef) TEXFLOW_COLUMNS ->
  exists o,
    excelOrder env row = Ok o
    /\ obj_get o "comercial" = obj_get o "size"
    /\ obj_get o "clientCode" = obj_get o "clientName"
    /\ obj_get o "dataEnt" = obj_get o "requestedDate"
    /\ obj_get o "priority" = VNum 0%float
    /\ obj_get o "isManual" = VBool false
    /\ obj_get o "isArchived" = VBool false
    /\ obj_get o "sectorObservations" = VObj []
    /\ obj_get o "sectorPredictedDates" = VObj []
    /\ obj_get o "sectorStopReasons" = VObj []
    /\ obj_get o "archivedBy" = VNull
    /\ (truthy (obj_get row "A") = false ->
        obj_get o "id"
        = VStr (trim (js_String env (obj_get row "B")) ++ "-"
                ++ Number_toString (parseNumber env (obj_get row "F")))).
Proof.
  intros H. unfold TEXFLOW_COLUMNS in H.
  repeat match type of H with
         | Forall _ (_ :: _) =>
             let Hc := fresh "Hc" in
             let H' := fresh "H" in
             inversion H as [|? ? Hc H']; subst; clear H; rename H' into H
         end.
  unfold excelOrder, excelOrderFrom, json_cell.
  repeat match goal with
         | Hc : obj_get row _ = VUndef |- _ => rewrite Hc; clear Hc
         end.
  cbn [truthy bind hydrate_keys map is_flag js_or].
  eexists. split; [reflexivity|].
  read_fields. unfold text_of.
  repeat split.
  intros Ha. unfold js_or. rewrite Ha. reflexivity.
Qed.

Lemma excelOrder_erp_row_witness :
  exists o,
    excelOrder demoEnv
      [("B", VNum 20240012%float); ("C", VStr "CLIENTE A"); ("F", VStr "3");
       ("L", VStr " XL "); ("P", VStr "1.500")]
    = Ok o
    /\ obj_get o "id" = VStr "20240012-3"
    /\ obj_get o "comercial" = VStr "XL"
    /\ obj_get o "clientCode" = VStr "CLIENTE A"
    /\ obj_get o "qtyRequested" = VNum 1500%float.
Proof.
  destruct (excelOrder_erp_row demoEnv
              [("B", VNum 20240012%float); ("C", VStr "CLIENTE A"); ("F", VStr "3");
               ("L", VStr " XL "); ("P", VStr "1.500")])
    as (o & Ho & Hcom & Hcc & _ & _ & _ & _ & _ & _ & _ & _ & Hid).
  - repeat constructor.
  - exists o. split; [exact Ho|].
    rewrite (Hid eq_refl), Hcom, Hcc.
    assert (E : excelOrder demoEnv
                  [("B", VNum 20240012%float); ("C", VStr "CLIENTE A");
                   ("F", VStr "3"); ("L", VStr " XL "); ("P", VStr "1.500")]
                = Ok o) by exact Ho.
    vm_compute in E. injection E as <-. vm_compute. repeat split.
Defined.

(** The line written for a row object: one cell per column letter. *)
Definition sheetLine (row : JsObj) : SheetRow :=
  map (fun k => cell_of (obj_get row k)) COLS.

Lemma exportOrdersToExcel_sheet (env : Env) (os : list Order) :
  exportOrdersToExcel env os
  = [("Dados_BD", map sheetLine (headerRow :: map (excelRow env) os))].
Proof.
  unfold exportOrdersToExcel, json_to_sheet, sheetLine.
  assert (HK : distinct_keys (flat_map obj_keys (headerRow :: map (excelRow env) os))
               = COLS).
  { apply distinct_keys_same_rows; [discriminate | apply COLS_NoDup |].
    constructor; [reflexivity|].
    apply Forall_forall. intros row Hrow.
    apply in_map_iff in Hrow as [o [<- _]]. apply excelRow_keys. }
  rewrite HK. reflexivity.
Qed.

(** *** What the writer accepts *)

Definition fits (s : string) : bool := (N.of_nat (js_length s) <=? TEXT_LIMIT)%N.

(** Every text written in the line of an order has at most 32767
    characters. *)
Definition texts_fit (env : Env) (o : Order) : bool :=
  forallb fits (written_texts env o).

Lemma formatted_cell_fits (env : Env) (d : option Date) :
  cell_fits (cell_of (formatted env d)) = fits (display env d).
Proof. destruct d; reflexivity. Qed.

Lemma archivedBy_cell_fits (a : option string) :
  cell_fits (cell_of (opt_text_val a))
  = fits match a with
         | Some s => s
         | None => ""
         end.
Proof. destruct a; reflexivity. Qed.

Lemma flag_cell_fits (b : bool) : cell_fits (cell_of (flag b)) = true.
Proof. destruct b; reflexivity. Qed.

Lemma sheetLine_fits (env : Env) (o : Order) :
  forallb cell_fits (sheetLine (excelRow env o)) = texts_fit env o.
Proof.
  unfold sheetLine, COLS, texts_fit, written_texts. cbn [map].
  lazy beta iota zeta delta [excelRow obj_get String.eqb Ascii.eqb Bool.eqb].
  cbn [forallb]. rewrite !formatted_cell_fits, archivedBy_cell_fits, !flag_cell_fits.
  cbn [cell_of cell_fits].
  repeat match goal with
         | |- context [(N.of_nat (js_length ?s) <=? TEXT_LIMIT)%N] =>
             change (N.of_nat (js_length s) <=? TEXT_LIMIT)%N with (fits s)
         end.
  repeat match goal with
         | |- context [fits ?s] =>
             let b := fresh "b" in
             generalize (fits s); intros b
         end.
  apply eq_true_iff_eq. rewrite !andb_true_iff. tauto.
Qed.

Lemma sheet_fits_lines (env : Env) (os : list Order) :
  sheet_fits (map sheetLine (headerRow :: map (excelRow env) os))
  = forallb (texts_fit env) os.
Proof.
  unfold sheet_fits. cbn [map forallb].
  replace (forallb cell_fits (sheetLine headerRow)) with true
    by (vm_compute; reflexivity).
  cbn [andb]. induction os as [|o os IH]; [reflexivity|].
  cbn [map forallb]. now rewrite sheetLine_fits, IH.
Qed.

(** X13. Whatever the orders hold, the workbook that [exportOrdersToExcel]
    hands to [XLSX.writeFile] has one sheet, named Dados_BD, whose first
    line is the 44 labels and which has one line per order after it, in
    order; every line has the same 44 columns A to AR, the [id] in A and
    the document number in B, and a date that is [null] leaves its cell
    empty. The writer accepts the workbook exactly when no text of a line
    (a text field, the JSON text of a mapping, the display string of a
    date) has more than 32767 characters; otherwise it throws and no file
    is written. *)
Theorem exportOrdersToExcel_layout (env : Env) (os : list Order) :
  exists (labels : SheetRow) (lines : list SheetRow),
    exportOrdersToExcel env os = [("Dados_BD", labels :: lines)]
    /\ labels = map snd headerRow
    /\ List.length lines = List.length os
    /\ Forall (fun line => List.length line = 44) (labels :: lines)
    /\ Forall2 (fun o line =>
                  nth 0 line VUndef = VStr (id o)
                  /\ nth 1 line VUndef = VStr (docNr o)
                  /\ (requestedDate o = None -> nth 4 line VNull = VUndef))
         os lines
    /\ ((exists file, xlsx_file (exportOrdersToExcel env os) = Ok file)
        <-> forallb (texts_fit env) os = true)
    /\ (forallb (texts_fit env) os = false ->
        xlsx_file (exportOrdersToExcel env os)
        = Err "Text length must not exceed 32767 characters").
Proof.
  exists (sheetLine headerRow), (map sheetLine (map (excelRow env) os)).
  split; [apply exportOrdersToExcel_sheet|].
  split; [vm_compute; reflexivity|].
  split; [now rewrite !length_map|].
  split; [|split].
  - constructor; [reflexivity|].
    apply Forall_forall. intros line Hl. apply in_map_iff in Hl as [r [<- _]].
    unfold sheetLine. now rewrite length_map.
  - induction os as [|o os IH]; [constructor|].
    cbn [map]. constructor; [|exact IH].
    split; [reflexivity|]. split; [reflexivity|].
    intros Hd. unfold sheetLine, COLS. cbn [map nth].
    lazy beta iota zeta delta [excelRow obj_get String.eqb Ascii.eqb Bool.eqb].
    rewrite Hd. reflexivity.
  - assert (E : xlsx_file (exportOrdersToExcel env os)
                = if forallb (texts_fit env) os
                  then Ok (map (fun s => (fst s, map (map file_cell) (snd s)))
                             (exportOrdersToExcel env os))
                  else Err "Text length must not exceed 32767 characters").
    { unfold xlsx_file. rewrite exportOrdersToExcel_sheet at 1.
      cbn [forallb snd]. rewrite andb_true_r. now rewrite sheet_fits_lines. }
    rewrite E. destruct (forallb (texts_fit env) os).
    + split; [|discriminate]. split; [reflexivity | eexists; reflexivity].
    + split; [|reflexivity]. split; [intros [file H]|]; discriminate.
Qed.

(** *** Reading back what was written, whatever else the orders hold *)

Lemma stringify_object_truthy (body : string) :
  truthy (VStr ("{" ++ body)) = true.
Proof. reflexivity. Qed.

Lemma json_cell_text_map (env : Env) (m : list (string * string)) :
  exists fields,
    json_cell env (VStr (JSON_stringify env (text_map_val m))) = Ok (VObj fields).
Proof.
  unfold json_cell, JSON_parse. cbn [js_String].
  rewrite stringify_text_map. rewrite stringify_object_truthy.
  rewrite JSON_parse_written; [eexists; reflexivity|].
  apply Forall_forall. intros mem Hin.
  apply in_map_iff in Hin as [[k v] [<- _]].
  unfold text_member, reads_back. cbn [fst snd].
  intros fuel rest. apply parse_value_quote.
Qed.

Lemma json_cell_date_map (env : Env) (m : list (string * option Date)) :
  exists fields,
    json_cell env (VStr (JSON_stringify env (date_map_val m))) = Ok (VObj fields).
Proof.
  unfold json_cell, JSON_parse. cbn [js_String].
  rewrite stringify_date_map. rewrite stringify_object_truthy.
  rewrite JSON_parse_written; [eexists; reflexivity|].
  apply Forall_forall. intros mem Hin.
  apply in_map_iff in Hin as [kv [<- _]]. apply date_member_reads_back.
Qed.

(** The texts of an order are kept by the file. *)
Definition texts_kept (env : Env) (o : Order) : Prop :=
  Forall (fun s => kept_text s = true) (written_texts env o).

(** The guard of the import on the document number of an order. *)
Definition headerLike (o : Order) : bool :=
  (docNr o =? "") || includes (toLowerCase (docNr o)) "doc".

Lemma written_row_skipped (env : Env) (o : Order) :
  texts_kept env o ->
  skipped_row env (read_row (excelRow env o)) = headerLike o.
Proof.
  intros H. unfold texts_kept, written_texts in H. split_Forall.
  unfold skipped_row, headerLike.
  rewrite read_row_get by (apply In_COLS; reflexivity).
  written_cells. rewrite written_text by assumption.
  cbn [truthy js_String]. now rewrite negb_involutive.
Qed.

Lemma excelOrder_written_ok (env : Env) (o : Order) :
  texts_kept env o ->
  exists obj,
    excelOrder env (read_row (excelRow env o)) = Ok obj
    /\ obj_get obj "docNr" = VStr (trim (docNr o))
    /\ obj_get obj "clientName" = VStr (trim (clientName o)).
Proof.
  intros H. unfold texts_kept, written_texts in H. split_Forall.
  unfold excelOrder.
  rewrite (excelOrderFrom_ext env (obj_get (read_row (excelRow env o)))
             (written_cell (excelRow env o)))
    by (intros c Hc; apply read_row_get, In_COLS, Hc).
  unfold excelOrderFrom. written_cells.
  rewrite !written_text by assumption.
  destruct (json_cell_text_map env (sectorObservations o)) as [a Ha].
  destruct (json_cell_date_map env (sectorPredictedDates o)) as [b Hb].
  destruct (json_cell_text_map env (sectorStopReasons o)) as [c Hc].
  rewrite Ha, Hb, Hc. cbn [bind truthy hydrate_keys].
  eexists. split; [reflexivity|].
  read_fields. unfold text_of, js_or. cbn [truthy].
  split; [reflexivity|].
  destruct (clientName o =? "") eqn:E; cbn [negb js_String]; [|reflexivity].
  apply String.eqb_eq in E. now rewrite E.
Qed.

Lemma excelRows_written_ok (env : Env) (os : list Order) :
  Forall (texts_kept env) os ->
  exists mapped,
    excelRows env (map (fun o => read_row (excelRow env o)) os) = Ok mapped
    /\ Forall2 (fun o obj =>
                  obj_get obj "docNr" = VStr (trim (docNr o))
                  /\ obj_get obj "clientName" = VStr (trim (clientName o)))
         (filter (fun o => negb (headerLike o)) os) mapped.
Proof.
  induction 1 as [|o os Ho _ [mapped [Hm Hf]]].
  - exists []. split; [reflexivity | constructor].
  - cbn [map excelRows filter]. rewrite (written_row_skipped env o Ho).
    destruct (headerLike o); cbn [negb].
    + exists mapped. split; assumption.
    + destruct (excelOrder_written_ok env o Ho) as (obj & Hobj & Hd).
      exists (obj :: mapped). rewrite Hobj, Hm.
      split; [reflexivity | now constructor].
Qed.

(** X28. When the file keeps the texts that are written (the text fields,
    the JSON texts of the mappings and the display strings of the dates
    have at most 32767 characters, no control character and no [_xHHHH_]
    sequence), the workbook that [exportOrdersToExcel] writes is read by
    [parseExcelFile] without an error, whatever else the orders hold (texts
    with white space around them, empty ids, any number, repeated keys in a
    mapping, invalid dates): the JSON cells that are written always parse.
    The headers are the label row, and there is one order, in order, for
    each exported order whose document number is not empty and does not
    contain "doc" in any letter case, with the document number and the
    client name of its original, trimmed. *)
Theorem exportOrdersToExcel_then_parse (env : Env) (os : list Order) :
  Forall (texts_kept env) os ->
  exists imported : Imported,
    parseExcelFile env (xlsx_file (exportOrdersToExcel env os)) = Ok imported
    /\ headers imported = headerRow
    /\ Forall2 (fun o obj =>
                  obj_get obj "docNr" = VStr (trim (docNr o))
                  /\ obj_get obj "clientName" = VStr (trim (clientName o)))
         (filter (fun o => negb (headerLike o)) os) (orders imported).
Proof.
  intros Hall.
  destruct (excelRows_written_ok env os Hall) as [mapped [Hm Hf]].
  exists (mkImported mapped headerRow). split; [|split; [reflexivity | exact Hf]].
  unfold parseExcelFile, xlsx_file. rewrite (exported_fits env os Hall).
  cbn [bind]. rewrite exported_rows, Hm. reflexivity.
Qed.

(** An order with white space around its texts, no [id], a quantity that
    is not a number, a key written twice in a mapping and a date that is
    not valid; and an order whose document number is a repeated header. *)
Definition roughOrder : Order :=
  {| id := ""; docNr := " ENC-6 "; clientCode := "";
     clientName := "  CLIENTE F"; comercial := "";
     issueDate := Some Utc.invalid; requestedDate := None;
     itemNr := nan; po := ""; articleCode := ""; reference := "";
     colorCode := ""; colorDesc := ""; size := ""; family := "";
     sizeDesc := ""; ean := ""; qtyRequested := nan; dataTec := None;
     felpoCruQty := 0%float; felpoCruDate := None; tinturariaQty := 0%float;
     tinturariaDate := None; confRoupoesQty := 0%float; confFelposQty := 0%float;
     confDate := None; embAcabQty := 0%float; armExpDate := None;
     stockCxQty := 0%float; dataEnt := None; qtyBilled := 0%float;
     qtyOpen := 0%float;
     sectorObservations := [("tecelagem", "a"); ("tecelagem", "b")];
     sectorPredictedDates := [("tecelagem", Some Utc.invalid)];
     priority := 7%float; isManual := false; sectorStopReasons := [];
     dataEspecial := None; dataPrinter := None; dataDebuxo := None;
     dataAmostras := None; dataBordados := None; isArchived := false;
     archivedAt := None; archivedBy := Some "" |}.

Lemma exportOrdersToExcel_then_parse_witness :
  exists imported : Imported,
    parseExcelFile demoEnv
      (xlsx_file (exportOrdersToExcel demoEnv [roughOrder; docOrder; demoOrder]))
    = Ok imported
    /\ map (fun obj => (obj_get obj "docNr", obj_get obj "clientName"))
         (orders imported)
       = [(VStr "ENC-6", VStr "CLIENTE F"); (VStr "ENC-2", VStr "CLIENTE B")].
Proof.
  destruct (exportOrdersToExcel_then_parse demoEnv [roughOrder; docOrder; demoOrder])
    as (imported & Hp & _ & Hf).
  - repeat match goal with
           | |- Forall _ (_ :: _) => apply Forall_cons
           | |- Forall _ [] => apply Forall_nil
           | |- texts_kept _ _ => unfold texts_kept, written_texts
           end; vm_compute; reflexivity.
  - exists imported. split; [exact Hp|].
    assert (Ef : filter (fun o => negb (headerLike o)) [roughOrder; docOrder; demoOrder]
                 = [roughOrder; demoOrder]) by (vm_compute; reflexivity).
    rewrite Ef in Hf.
    inversion Hf as [|o1 b1 l1 l1' [Ha Ha'] Hf1]; subst.
    inversion Hf1 as [|o2 b2 l2 l2' [Hb Hb'] Hf2]; subst.
    inversion Hf2; subst.
    cbn [map]. rewrite Ha, Ha', Hb, Hb'. vm_compute. reflexivity.
Defined.

(** ** The cells of the custom export *)

Ltac column_cell :=
  lazy beta iota zeta
    delta [getColumnValue String.eqb Ascii.eqb Bool.eqb startsWith prefix
           replace_str drop length order_field order_to_obj obj_get existsb
           dateFields text_or_empty];
  repeat match goal with
         | |- context [date_val ?d] => destruct d; cbn [date_val truthy as_date andb]
         | |- context [opt_text_val ?a] => destruct a; cbn [opt_text_val]
         | |- context [match assoc_get ?m ?k with _ => _ end] =>
             destruct (assoc_get m k)
         end;
  first [ left; eexists; reflexivity | right; eexists; reflexivity ].

(** X14. For every column of the registry other than Estado, the cell that
    [getColumnValue] gives is a text or a number: a date is given as the
    display string of [formatDate], a flag as Sim or Não, the priority as
    Alta, Média, Baixa or nothing, and a value that is [null] or missing as
    the empty text. No date object and no [null] reaches the sheet. *)
Theorem getColumnValue_text_or_number (env : Env) (o : Order) (k : string) :
  In k (map key ALL_EXPORT_COLUMNS) -> k <> "estado" ->
  (exists s, getColumnValue env o k = VStr s)
  \/ (exists n, getColumnValue env o k = VNum n).
Proof.
  intros Hin Hne. cbn [map key ALL_EXPORT_COLUMNS] in Hin.
  repeat (destruct Hin as [<- | Hin]; [try (now elim Hne); column_cell|]).
  destruct Hin.
Qed.

Lemma getColumnValue_text_or_number_witness :
  (exists s, getColumnValue demoEnv (lineOf 40 0 0 0 (Some yesterday))%float
               "requestedDate" = VStr s)
  \/ (exists n, getColumnValue demoEnv (lineOf 40 0 0 0 (Some yesterday))%float
                  "requestedDate" = VNum n).
Proof.
  apply (getColumnValue_text_or_number demoEnv
           (lineOf 40 0 0 0 (Some yesterday))%float "requestedDate").
  - cbn. tauto.
  - discriminate.
Defined.

(** ** The browser database *)

Definition ALL_STORES : list string :=
  [ STORE_HANDLES; STORE_ORDERS; STORE_HEADERS; STORE_STOP_REASONS;
    STORE_USERS; STORE_EXPORT_COLUMNS ].

(** A database that [initDB] opens: none yet or one of an older version, or
    one of the current version with its six stores. *)
Definition complete (db : IDBDatabase) : Prop :=
  version db = DB_VERSION
  /\ forallb (has_store (objectStores db)) ALL_STORES = true.

Definition openable (db : IDBDatabase) : Prop :=
  (version db < DB_VERSION)%Z \/ complete db.

Definition stores_read (stores : list (string * ObjectStore)) (name : string)
  : ObjectStore :=
  match assoc_get stores name with
  | Some rs => rs
  | None => []
  end.

Lemma has_store_app (s t : list (string * ObjectStore)) (m : string) :
  has_store (s ++ t) m = has_store s m || has_store t m.
Proof. unfold has_store. now rewrite map_app, existsb_app. Qed.

Lemma assoc_get_absent {A : Type} (s : list (string * A)) (m : string) :
  existsb (String.eqb m) (map fst s) = false -> assoc_get s m = None.
Proof.
  induction s as [|[n rs] s IH]; [reflexivity|].
  cbn [map fst existsb assoc_get]. rewrite orb_false_iff. intros [E H].
  rewrite String.eqb_sym, E. apply IH, H.
Qed.

Lemma assoc_get_app {A : Type} (s t : list (string * A)) (m : string) :
  assoc_get (s ++ t) m
  = match assoc_get s m with
    | Some x => Some x
    | None => assoc_get t m
    end.
Proof.
  induction s as [|[n rs] s IH]; [reflexivity|].
  cbn [app assoc_get]. destruct (n =? m); [reflexivity | exact IH].
Qed.

Lemma createObjectStore_read (s : list (string * ObjectStore)) (n m : string) :
  stores_read (createObjectStore s n) m = stores_read s m.
Proof.
  unfold createObjectStore, stores_read.
  destruct (has_store s n) eqn:E; [reflexivity|].
  rewrite assoc_get_app. destruct (assoc_get s m); [reflexivity|].
  cbn [assoc_get]. destruct (n =? m); reflexivity.
Qed.

Lemma createObjectStore_has (s : list (string * ObjectStore)) (n m : string) :
  has_store (createObjectStore s n) m = has_store s m || (m =? n).
Proof.
  unfold createObjectStore. destruct (has_store s n) eqn:E.
  - destruct (m =? n) eqn:Em; [|now rewrite orb_false_r].
    apply String.eqb_eq in Em. subst m. now rewrite E.
  - rewrite has_store_app. unfold has_store at 2. cbn. now rewrite orb_false_r.
Qed.

Lemma onupgradeneeded_read (s : list (string * ObjectStore)) (m : string) :
  stores_read (onupgradeneeded s) m = stores_read s m.
Proof.
  unfold onupgradeneeded. cbn [fold_left].
  now rewrite !createObjectStore_read.
Qed.

Lemma onupgradeneeded_complete (s : list (string * ObjectStore)) :
  forallb (has_store (onupgradeneeded s)) ALL_STORES = true.
Proof.
  unfold onupgradeneeded, ALL_STORES. cbn [fold_left forallb].
  rewrite !createObjectStore_has.
  rewrite !String.eqb_refl.
  repeat rewrite orb_true_r. reflexivity.
Qed.

(** Opening: the database that the functions work on holds what the
    database held. *)
Lemma initDB_openable (db : IDBDatabase) :
  openable db ->
  exists db', initDB db = Ok db' /\ complete db'
              /\ forall m, objectStore db' m = objectStore db m.
Proof.
  intros [Hlt | [Hv Hs]]; unfold initDB, DB_VERSION in *.
  - destruct (5 <? version db)%Z eqn:E1; [apply Z.ltb_lt in E1; lia|].
    apply Z.ltb_lt in Hlt. rewrite Hlt.
    eexists. split; [reflexivity|]. split.
    + split; [reflexivity | apply onupgradeneeded_complete].
    + intros m. apply onupgradeneeded_read.
  - rewrite Hv. cbn. exists db. repeat split; [exact Hv | exact Hs].
Qed.

Lemma initDB_complete (db : IDBDatabase) : complete db -> initDB db = Ok db.
Proof. intros [Hv _]. unfold initDB. rewrite Hv. reflexivity. Qed.

Lemma complete_has (db : IDBDatabase) (n : string) :
  complete db -> In n ALL_STORES -> has_store (objectStores db) n = true.
Proof.
  intros [_ H] Hin. rewrite forallb_forall in H. exact (H n Hin).
Qed.

Lemma in_transaction_complete {A : Type} (names : list string)
    (body : IDBDatabase -> promise A * IDBDatabase) (db : IDBDatabase) :
  complete db -> incl names ALL_STORES -> in_transaction names body db = body db.
Proof.
  intros Hc Hn. unfold in_transaction. rewrite (initDB_complete db Hc).
  assert (H : forallb (has_store (objectStores db)) names = true).
  { apply forallb_forall. intros n Hin. apply complete_has; auto. }
  now rewrite H.
Qed.

Lemma in_transaction_openable {A : Type} (names : list string)
    (body : IDBDatabase -> promise A * IDBDatabase) (db : IDBDatabase) :
  openable db -> incl names ALL_STORES ->
  exists db', complete db' /\ (forall m, objectStore db' m = objectStore db m)
              /\ in_transaction names body db = body db'.
Proof.
  intros Ho Hn. destruct (initDB_openable db Ho) as (db' & Hi & Hc & Hr).
  exists db'. split; [exact Hc|]. split; [exact Hr|].
  unfold in_transaction. rewrite Hi.
  assert (H : forallb (has_store (objectStores db')) names = true).
  { apply forallb_forall. intros n Hin. apply complete_has; auto. }
  now rewrite H.
Qed.

(** *** Updating one store *)

Lemma update_stores_has (n : string) (f : ObjectStore -> ObjectStore)
    (s : list (string * ObjectStore)) (m : string) :
  has_store (update_stores n f s) m = has_store s m.
Proof.
  unfold has_store. f_equal.
  induction s as [|[k rs] s IH]; [reflexivity|].
  cbn [update_stores]. destruct (k =? n); cbn [map fst]; [reflexivity|].
  now rewrite IH.
Qed.

Lemma update_store_complete (n : string) (f : ObjectStore -> ObjectStore)
    (db : IDBDatabase) :
  complete db -> complete (update_store n f db).
Proof.
  intros [Hv Hs]. split; [exact Hv|]. cbn [objectStores update_store].
  apply forallb_forall. intros m Hm. rewrite update_stores_has.
  rewrite forallb_forall in Hs. exact (Hs m Hm).
Qed.

Lemma update_store_same (n : string) (f : ObjectStore -> ObjectStore)
    (db : IDBDatabase) :
  has_store (objectStores db) n = true ->
  objectStore (update_store n f db) n = f (objectStore db n).
Proof.
  unfold objectStore, update_store, has_store. cbn [objectStores].
  induction (objectStores db) as [|[k rs] s IH]; [discriminate|].
  cbn [map fst existsb update_stores assoc_get].
  rewrite (String.eqb_sym n k).
  destruct (k =? n) eqn:E; cbn [assoc_get]; rewrite E; [reflexivity|].
  cbn [orb]. exact IH.
Qed.

Lemma update_store_other (n m : string) (f : ObjectStore -> ObjectStore)
    (db : IDBDatabase) :
  n <> m -> objectStore (update_store n f db) m = objectStore db m.
Proof.
  intros Hne. unfold objectStore, update_store. cbn [objectStores].
  induction (objectStores db) as [|[k rs] s IH]; [reflexivity|].
  cbn [update_stores assoc_get].
  destruct (k =? n) eqn:E; cbn [assoc_get].
  - apply String.eqb_eq in E. subst k.
    apply String.eqb_neq in Hne. now rewrite Hne.
  - destruct (k =? m); [reflexivity | exact IH].
Qed.

(** *** Records *)

Lemma store_get_delete (k k' : string) (rs : ObjectStore) :
  store_get k' (store_delete k rs) = if k =? k' then VUndef else store_get k' rs.
Proof.
  unfold store_get, store_delete.
  induction rs as [|[k0 v0] rs IH]; cbn [filter obj_get fst].
  - destruct (k =? k'); reflexivity.
  - destruct (k0 =? k) eqn:E0; cbn [negb].
    + rewrite IH. apply String.eqb_eq in E0. subst k0.
      destruct (k =? k'); reflexivity.
    + cbn [obj_get]. rewrite IH.
      destruct (k0 =? k') eqn:E1; [|reflexivity].
      apply String.eqb_eq in E1. subst k'.
      rewrite String.eqb_sym, E0. reflexivity.
Qed.

Lemma store_get_insert (k k' : string) (v : JsVal) (rs : ObjectStore) :
  ~ In k (map fst rs) ->
  store_get k' (store_insert k v rs) = if k =? k' then v else store_get k' rs.
Proof.
  unfold store_get. induction rs as [|[k0 v0] rs IH]; cbn [store_insert obj_get].
  - reflexivity.
  - cbn [map fst In]. intros H.
    assert (E0 : (k0 =? k) = false) by (apply String.eqb_neq; tauto).
    destruct (String.ltb k k0); cbn [obj_get].
    + reflexivity.
    + rewrite IH by tauto. destruct (k0 =? k') eqn:E1; [|reflexivity].
      apply String.eqb_eq in E1. subst k'.
      rewrite String.eqb_sym, E0. reflexivity.
Qed.

Lemma store_delete_key (k : string) (rs : ObjectStore) :
  ~ In k (map fst (store_delete k rs)).
Proof.
  unfold store_delete. intros H. apply in_map_iff in H as [[k0 v0] [Hk Hin]].
  apply filter_In in Hin as [_ Hne]. cbn [fst] in *. subst k0.
  now rewrite String.eqb_refl in Hne.
Qed.

Lemma store_get_put (k k' : string) (v : JsVal) (rs : ObjectStore) :
  store_get k' (store_put k v rs) = if k =? k' then v else store_get k' rs.
Proof.
  unfold store_put. rewrite store_get_insert by apply store_delete_key.
  rewrite store_get_delete. destruct (k =? k'); reflexivity.
Qed.

Lemma In_store_insert (k : string) (v : JsVal) (rs : ObjectStore)
    (r : string * JsVal) :
  In r (store_insert k v rs) <-> r = (k, v) \/ In r rs.
Proof.
  induction rs as [|[k0 v0] rs IH]; cbn [store_insert].
  - cbn. intuition congruence.
  - destruct (String.ltb k k0); cbn [In]; [intuition congruence|].
    rewrite IH. cbn [In]. intuition congruence.
Qed.

Lemma In_store_put (k : string) (v : JsVal) (rs : ObjectStore)
    (r : string * JsVal) :
  In r (store_put k v rs) <-> r = (k, v) \/ (In r rs /\ fst r <> k).
Proof.
  unfold store_put, store_delete. rewrite In_store_insert, filter_In.
  rewrite negb_true_iff, String.eqb_neq. tauto.
Qed.

Lemma incl_stores (names : list string) :
  forallb (fun n => existsb (String.eqb n) ALL_STORES) names = true ->
  incl names ALL_STORES.
Proof.
  intros H n Hn. rewrite forallb_forall in H.
  apply existsb_eqb_In. exact (H n Hn).
Qed.

Ltac stores := apply incl_stores; reflexivity.
Ltac a_store := apply existsb_eqb_In; reflexivity.

(** Opens the transaction of the goal on an openable database. *)
Ltac open_transaction Ho db1 Hc Hr :=
  match goal with
  | |- context [in_transaction ?names ?body ?db] =>
      destruct (in_transaction_openable names body db Ho) as (db1 & Hc & Hr & ->);
      [stores|]
  end.

(** *** The orders *)

Lemma rehydrated (env : Env) (d : option Date) :
  (if truthy (date_val d) then VDate (newDate env (date_val d)) else VNull)
  = date_val d.
Proof. destruct d; reflexivity. Qed.

Lemma hydratedOrder_order (env : Env) (o : Order) :
  hydratedOrder env (VObj (order_to_obj o)) = Some (order_to_obj o).
Proof.
  unfold hydratedOrder, property, spread, storedDateFields. cbn [fold_left].
  lazy beta iota zeta
    delta [order_to_obj obj_get obj_set String.eqb Ascii.eqb Bool.eqb].
  rewrite !rehydrated. reflexivity.
Qed.

Lemma hydratedOrders_orders (env : Env) (os : list Order) :
  hydratedOrders env (map (fun o => VObj (order_to_obj o)) os)
  = Some (map order_to_obj os).
Proof.
  induction os as [|o os IH]; [reflexivity|].
  cbn [map hydratedOrders]. now rewrite hydratedOrder_order, IH.
Qed.

(** What [loadOrdersFromDB] makes of the two records it reads. *)
Definition loaded (env : Env) (reqOrders reqHeaders : JsVal)
  : promise (option StoredData) :=
  if truthy reqOrders then
    match reqOrders with
    | VArr items =>
        match hydratedOrders env items with
        | Some hydrated =>
            Fulfilled (Some (mkStoredData hydrated (js_or reqHeaders (VObj []))))
        | None => Pending
        end
    | _ => Pending
    end
  else Fulfilled None.

Lemma loadOrdersFromDB_complete (env : Env) (db : IDBDatabase) :
  complete db ->
  loadOrdersFromDB env db
  = (loaded env (store_get "main_list" (objectStore db STORE_ORDERS))
       (store_get "main_headers" (objectStore db STORE_HEADERS)), db).
Proof.
  intros Hc. unfold loadOrdersFromDB.
  rewrite in_transaction_complete by (assumption || stores).
  unfold loaded. cbv zeta.
  destruct (truthy (store_get "main_list" (objectStore db STORE_ORDERS)));
    [|reflexivity].
  destruct (store_get "main_list" (objectStore db STORE_ORDERS)); try reflexivity.
  destruct (hydratedOrders env items); reflexivity.
Qed.

Lemma loadOrdersFromDB_openable (env : Env) (db : IDBDatabase) :
  openable db ->
  fst (loadOrdersFromDB env db)
  = loaded env (store_get "main_list" (objectStore db STORE_ORDERS))
      (store_get "main_headers" (objectStore db STORE_HEADERS)).
Proof.
  intros Ho. unfold loadOrdersFromDB.
  open_transaction Ho db' Hc Hr.
  cbv zeta. rewrite !Hr. unfold loaded.
  destruct (truthy (store_get "main_list" (objectStore db STORE_ORDERS)));
    [|reflexivity].
  destruct (store_get "main_list" (objectStore db STORE_ORDERS)); try reflexivity.
  destruct (hydratedOrders env items); reflexivity.
Qed.

(** X15. The orders and headers saved in the browser database are the ones
    that are loaded from it, whatever the orders hold: every field of every
    order, invalid dates and [NaN] included, and an empty list as an empty
    list. *)
Theorem saveOrdersToDB_then_load (env : Env) (db : IDBDatabase)
    (os : list Order) (hs : list (string * string)) :
  openable db ->
  fst (then_ (saveOrdersToDB os hs) (fun _ => loadOrdersFromDB env) db)
  = Fulfilled (Some (mkStoredData (map order_to_obj os) (headers_to_obj hs))).
Proof.
  intros Ho. unfold then_, saveOrdersToDB.
  open_transaction Ho db' Hc Hr.
  cbv zeta.
  rewrite loadOrdersFromDB_complete by (do 2 apply update_store_complete; exact Hc).
  cbn [fst].
  rewrite (update_store_other STORE_HEADERS STORE_ORDERS) by discriminate.
  rewrite update_store_same by (apply complete_has; [exact Hc | a_store]).
  rewrite update_store_same
    by (apply complete_has; [apply update_store_complete; exact Hc | a_store]).
  rewrite !store_get_put. cbn [String.eqb Ascii.eqb Bool.eqb].
  unfold loaded. cbn [truthy]. rewrite hydratedOrders_orders. reflexivity.
Qed.

Lemma noDatabase_openable : openable noDatabase.
Proof. left. reflexivity. Qed.

Lemma saveOrdersToDB_then_load_witness :
  fst (then_ (saveOrdersToDB [lineOf 40 0 0 0 (Some (mkDate nan))]%float
                [("A", "ID Interno")])
         (fun _ => loadOrdersFromDB demoEnv) noDatabase)
  = Fulfilled
      (Some (mkStoredData
               (map order_to_obj [lineOf 40 0 0 0 (Some (mkDate nan))]%float)
               (headers_to_obj [("A", "ID Interno")]))).
Proof.
  apply (saveOrdersToDB_then_load demoEnv noDatabase
           [lineOf 40 0 0 0 (Some (mkDate nan))]%float [("A", "ID Interno")]).
  exact noDatabase_openable.
Defined.

(** X16. After [clearOrdersFromDB], [loadOrdersFromDB] resolves with [null],
    whatever was saved before. *)
Theorem clearOrdersFromDB_then_load (env : Env) (db : IDBDatabase) :
  openable db ->
  fst (then_ clearOrdersFromDB (fun _ => loadOrdersFromDB env) db) = Fulfilled None.
Proof.
  intros Ho. unfold then_, clearOrdersFromDB.
  open_transaction Ho db' Hc Hr.
  cbv zeta.
  rewrite loadOrdersFromDB_complete by (do 2 apply update_store_complete; exact Hc).
  cbn [fst].
  rewrite (update_store_other STORE_HEADERS STORE_ORDERS) by discriminate.
  rewrite update_store_same by (apply complete_has; [exact Hc | a_store]).
  reflexivity.
Qed.

Lemma saved_openable (db : IDBDatabase) (os : list Order)
    (hs : list (string * string)) :
  openable db -> openable (snd (saveOrdersToDB os hs db)).
Proof.
  intros Ho. unfold saveOrdersToDB.
  open_transaction Ho db' Hc Hr.
  right. cbn [snd]. do 2 apply update_store_complete. exact Hc.
Qed.

Lemma clearOrdersFromDB_then_load_witness :
  fst (then_ clearOrdersFromDB (fun _ => loadOrdersFromDB demoEnv)
         (snd (saveOrdersToDB [lineOf 40 0 0 0 None]%float [] noDatabase)))
  = Fulfilled None.
Proof.
  apply (clearOrdersFromDB_then_load demoEnv
           (snd (saveOrdersToDB [lineOf 40 0 0 0 None]%float [] noDatabase))).
  apply saved_openable. exact noDatabase_openable.
Defined.

(** *** What the other functions leave alone *)

Lemma update_then_load (env : Env) (db : IDBDatabase) {A : Type} (a : A)
    (n : string) (f : ObjectStore -> ObjectStore) :
  openable db -> In n ALL_STORES -> n <> STORE_ORDERS -> n <> STORE_HEADERS ->
  fst (then_ (in_transaction [n] (fun db => (Fulfilled a, update_store n f db)))
         (fun _ => loadOrdersFromDB env) db)
  = fst (loadOrdersFromDB env db).
Proof.
  intros Ho Hn H1 H2. rewrite (loadOrdersFromDB_openable env db Ho).
  unfold then_.
  destruct (in_transaction_openable [n]
              (fun db => (Fulfilled a, update_store n f db)) db Ho)
    as (db' & Hc & Hr & ->).
  { intros m [<- | []]. exact Hn. }
  rewrite loadOrdersFromDB_complete by (apply update_store_complete; exact Hc).
  cbn [fst]. rewrite !update_store_other by assumption. now rewrite !Hr.
Qed.

(** X17. Saving or deleting a user, saving the stop reasons, the export
    columns or a directory handle changes nothing of what
    [loadOrdersFromDB] resolves with. *)
Theorem loadOrdersFromDB_unaffected (env : Env) (db : IDBDatabase) :
  openable db ->
  (forall u, fst (then_ (saveUserToDB u) (fun _ => loadOrdersFromDB env) db)
             = fst (loadOrdersFromDB env db))
  /\ (forall userId,
        fst (then_ (deleteUserFromDB userId) (fun _ => loadOrdersFromDB env) db)
        = fst (loadOrdersFromDB env db))
  /\ (forall hierarchy,
        fst (then_ (saveStopReasonsToDB hierarchy) (fun _ => loadOrdersFromDB env) db)
        = fst (loadOrdersFromDB env db))
  /\ (forall selectedKeys,
        fst (then_ (saveExportColumnsConfig selectedKeys)
               (fun _ => loadOrdersFromDB env) db)
        = fst (loadOrdersFromDB env db))
  /\ (forall k handle,
        fst (then_ (saveDirectoryHandle k handle) (fun _ => loadOrdersFromDB env) db)
        = fst (loadOrdersFromDB env db)).
Proof.
  intros Ho. repeat split; intros;
    apply (update_then_load env db); try exact Ho; try a_store; discriminate.
Qed.

Lemma loadOrdersFromDB_unaffected_witness :
  fst (then_ (saveExportColumnsConfig ["docNr"; "estado"])
         (fun _ => loadOrdersFromDB demoEnv)
         (snd (saveOrdersToDB [lineOf 40 0 0 0 None]%float [] noDatabase)))
  = Fulfilled (Some (mkStoredData (map order_to_obj [lineOf 40 0 0 0 None]%float)
                       (headers_to_obj []))).
Proof.
  destruct (loadOrdersFromDB_unaffected demoEnv
              (snd (saveOrdersToDB [lineOf 40 0 0 0 None]%float [] noDatabase))
              (saved_openable noDatabase [lineOf 40 0 0 0 None]%float []
                 noDatabase_openable))
    as (_ & _ & _ & H & _).
  rewrite H. reflexivity.
Defined.

(** *** Users *)

(** The [id] of a stored user. *)
Definition user_id (v : JsVal) : JsVal :=
  match v with
  | VObj fields => obj_get fields "id"
  | _ => VUndef
  end.

(** The store of users has in-line keys: the key of a record is the [id]
    of its value. *)
Definition keyed (rs : ObjectStore) : Prop :=
  Forall (fun kv => user_id (snd kv) = VStr (fst kv)) rs.

Lemma loadUsersFromDB_complete (db : IDBDatabase) :
  complete db ->
  loadUsersFromDB db = (Fulfilled (store_getAll (objectStore db STORE_USERS)), db).
Proof.
  intros Hc. unfold loadUsersFromDB.
  now rewrite in_transaction_complete by (assumption || stores).
Qed.

Lemma getAll_put (k : string) (x : JsVal) (rs : ObjectStore) (v : JsVal) :
  keyed rs -> user_id x = VStr k ->
  In v (store_getAll (store_put k x rs))
  <-> v = x \/ (In v (store_getAll rs) /\ user_id v <> VStr k).
Proof.
  intros Hk Hx. unfold store_getAll. rewrite !in_map_iff. split.
  - intros [[k' v'] [<- Hin]]. apply In_store_put in Hin as [E | [Hin Hne]].
    + inversion E; subst. now left.
    + right. unfold keyed in Hk. rewrite Forall_forall in Hk.
      assert (Hkv := Hk _ Hin). cbn [snd fst] in *.
      split; [now exists (k', v')|]. rewrite Hkv. congruence.
  - intros [-> | [[[k' v'] [<- Hin]] Hne]].
    + exists (k, x). split; [reflexivity|]. apply In_store_put. now left.
    + exists (k', v'). split; [reflexivity|]. apply In_store_put. right.
      split; [exact Hin|]. unfold keyed in Hk. rewrite Forall_forall in Hk.
      assert (Hkv := Hk _ Hin). cbn [fst snd] in *.
      rewrite Hkv in Hne. congruence.
Qed.

Lemma getAll_delete (k : string) (rs : ObjectStore) (v : JsVal) :
  keyed rs ->
  In v (store_getAll (store_delete k rs))
  <-> In v (store_getAll rs) /\ user_id v <> VStr k.
Proof.
  intros Hk. unfold store_getAll, store_delete. rewrite !in_map_iff.
  unfold keyed in Hk. rewrite Forall_forall in Hk. split.
  - intros [[k' v'] [<- Hin]]. apply filter_In in Hin as [Hin Hne].
    assert (Hkv := Hk _ Hin). cbn [fst snd] in *.
    split; [now exists (k', v')|]. rewrite Hkv.
    apply negb_true_iff, String.eqb_neq in Hne. congruence.
  - intros [[[k' v'] [<- Hin]] Hne]. exists (k', v'). split; [reflexivity|].
    apply filter_In. split; [exact Hin|].
    assert (Hkv := Hk _ Hin). cbn [fst snd] in *. rewrite Hkv in Hne.
    apply negb_true_iff, String.eqb_neq. congruence.
Qed.

(** X18. After [saveUserToDB], the users that [loadUsersFromDB] lists are
    the saved user and the users listed before whose [id] is another one:
    a user of the same [id] is replaced, never listed twice. After
    [deleteUserFromDB], they are the users listed before whose [id] is not
    the deleted one; deleting an [id] that no user has changes nothing. *)
Theorem users_saved_and_deleted (db : IDBDatabase) :
  openable db -> keyed (objectStore db STORE_USERS) ->
  let before := store_getAll (objectStore db STORE_USERS) in
  (forall u, exists users,
      fst (then_ (saveUserToDB u) (fun _ => loadUsersFromDB) db) = Fulfilled users
      /\ forall v, In v users
                   <-> v = user_to_obj u
                       \/ (In v before /\ user_id v <> VStr (User.id u)))
  /\ (forall userId, exists users,
        fst (then_ (deleteUserFromDB userId) (fun _ => loadUsersFromDB) db)
        = Fulfilled users
        /\ forall v, In v users <-> In v before /\ user_id v <> VStr userId).
Proof.
  intros Ho Hk before. split.
  - intros u. unfold then_, saveUserToDB.
    open_transaction Ho db' Hc Hr.
    rewrite loadUsersFromDB_complete by (apply update_store_complete; exact Hc).
    cbn [fst]. eexists. split; [reflexivity|]. intros v.
    rewrite update_store_same by (apply complete_has; [exact Hc | a_store]).
    rewrite Hr. apply getAll_put; [exact Hk | reflexivity].
  - intros userId. unfold then_, deleteUserFromDB.
    open_transaction Ho db' Hc Hr.
    rewrite loadUsersFromDB_complete by (apply update_store_complete; exact Hc).
    cbn [fst]. eexists. split; [reflexivity|]. intros v.
    rewrite update_store_same by (apply complete_has; [exact Hc | a_store]).
    rewrite Hr. apply getAll_delete. exact Hk.
Qed.

(** A host without [crypto.subtle]. *)
Definition insecureHost : Crypto := mkCrypto None.

Lemma users_saved_and_deleted_witness :
  fst (then_ (saveUserToDB (User.mk "1" "Plan" "Outro nome" "" "viewer" []))
         (fun _ => loadUsersFromDB)
         (snd (initializeDefaultUsers insecureHost noDatabase)))
  = Fulfilled [user_to_obj (User.mk "1" "Plan" "Outro nome" "" "viewer" []);
               user_to_obj (lasaUser insecureHost)].
Proof.
  destruct (users_saved_and_deleted
              (snd (initializeDefaultUsers insecureHost noDatabase)))
    as [Hsave _].
  - right. split; reflexivity.
  - repeat constructor.
  - destruct (Hsave (User.mk "1" "Plan" "Outro nome" "" "viewer" []))
      as (users & Hu & _).
    rewrite Hu. vm_compute in Hu. injection Hu as <-. reflexivity.
Defined.

(** X19. On a database without users, [initializeDefaultUsers] creates the
    administrator Plan and the viewer Lasa and resolves with the two; from
    then on the two are what [loadUsersFromDB] lists and what a further
    call resolves with, and a further call writes nothing. *)
Theorem initializeDefaultUsers_once (crypto : Crypto) (db : IDBDatabase) :
  openable db -> objectStore db STORE_USERS = [] ->
  let defaults := [user_to_obj (planUser crypto); user_to_obj (lasaUser crypto)] in
  exists db1,
    initializeDefaultUsers crypto db = (Fulfilled defaults, db1)
    /\ loadUsersFromDB db1 = (Fulfilled defaults, db1)
    /\ initializeDefaultUsers crypto db1 = (Fulfilled defaults, db1).
Proof.
  intros Ho Hempty defaults.
  assert (Hput : forall rs,
             rs = [] ->
             store_getAll (store_put "2" (user_to_obj (lasaUser crypto))
                             (store_put "1" (user_to_obj (planUser crypto)) rs))
             = defaults).
  { intros rs ->. reflexivity. }
  unfold initializeDefaultUsers at 1, then_ at 1, loadUsersFromDB at 1.
  open_transaction Ho db' Hc Hr.
  rewrite Hr, Hempty. cbn [store_getAll map].
  unfold then_, saveUserToDB.
  rewrite in_transaction_complete by (assumption || stores).
  rewrite in_transaction_complete
    by (try apply update_store_complete; assumption || stores).
  cbn [User.id planUser lasaUser].
  set (db1 := update_store STORE_USERS _ (update_store STORE_USERS _ db')).
  assert (Hc1 : complete db1) by (do 2 apply update_store_complete; exact Hc).
  assert (Hu1 : store_getAll (objectStore db1 STORE_USERS) = defaults).
  { unfold db1.
    rewrite update_store_same
      by (apply complete_has; [apply update_store_complete; exact Hc | a_store]).
    rewrite update_store_same by (apply complete_has; [exact Hc | a_store]).
    apply Hput. now rewrite Hr. }
  exists db1. split; [reflexivity|].
  split.
  - rewrite loadUsersFromDB_complete by exact Hc1. now rewrite Hu1.
  - unfold initializeDefaultUsers, then_.
    rewrite loadUsersFromDB_complete by exact Hc1. rewrite Hu1. reflexivity.
Qed.

Lemma initializeDefaultUsers_once_witness :
  exists db1,
    initializeDefaultUsers insecureHost noDatabase
    = (Fulfilled [user_to_obj (planUser insecureHost);
                  user_to_obj (lasaUser insecureHost)], db1)
    /\ loadUsersFromDB db1
       = (Fulfilled [user_to_obj (planUser insecureHost);
                     user_to_obj (lasaUser insecureHost)], db1)
    /\ initializeDefaultUsers insecureHost db1
       = (Fulfilled [user_to_obj (planUser insecureHost);
                     user_to_obj (lasaUser insecureHost)], db1).
Proof.
  apply (initializeDefaultUsers_once insecureHost noDatabase).
  - exact noDatabase_openable.
  - reflexivity.
Defined.

(** *** Settings *)

(** X20. The export columns, the stop reasons and a directory handle that
    are saved are the ones read afterwards, and the handle of one directory
    does not replace that of the other; a setting that was never saved
    reads as [null] (the columns, the stop reasons). *)
Theorem settings_saved_and_loaded (db : IDBDatabase) :
  openable db ->
  (forall selectedKeys,
      fst (then_ (saveExportColumnsConfig selectedKeys)
             (fun _ => loadExportColumnsConfig) db)
      = Fulfilled (VArr (map VStr selectedKeys)))
  /\ (forall hierarchy,
        fst (then_ (saveStopReasonsToDB hierarchy) (fun _ => loadStopReasonsFromDB) db)
        = Fulfilled (VArr hierarchy))
  /\ (forall k k' handle,
        fst (then_ (saveDirectoryHandle k handle) (fun _ => getDirectoryHandle k') db)
        = if directoryKey k =? directoryKey k' then Fulfilled handle
          else fst (getDirectoryHandle k' db))
  /\ (objectStore db STORE_EXPORT_COLUMNS = [] ->
      fst (loadExportColumnsConfig db) = Fulfilled VNull)
  /\ (objectStore db STORE_STOP_REASONS = [] ->
      fst (loadStopReasonsFromDB db) = Fulfilled VNull).
Proof.
  intros Ho. split; [|split; [|split; [|split]]].
  - intros ks. unfold then_, saveExportColumnsConfig.
    open_transaction Ho db' Hc Hr. unfold loadExportColumnsConfig.
    rewrite in_transaction_complete
      by (try apply update_store_complete; assumption || stores).
    cbn [fst].
    rewrite update_store_same by (apply complete_has; [exact Hc | a_store]).
    rewrite store_get_put. reflexivity.
  - intros h. unfold then_, saveStopReasonsToDB.
    open_transaction Ho db' Hc Hr. unfold loadStopReasonsFromDB.
    rewrite in_transaction_complete
      by (try apply update_store_complete; assumption || stores).
    cbn [fst].
    rewrite update_store_same by (apply complete_has; [exact Hc | a_store]).
    rewrite store_get_put. reflexivity.
  - intros k k' handle. unfold then_, saveDirectoryHandle, getDirectoryHandle at 2.
    open_transaction Ho db' Hc Hr.
    open_transaction Ho db'' Hc' Hr'.
    unfold getDirectoryHandle.
    rewrite in_transaction_complete
      by (try apply update_store_complete; assumption || stores).
    cbn [fst].
    rewrite update_store_same by (apply complete_has; [exact Hc | a_store]).
    rewrite store_get_put, Hr, Hr'.
    destruct (directoryKey k =? directoryKey k'); reflexivity.
  - intros Hempty. unfold loadExportColumnsConfig.
    open_transaction Ho db' Hc Hr. cbn [fst]. now rewrite Hr, Hempty.
  - intros Hempty. unfold loadStopReasonsFromDB.
    open_transaction Ho db' Hc Hr. cbn [fst]. now rewrite Hr, Hempty.
Qed.

Lemma settings_saved_and_loaded_witness :
  fst (then_ (saveExportColumnsConfig DEFAULT_SELECTED_COLUMNS)
         (fun _ => loadExportColumnsConfig) noDatabase)
  = Fulfilled (VArr (map VStr DEFAULT_SELECTED_COLUMNS))
  /\ fst (loadExportColumnsConfig noDatabase) = Fulfilled VNull.
Proof.
  destruct (settings_saved_and_loaded noDatabase noDatabase_openable)
    as (H1 & _ & _ & H4 & _).
  split; [apply H1 | apply H4; reflexivity].
Defined.

(** *** Opening the database *)

(** X27. [initDB] on no database or on a database of an older version
    creates the stores that are missing and keeps every record there is;
    opening again changes nothing. A database of a newer version is
    refused, and the functions then reject without touching it. *)
Theorem initDB_upgrades (env : Env) (db : IDBDatabase) :
  ((version db < DB_VERSION)%Z ->
   exists db',
     initDB db = Ok db'
     /\ version db' = DB_VERSION
     /\ Forall (fun n => has_store (objectStores db') n = true) ALL_STORES
     /\ (forall n, objectStore db' n = objectStore db n)
     /\ initDB db' = Ok db')
  /\ ((DB_VERSION < version db)%Z ->
      initDB db = Err "VersionError"
      /\ loadOrdersFromDB env db = (Rejected "VersionError", db)
      /\ clearOrdersFromDB db = (Rejected "VersionError", db)
      /\ loadUsersFromDB db = (Rejected "VersionError", db)
      /\ forall os hs, saveOrdersToDB os hs db = (Rejected "VersionError", db)).
Proof.
  split.
  - intros Hlt. destruct (initDB_openable db (or_introl Hlt)) as (db' & Hi & Hc & Hr).
    exists db'. split; [exact Hi|]. split; [apply Hc|].
    split; [|split; [exact Hr | apply initDB_complete, Hc]].
    apply Forall_forall. intros n Hn. apply complete_has; assumption.
  - intros Hgt.
    assert (Hi : initDB db = Err "VersionError").
    { unfold initDB. apply Z.ltb_lt in Hgt. now rewrite Hgt. }
    split; [exact Hi|].
    unfold loadOrdersFromDB, clearOrdersFromDB, loadUsersFromDB, saveOrdersToDB,
      in_transaction.
    rewrite Hi. repeat split.
Qed.

(** ** Password hashes *)

Definition is_hex (c : ascii) : bool :=
  let n := code c in
  ((48 <=? n) && (n <=? 57) || (97 <=? n) && (n <=? 102))%N.

Fixpoint all_hex (s : string) : bool :=
  match s with
  | String c r => is_hex c && all_hex r
  | EmptyString => true
  end.

Lemma all_hex_append (a b : string) :
  all_hex (a ++ b) = all_hex a && all_hex b.
Proof.
  induction a as [|c a IH]; [reflexivity|].
  cbn [append all_hex]. now rewrite IH, andb_assoc.
Qed.

Lemma byte_hex (b : Byte.byte) :
  length (padStart2 (toString16 (Byte.to_N b))) = 2
  /\ all_hex (padStart2 (toString16 (Byte.to_N b))) = true.
Proof. destruct b; split; reflexivity. Qed.

Lemma hex_char_is_hex (n : N) : (n < 16)%N -> is_hex (hex_char n) = true.
Proof.
  intros H.
  assert (E : existsb (N.eqb n) [0; 1; 2; 3; 4; 5; 6; 7; 8; 9; 10; 11; 12; 13; 14; 15]%N
              = true).
  { cbn [existsb]. rewrite !orb_true_iff, !N.eqb_eq. lia. }
  cbn [existsb] in E. rewrite !orb_true_iff, !N.eqb_eq in E.
  repeat destruct E as [E | E]; try discriminate; subst; reflexivity.
Qed.

Lemma hex_digits_all_hex (fuel : nat) (n : N) (acc : string) :
  all_hex acc = true -> all_hex (hex_digits fuel n acc) = true.
Proof.
  revert n acc. induction fuel as [|fuel IH]; intros n acc Hacc; [exact Hacc|].
  cbn [hex_digits].
  assert (H : all_hex (String (hex_char (n mod 16)) acc) = true).
  { cbn [all_hex]. rewrite Hacc, hex_char_is_hex; [reflexivity|].
    apply N.mod_lt. discriminate. }
  destruct (n <? 16)%N; [exact H | apply IH, H].
Qed.

Lemma concat_hex (parts : list string) :
  Forall (fun p => all_hex p = true) parts -> all_hex (concat "" parts) = true.
Proof.
  induction 1 as [|p parts Hp _ IH]; [reflexivity|].
  cbn [concat]. destruct parts as [|q parts]; [exact Hp|].
  cbn [append]. rewrite all_hex_append, Hp. exact IH.
Qed.

Lemma concat_length2 (parts : list string) :
  Forall (fun p => length p = 2) parts ->
  length (concat "" parts) = 2 * List.length parts.
Proof.
  induction 1 as [|p parts Hp _ IH]; [reflexivity|].
  cbn [concat List.length]. destruct parts as [|q parts].
  - rewrite Hp. reflexivity.
  - cbn [append]. rewrite length_append, Hp, IH. cbn [List.length]. lia.
Qed.

(** X21. In a secure context the hash of a password is two lower-case
    hexadecimal digits for each byte of the digest, whatever the password:
    its length does not depend on the password. Without [crypto.subtle]
    the hash is made of hexadecimal digits too, but it is the mere list of
    the character codes, without padding: its length grows with the
    password, the empty password has the empty hash, and two different
    passwords can have the same hash. *)
Theorem hashPassword_digits (password : string) :
  (forall digest : list Byte.byte -> list Byte.byte,
      let hash := hashPassword (mkCrypto (Some digest)) password in
      length hash = 2 * List.length (digest (list_byte_of_string password))
      /\ all_hex hash = true)
  /\ all_hex (hashPassword (mkCrypto None) password) = true
  /\ hashPassword (mkCrypto None) "" = ""
  /\ (exists other : string,
        other <> "ab"
        /\ hashPassword (mkCrypto None) other = hashPassword (mkCrypto None) "ab").
Proof.
  split; [|split; [|split]].
  - intros digest. cbv zeta. unfold hashPassword. cbn [subtle]. split.
    + rewrite concat_length2; [now rewrite length_map|].
      apply Forall_forall. intros p Hp. apply in_map_iff in Hp as [b [<- _]].
      apply byte_hex.
    + apply concat_hex. apply Forall_forall. intros p Hp.
      apply in_map_iff in Hp as [b [<- _]]. apply byte_hex.
  - unfold hashPassword. cbn [subtle]. apply concat_hex.
    apply Forall_forall. intros p Hp. apply in_map_iff in Hp as [n [<- _]].
    apply hex_digits_all_hex. reflexivity.
  - reflexivity.
  - exists "慢". split; [discriminate | reflexivity].
Qed.

(** ** Example data *)

Lemma mockOrder_states (env env' : Env) (i : nat) :
  date_lt (currentDate env) (today env) = false ->
  date_lt (mkDate (timeClip (getTime (currentDate env) + 86400000 * 10)%float))
    (today env) = false ->
  date_lt (currentDate env) (today env') = true ->
  getOrderState env (mockOrder env i) = OPEN
  /\ getOrderState env' (mockOrder env i) = LATE.
Proof.
  intros H1 H2 H3. rewrite !getOrderState_cases.
  unfold isCompleted, late_any, late_dataTec, late_felpoCru, late_tinturaria,
    late_conf, late_requested, hasStarted, is_past.
  cbn [mockOrder qtyOpen qtyRequested stockCxQty dataTec felpoCruQty felpoCruDate
       tinturariaQty tinturariaDate confRoupoesQty confFelposQty confDate
       embAcabQty requestedDate].
  rewrite H1, H2, H3. split; reflexivity.
Qed.

(** X22. [generateMockOrders] gives as many orders as asked. Classified at
    the moment they are generated they are all OPEN; on any later day they
    are all LATE, because their weaving date is the moment of generation
    and nothing is woven. *)
Theorem generateMockOrders_states (env env' : Env) (count : nat) :
  date_lt (currentDate env) (today env) = false ->
  date_lt (mkDate (timeClip (getTime (currentDate env) + 86400000 * 10)%float))
    (today env) = false ->
  date_lt (currentDate env) (today env') = true ->
  List.length (generateMockOrders env count) = count
  /\ Forall (fun o => getOrderState env o = OPEN) (generateMockOrders env count)
  /\ Forall (fun o => getOrderState env' o = LATE) (generateMockOrders env count).
Proof.
  intros H1 H2 H3. unfold generateMockOrders. split; [|split].
  - now rewrite length_map, length_seq.
  - apply Forall_forall. intros o Ho. apply in_map_iff in Ho as [i [<- _]].
    apply (mockOrder_states env env' i H1 H2 H3).
  - apply Forall_forall. intros o Ho. apply in_map_iff in Ho as [i [<- _]].
    apply (mockOrder_states env env' i H1 H2 H3).
Qed.

Lemma generateMockOrders_states_witness :
  List.length (generateMockOrders demoEnv 20) = 20
  /\ Forall (fun o => getOrderState demoEnv o = OPEN) (generateMockOrders demoEnv 20)
  /\ Forall (fun o => getOrderState laterEnv o = LATE) (generateMockOrders demoEnv 20).
Proof.
  apply (generateMockOrders_states demoEnv laterEnv 20); vm_compute; reflexivity.
Defined.

(** ** The choice of the parser *)

Lemma endsWith_append (stem suffix : string) :
  endsWith (stem ++ suffix) suffix = true.
Proof.
  induction stem as [|c stem IH]; cbn [append].
  - destruct suffix; cbn [endsWith]; now rewrite String.eqb_refl.
  - cbn [endsWith]. rewrite IH. apply orb_true_r.
Qed.

(** No text that ends in [ending] ends in [suffix], when the last character
    differs. *)
Fixpoint last_char (s : string) : option ascii :=
  match s with
  | EmptyString => None
  | String c EmptyString => Some c
  | String _ r => last_char r
  end.

Lemma last_char_append (stem ending : string) :
  ending <> "" -> last_char (stem ++ ending) = last_char ending.
Proof.
  intros Hne. induction stem as [|c stem IH]; [reflexivity|].
  cbn [append last_char]. rewrite IH.
  destruct (stem ++ ending) eqn:E; [|reflexivity].
  destruct stem; [cbn in E; congruence | discriminate].
Qed.

Lemma endsWith_last_char (s suffix : string) :
  suffix <> "" -> endsWith s suffix = true -> last_char s = last_char suffix.
Proof.
  intros Hne. induction s as [|c s IH]; cbn [endsWith].
  - rewrite orb_false_r. intros H. apply String.eqb_eq in H. now subst.
  - rewrite orb_true_iff. intros [H | H].
    + apply String.eqb_eq in H. now rewrite H.
    + rewrite <- (IH H). cbn [last_char].
      destruct s; [|reflexivity].
      cbn [endsWith] in H. rewrite orb_false_r in H.
      apply String.eqb_eq in H. congruence.
Qed.

Lemma endsWith_other (stem ending suffix : string) :
  ending <> "" -> suffix <> "" -> last_char ending <> last_char suffix ->
  endsWith (stem ++ ending) suffix = false.
Proof.
  intros He Hs Hl. destruct (endsWith (stem ++ ending) suffix) eqn:E; [|reflexivity].
  apply endsWith_last_char in E; [|exact Hs].
  rewrite last_char_append in E by exact He. contradiction.
Qed.

Lemma parseDataFile_database (env : Env) (stem ending : string)
    (d : result Database) (w : result Workbook) :
  ending = ".sqlite" \/ ending = ".db" ->
  parseDataFile env (mkDataFile (stem ++ ending) d w) = parseSQLiteFile env d.
Proof.
  intros [-> | ->]; unfold parseDataFile; cbn [fileName asDatabase];
    rewrite endsWith_append; [reflexivity | now rewrite orb_true_r].
Qed.

Lemma parseDataFile_spreadsheet (env : Env) (stem ending : string)
    (d : result Database) (w : result Workbook) :
  ending <> "" -> last_char ending <> Some "e"%char ->
  last_char ending <> Some "b"%char ->
  parseDataFile env (mkDataFile (stem ++ ending) d w) = parseExcelFile env w.
Proof.
  intros He H1 H2. unfold parseDataFile. cbn [fileName asWorkbook].
  rewrite !endsWith_other by (assumption || discriminate). reflexivity.
Qed.

(** X23. A file that has the default name of its export is read by the
    parser of its own format, whatever the date: a database export by
    [parseSQLiteFile], the two spreadsheet exports by [parseExcelFile]. The
    extension is compared as it is written: a name in [.SQLITE] or [.DB] is
    handed to the spreadsheet parser. *)
Theorem parseDataFile_default_names (env : Env) (cal : Calendar)
    (d : result Database) (w : result Workbook) :
  parseDataFile env (mkDataFile (sqliteFileName env cal None) d w)
  = parseSQLiteFile env d
  /\ parseDataFile env (mkDataFile (excelFileName env cal None) d w)
     = parseExcelFile env w
  /\ parseDataFile env (mkDataFile (customColumnsFileName env cal None) d w)
     = parseExcelFile env w
  /\ (forall stem, parseDataFile env (mkDataFile (stem ++ ".db") d w)
                   = parseSQLiteFile env d)
  /\ (forall stem, parseDataFile env (mkDataFile (stem ++ ".SQLITE") d w)
                   = parseExcelFile env w)
  /\ (forall stem, parseDataFile env (mkDataFile (stem ++ ".DB") d w)
                   = parseExcelFile env w).
Proof.
  unfold sqliteFileName, excelFileName, customColumnsFileName, name_or.
  repeat split.
  - rewrite <- append_assoc. apply parseDataFile_database. now left.
  - rewrite <- append_assoc. apply parseDataFile_spreadsheet; discriminate.
  - rewrite <- !append_assoc. apply parseDataFile_spreadsheet; discriminate.
  - intros stem. apply parseDataFile_database. now right.
  - intros stem. apply parseDataFile_spreadsheet; discriminate.
  - intros stem. apply parseDataFile_spreadsheet; discriminate.
Qed.

(** ** Permissions and delivery *)

(** X24. [verifyPermission] never throws. It asks the user (calls
    [requestPermission]) only when the query answered something other than
    granted, and it answers [true] exactly when the query, or else the
    request, answered granted. The file of [exportOrdersToSQLite] always
    ends up somewhere: in the directory when there is a handle, the
    permission is verified and the writing succeeds, and as a download in
    every other case. *)
Theorem verifyPermission_and_delivery (h : DirectoryHandle) (readWrite : bool)
    (name : string) :
  verifyPermission None readWrite = (false, [])
  /\ (In Requested (snd (verifyPermission (Some h) readWrite))
      <-> exists s, queryPermission h readWrite = Ok s /\ s <> granted)
  /\ (fst (verifyPermission (Some h) readWrite) = true
      <-> queryPermission h readWrite = Ok granted
          \/ ((exists s, queryPermission h readWrite = Ok s /\ s <> granted)
              /\ requestPermission h readWrite = Ok granted))
  /\ deliver None name = Downloaded name
  /\ (deliver (Some h) name = InDirectory name
      <-> fst (verifyPermission (Some h) true) = true
          /\ exists u, writeFile h name = Ok u)
  /\ (deliver (Some h) name <> InDirectory name ->
      deliver (Some h) name = Downloaded name).
Proof.
  split; [reflexivity|].
  split; [|split; [|split; [reflexivity|split]]].
  - unfold verifyPermission.
    destruct (queryPermission h readWrite) as [s|m].
    + destruct s; cbn [is_granted].
      * cbn. split; [intros [H | []]; discriminate H|].
        intros (s & E & Hs). injection E as <-. now elim Hs.
      * split; [intros _; exists denied; split; [reflexivity | discriminate]|].
        intros _. destruct (requestPermission h readWrite); cbn; tauto.
      * split; [intros _; exists prompt; split; [reflexivity | discriminate]|].
        intros _. destruct (requestPermission h readWrite); cbn; tauto.
    + cbn. split; [intros [H | []]; discriminate H|].
      intros (s & E & _). discriminate E.
  - unfold verifyPermission.
    destruct (queryPermission h readWrite) as [s|m].
    + destruct s; cbn [is_granted].
      * cbn. split; [intros _; now left | reflexivity].
      * destruct (requestPermission h readWrite) as [s'|m']; cbn [fst].
        -- split.
           ++ intros H. right. split; [exists denied; split; [reflexivity | discriminate]|].
              destruct s'; try discriminate H. reflexivity.
           ++ intros [H | [_ H]]; [discriminate H|]. injection H as ->. reflexivity.
        -- split; [discriminate|]. intros [H | [_ H]]; discriminate H.
      * destruct (requestPermission h readWrite) as [s'|m']; cbn [fst].
        -- split.
           ++ intros H. right. split; [exists prompt; split; [reflexivity | discriminate]|].
              destruct s'; try discriminate H. reflexivity.
           ++ intros [H | [_ H]]; [discriminate H|]. injection H as ->. reflexivity.
        -- split; [discriminate|]. intros [H | [_ H]]; discriminate H.
    + cbn. split; [discriminate|].
      intros [H | [(s & E & _) _]]; [discriminate H | discriminate E].
  - unfold deliver.
    destruct (fst (verifyPermission (Some h) true));
      destruct (writeFile h name) as [u|m]; split; intros H.
    + split; [reflexivity | now exists u].
    + reflexivity.
    + discriminate H.
    + destruct H as [_ [u E]]. discriminate E.
    + discriminate H.
    + destruct H as [H _]. discriminate H.
    + discriminate H.
    + destruct H as [H _]. discriminate H.
  - unfold deliver.
    destruct (fst (verifyPermission (Some h) true));
      destruct (writeFile h name) as [u|m]; intros H; try reflexivity.
    now elim H.
Qed.
(** ** The week of a date in a host in UTC *)

(** The day number of the Monday of the week of day [n] (day 0, the first
    of January 1970, was a Thursday). *)
Definition mondayOf (n : Z) : Z := (n - (n + 3) mod 7)%Z.

(** X25. In a host in UTC, for every date at least a week inside the range
    of dates, [getWeekRange] gives the Monday of the week of the date at
    00:00:00.000 and the Sunday after it at 23:59:59.999: seven days less
    one millisecond that contain the date. *)
Theorem getWeekRange_utc (clock : Date) (t : Z) :
  (Z.abs t <= maxTime - 7 * Utc.msPerDay)%Z ->
  let start := (mondayOf (t / Utc.msPerDay) * Utc.msPerDay)%Z in
  getWeekRange (Utc.env clock) (Utc.ofMs t)
  = (Utc.ofMs start, Utc.ofMs (start + 7 * Utc.msPerDay - 1))
  /\ (start <= t <= start + 7 * Utc.msPerDay - 1)%Z
  /\ Utc.getDay (Utc.ofMs start) = 1%Z
  /\ Utc.getDay (Utc.ofMs (start + 7 * Utc.msPerDay - 1)) = 0%Z.
Proof.
  intros Ht. cbv zeta. unfold mondayOf, maxTime, Utc.msPerDay in *.
  set (n := (t / 86400000)%Z).
  assert (Hn : (n * 86400000 <= t < n * 86400000 + 86400000)%Z).
  { unfold n. Z.div_mod_to_equations. lia. }
  assert (Hw : (0 <= (n + 3) mod 7 < 7)%Z) by (apply Z.mod_pos_bound; lia).
  set (w := ((n + 3) mod 7)%Z) in *.
  assert (Hday : ((n + 4) mod 7 = if (w =? 6)%Z then 0 else w + 1)%Z).
  { unfold w. destruct ((n + 3) mod 7 =? 6)%Z eqn:E.
    - apply Z.eqb_eq in E. Z.div_mod_to_equations. lia.
    - apply Z.eqb_neq in E. Z.div_mod_to_equations. lia. }
  assert (Hstart : Utc.setHours (Utc.ofMs t) 0 0 0 0 = Utc.ofMs (n * 86400000)).
  { rewrite setHours_ofMs by (unfold maxTime; lia).
    unfold Utc.msPerDay. fold n. f_equal. lia. }
  assert (Hgd : Utc.getDay (Utc.ofMs (n * 86400000)) = ((n + 4) mod 7)%Z).
  { rewrite getDay_ofMs by (unfold maxTime; lia).
    unfold Utc.msPerDay. now rewrite Z.div_mul by lia. }
  split; [|split; [lia|split]].
  - unfold getWeekRange.
    cbn [setHours getDay getDate setDate Utc.env].
    rewrite Hstart, Hgd, Hday.
    replace (Utc.getDate (Utc.ofMs (n * 86400000))
             - (if (w =? 6)%Z then 0 else w + 1)
             + (if ((if (w =? 6)%Z then 0 else w + 1) =? 0)%Z then -6 else 1))%Z
      with (Utc.getDate (Utc.ofMs (n * 86400000)) + (- w))%Z.
    2:{ destruct (w =? 6)%Z eqn:E.
        - apply Z.eqb_eq in E. cbn. lia.
        - apply Z.eqb_neq in E.
          destruct (w + 1 =? 0)%Z eqn:E'; [apply Z.eqb_eq in E'; lia | lia]. }
    rewrite setDate_ofMs by (unfold maxTime; lia).
    unfold Utc.msPerDay.
    replace (n * 86400000 + - w * 86400000)%Z with ((n - w) * 86400000)%Z by lia.
    rewrite setDate_ofMs by (unfold maxTime; lia).
    rewrite setHours_ofMs by (unfold maxTime, Utc.msPerDay; lia).
    unfold Utc.msPerDay. f_equal. f_equal.
    replace ((n - w) * 86400000 + 6 * 86400000)%Z with ((n - w + 6) * 86400000)%Z
      by lia.
    rewrite Z.div_mul by lia. lia.
  - rewrite getDay_ofMs by (unfold maxTime; lia).
    unfold Utc.msPerDay. rewrite Z.div_mul by lia.
    unfold w. Z.div_mod_to_equations. lia.
  - rewrite getDay_ofMs by (unfold maxTime; lia).
    unfold Utc.msPerDay, w. Z.div_mod_to_equations. lia.
Qed.

Lemma getWeekRange_utc_witness :
  Utc.ofMs 1793611992345 = demoClock
  /\ getWeekRange demoEnv demoClock
     = (Utc.parse "2026-11-02T00:00:00.000Z", Utc.parse "2026-11-08T23:59:59.999Z").
Proof.
  split; [vm_compute; reflexivity|].
  destruct (getWeekRange_utc demoClock 1793611992345) as [H _].
  - vm_compute. discriminate.
  - vm_compute in H |- *. exact H.
Defined.

